(** * Blockchain Voting: the election ledger contracts

    A shallow embedding of the Solidity contracts of the repository and
    the properties of their transaction logic:

    - [VotingContract]     contracts/VotingContract.sol together with its
                           base contract contracts/AccessControl.sol
                           (VotingAccessControl);
    - [RoleVotingContract] the VotingContract that is role management only
                           (voter and admin registration);
    - [VotingSystem]       contracts/VotingSystem.sol, the owner-gated
                           simple variant.

    Storage is a record, one field per state variable. A [mapping] is a
    finite map read with the zero value as default; a [mapping(_ => bool)]
    that is only ever set to [true] is the finite set of its keys. A
    [uint256] is an [N] below [2^256]: checked arithmetic reverts with
    [Panic 0x11], OpenZeppelin's [Counters] wrap around. An external call
    is a function [Msg -> ... -> State -> result State]; a call that
    reverts leaves the storage as it was ([transact]). Event logs are not
    storage and are left out. *)

From Stdlib Require Import NArith Lia String List.
From stdpp Require Import gmap strings list fin_maps fin_sets.

Open Scope N_scope.

(** ** Solidity values and the revert monad *)

Abbreviation address := N.
Abbreviation uint256 := N.

Definition MAX_UINT256 : N := 2 ^ 256 - 1.

Inductive Error :=
| Revert (reason : string)                (* require(cond, reason) *)
| Panic (code : N)                        (* 0x11: arithmetic overflow *)
| MissingRole (account : address)         (* OpenZeppelin onlyRole *)
| ElectionNotFound (electionId : uint256)
| CandidateNotFound (candidateId : uint256)
| VoterNotAuthorized (voter : address)
| VoterAlreadyVoted (voter : address)
| ElectionNotActive (electionId : uint256)
| ElectionNotStarted (electionId : uint256)
| ElectionEnded (electionId : uint256)
| InvalidTimeRange (startTime endTime : uint256)
| InvalidCandidateData (name description : string)
| DuplicateCandidate (candidateId : uint256).

Inductive result (A : Type) :=
| Ok (a : A)
| Err (e : Error).
Arguments Ok {A} a.
Arguments Err {A} e.

#[global] Instance result_ret : MRet result := fun A a => Ok a.
#[global] Instance result_bind : MBind result :=
  fun A B f r => match r with Ok a => f a | Err e => Err e end.

#[global] Instance result_fmap : FMap result :=
  fun A B f r => match r with Ok a => Ok (f a) | Err e => Err e end.

Definition is_Ok {A} (r : result A) : Prop := exists a, r = Ok a.
Definition is_Err {A} (r : result A) : Prop := exists e, r = Err e.

Definition require (cond : bool) (reason : string) : result unit :=
  if cond then Ok tt else Err (Revert reason).

(** [x++] on a [uint256] under Solidity 0.8 checked arithmetic. *)
Definition checked_inc (x : uint256) : result uint256 :=
  if x <? MAX_UINT256 then Ok (x + 1) else Err (Panic 17).

(** [msg.sender] and [block.timestamp] of a call. *)
Record Msg := mkMsg { sender : address; timestamp : uint256 }.

(** Read of a [mapping(_ => uint256)]. *)
Definition mget `{Countable K} (m : gmap K N) (k : K) : N := default 0 (m !! k).

(** The sum of [f] over the values of a mapping, and over an array. *)
Definition map_sum `{Countable K} {A} (f : A -> N) (m : gmap K A) : N :=
  map_fold (fun _ x acc => f x + acc) 0 m.

Definition sum_list (l : list N) : N := foldr N.add 0 l.

(** ** OpenZeppelin library contracts (v4), as the contracts use them *)

(** Role identifiers: [DEFAULT_ADMIN_ROLE] is [0x00], the three named
    ones are the keccak256 hashes the contracts declare, anything else a
    caller may pass is [OTHER_ROLE]. *)
Inductive Role :=
| DEFAULT_ADMIN_ROLE
| ADMIN_ROLE
| VOTER_ROLE
| ELECTION_CREATOR_ROLE
| OTHER_ROLE (h : N).

#[global] Instance Role_eq_dec : EqDecision Role.
Proof. solve_decision. Defined.

Definition Role_code (r : Role) : nat + N :=
  match r with
  | DEFAULT_ADMIN_ROLE => inl 0%nat
  | ADMIN_ROLE => inl 1%nat
  | VOTER_ROLE => inl 2%nat
  | ELECTION_CREATOR_ROLE => inl 3%nat
  | OTHER_ROLE h => inr h
  end.

Definition Role_decode (c : nat + N) : Role :=
  match c with
  | inl 0%nat => DEFAULT_ADMIN_ROLE
  | inl 1%nat => ADMIN_ROLE
  | inl 2%nat => VOTER_ROLE
  | inl _ => ELECTION_CREATOR_ROLE
  | inr h => OTHER_ROLE h
  end.

#[global] Instance Role_countable : Countable Role.
Proof. apply (inj_countable' Role_code Role_decode). by intros []. Defined.

Module Counters.
(** [Counters.increment] is [unchecked { counter._value += 1; }]. *)
Definition increment (c : uint256) : uint256 := (c + 1) mod 2 ^ 256.
Definition current (c : uint256) : uint256 := c.
End Counters.

Module AccessControl.

(** [mapping(bytes32 => RoleData) _roles], with
    [RoleData { mapping(address => bool) members; bytes32 adminRole; }]. *)
Record RoleStore := mkRoles {
  members : gset (Role * address);
  adminRole : gmap Role Role
}.

Definition empty : RoleStore := mkRoles ∅ ∅.

Definition hasRole (rs : RoleStore) (role : Role) (account : address) : bool :=
  bool_decide ((role, account) ∈ members rs).

Definition getRoleAdmin (rs : RoleStore) (role : Role) : Role :=
  default DEFAULT_ADMIN_ROLE (adminRole rs !! role).

Definition _grantRole (role : Role) (account : address) (rs : RoleStore) : RoleStore :=
  if hasRole rs role account then rs
  else mkRoles ({[ (role, account) ]} ∪ members rs) (adminRole rs).

Definition _revokeRole (role : Role) (account : address) (rs : RoleStore) : RoleStore :=
  if hasRole rs role account
  then mkRoles (members rs ∖ {[ (role, account) ]}) (adminRole rs)
  else rs.

Definition _setupRole := _grantRole.

Definition _setRoleAdmin (role admin : Role) (rs : RoleStore) : RoleStore :=
  mkRoles (members rs) (<[role := admin]> (adminRole rs)).

Definition onlyRole (m : Msg) (role : Role) (rs : RoleStore) : result unit :=
  if hasRole rs role (sender m) then Ok tt else Err (MissingRole (sender m)).

Definition grantRole (m : Msg) (role : Role) (account : address)
    (rs : RoleStore) : result RoleStore :=
  onlyRole m (getRoleAdmin rs role) rs ;;
  mret (_grantRole role account rs).

Definition revokeRole (m : Msg) (role : Role) (account : address)
    (rs : RoleStore) : result RoleStore :=
  onlyRole m (getRoleAdmin rs role) rs ;;
  mret (_revokeRole role account rs).

Definition renounceRole (m : Msg) (role : Role) (account : address)
    (rs : RoleStore) : result RoleStore :=
  require (bool_decide (account = sender m))
    "AccessControl: can only renounce roles for self" ;;
  mret (_revokeRole role account rs).

(** [getRoleMemberCount] of the enumerable extension: the number of
    accounts that hold [role]. *)
Definition roleMembers (rs : RoleStore) (role : Role) : gset (Role * address) :=
  filter (fun p => p.1 = role) (members rs).

Definition getRoleMemberCount (rs : RoleStore) (role : Role) : uint256 :=
  N.of_nat (size (roleMembers rs role)).

End AccessControl.

(** ** VotingContract (contracts/VotingContract.sol, contracts/AccessControl.sol) *)

Module VotingContract.

Module Election.
Record t := mk {
    id : uint256;
    title : string;
    description : string;
    startTime : uint256;
    endTime : uint256;
    isActive : bool;
    totalVotes : uint256;
    candidateIds : list uint256;
    hasVoted : gset address;           (* mapping(address => bool) *)
    votes : gmap uint256 uint256;      (* mapping(uint256 => uint256) *)
    creator : address;
    createdAt : uint256
  }.
  (** The value of a storage slot that was never written. *)
Definition zero : t := mk 0 "" "" 0 0 false 0 [] ∅ ∅ 0 0.
End Election.

Module Candidate.
Record t := mk {
    id : uint256;
    name : string;
    description : string;
    voteCount : uint256;
    exists_ : bool;
    addedBy : address;
    addedAt : uint256
  }.
Definition zero : t := mk 0 "" "" 0 false 0 0.
End Candidate.

Module VoterProfile.
Record t := mk {
    voterAddress : address;
    isRegistered : bool;
    isEligible : bool;
    registrationTime : uint256;
    totalVotesCast : uint256;
    electionsVotedIn : gset uint256    (* mapping(uint256 => bool) *)
  }.
Definition zero : t := mk 0 false false 0 0 ∅.
End VoterProfile.

Record State := mkState {
  _roles : AccessControl.RoleStore;             (* AccessControl *)
  _entered : bool;                              (* ReentrancyGuard._status == _ENTERED *)
  voterRegistrationTime : gmap address uint256; (* VotingAccessControl *)
  isVoterRegistered : gset address;
  _paused : bool;                               (* Pausable *)
  _electionIds : uint256;                       (* Counters.Counter *)
  _candidateIds : uint256;
  elections : gmap uint256 Election.t;
  candidates : gmap uint256 Candidate.t;
  voterProfiles : gmap address VoterProfile.t
}.

Definition set_roles (f : AccessControl.RoleStore -> AccessControl.RoleStore) (s : State) : State :=
  mkState (f (_roles s)) (_entered s) (voterRegistrationTime s) (isVoterRegistered s)
    (_paused s) (_electionIds s) (_candidateIds s) (elections s) (candidates s) (voterProfiles s).
Definition set_entered (b : bool) (s : State) : State :=
  mkState (_roles s) b (voterRegistrationTime s) (isVoterRegistered s)
    (_paused s) (_electionIds s) (_candidateIds s) (elections s) (candidates s) (voterProfiles s).
Definition set_paused (b : bool) (s : State) : State :=
  mkState (_roles s) (_entered s) (voterRegistrationTime s) (isVoterRegistered s)
    b (_electionIds s) (_candidateIds s) (elections s) (candidates s) (voterProfiles s).

Definition hasRole (s : State) (role : Role) (account : address) : bool :=
  AccessControl.hasRole (_roles s) role account.

(** [elections[id]], [candidates[id]], [voterProfiles[a]] as storage reads. *)
Definition election (s : State) (electionId : uint256) : Election.t :=
  default Election.zero (elections s !! electionId).
Definition candidate (s : State) (candidateId : uint256) : Candidate.t :=
  default Candidate.zero (candidates s !! candidateId).
Definition voterProfile (s : State) (a : address) : VoterProfile.t :=
  default VoterProfile.zero (voterProfiles s !! a).

(** *** Modifiers *)

Definition onlyAdmin (m : Msg) (s : State) : result unit :=
  require (hasRole s ADMIN_ROLE (sender m)) "AccessControl: Must have admin role".

Definition onlyElectionCreator (m : Msg) (s : State) : result unit :=
  require (hasRole s ELECTION_CREATOR_ROLE (sender m))
    "AccessControl: Must have election creator role".

Definition onlyVoter (m : Msg) (s : State) : result unit :=
  require (hasRole s VOTER_ROLE (sender m)) "AccessControl: Must have voter role".

Definition electionExists (_electionId : uint256) (s : State) : result unit :=
  if (_electionId =? 0) || (Counters.current (_electionIds s) <? _electionId)
  then Err (ElectionNotFound _electionId)
  else Ok tt.

Definition candidateExists (_candidateId : uint256) (s : State) : result unit :=
  if negb (Candidate.exists_ (candidate s _candidateId))
  then Err (CandidateNotFound _candidateId)
  else Ok tt.

Definition onlyDuringElection (m : Msg) (_electionId : uint256) (s : State) : result unit :=
  let election := election s _electionId in
  if negb (Election.isActive election) then Err (ElectionNotActive _electionId)
  else if timestamp m <? Election.startTime election then Err (ElectionNotStarted _electionId)
  else if Election.endTime election <? timestamp m then Err (ElectionEnded _electionId)
  else Ok tt.

Definition hasNotVoted (m : Msg) (_electionId : uint256) (s : State) : result unit :=
  if bool_decide (sender m ∈ Election.hasVoted (election s _electionId))
  then Err (VoterAlreadyVoted (sender m))
  else Ok tt.

Definition whenNotPaused (s : State) : result unit :=
  require (negb (_paused s)) "Pausable: paused".

Definition whenPaused (s : State) : result unit :=
  require (_paused s) "Pausable: not paused".

Definition nonReentrant (body : State -> result State) (s : State) : result State :=
  require (negb (_entered s)) "ReentrancyGuard: reentrant call" ;;
  s' ← body (set_entered true s);
  mret (set_entered false s').

(** *** VotingAccessControl *)

Definition constructor (m : Msg) : State :=
  mkState
    (AccessControl._setupRole ELECTION_CREATOR_ROLE (sender m)
      (AccessControl._setupRole ADMIN_ROLE (sender m)
        (AccessControl._setupRole DEFAULT_ADMIN_ROLE (sender m) AccessControl.empty)))
    false ∅ ∅ false 0 0 ∅ ∅ ∅.

(** The three writes that register [_voter], shared by [registerVoter]
    and the loop body of [batchRegisterVoters]. *)
Definition register (m : Msg) (_voter : address) (s : State) : State :=
  mkState (AccessControl._grantRole VOTER_ROLE _voter (_roles s)) (_entered s)
    (<[_voter := timestamp m]> (voterRegistrationTime s))
    ({[ _voter ]} ∪ isVoterRegistered s)
    (_paused s) (_electionIds s) (_candidateIds s) (elections s) (candidates s)
    (voterProfiles s).

Definition registerVoter (m : Msg) (_voter : address) (s : State) : result State :=
  onlyAdmin m s ;;
  require (negb (bool_decide (_voter ∈ isVoterRegistered s)))
    "AccessControl: Voter already registered" ;;
  mret (register m _voter s).

Definition grantElectionCreatorRole (m : Msg) (_account : address) (s : State) : result State :=
  onlyAdmin m s ;;
  mret (set_roles (AccessControl._grantRole ELECTION_CREATOR_ROLE _account) s).

Definition revokeElectionCreatorRole (m : Msg) (_account : address) (s : State) : result State :=
  onlyAdmin m s ;;
  mret (set_roles (AccessControl._revokeRole ELECTION_CREATOR_ROLE _account) s).

Definition isRegisteredVoter (s : State) (_voter : address) : bool :=
  hasRole s VOTER_ROLE _voter.

Definition getVoterRegistrationTime (s : State) (_voter : address) : result uint256 :=
  require (bool_decide (_voter ∈ isVoterRegistered s)) "AccessControl: Voter not registered" ;;
  mret (mget (voterRegistrationTime s) _voter).

(** The [for] loop of [batchRegisterVoters], one iteration per element. *)
Fixpoint batchRegisterVoters_loop (m : Msg) (_voters : list address) (s : State) : State :=
  match _voters with
  | [] => s
  | v :: rest =>
      batchRegisterVoters_loop m rest
        (if negb (bool_decide (v ∈ isVoterRegistered s)) then register m v s else s)
  end.

Definition batchRegisterVoters (m : Msg) (_voters : list address) (s : State) : result State :=
  onlyAdmin m s ;;
  require (0 <? N.of_nat (length _voters)) "AccessControl: Empty voters array" ;;
  require (N.of_nat (length _voters) <=? 100) "AccessControl: Too many voters in batch" ;;
  mret (batchRegisterVoters_loop m _voters s).

(** *** VotingContract proper *)

Definition set_isActive (b : bool) (e : Election.t) : Election.t :=
  Election.mk (Election.id e) (Election.title e) (Election.description e)
    (Election.startTime e) (Election.endTime e) b (Election.totalVotes e)
    (Election.candidateIds e) (Election.hasVoted e) (Election.votes e)
    (Election.creator e) (Election.createdAt e).

Definition set_elections (es : gmap uint256 Election.t) (s : State) : State :=
  mkState (_roles s) (_entered s) (voterRegistrationTime s) (isVoterRegistered s)
    (_paused s) (_electionIds s) (_candidateIds s) es (candidates s) (voterProfiles s).

(** The parameter [_candidateIds] of the source shadows the candidate
    counter of the same name; here it is [_candidateIds']. *)
Definition createElection (m : Msg) (_title _description : string)
    (_startTime _endTime : uint256) (_candidateIds' : list uint256)
    (s : State) : result State :=
  onlyElectionCreator m s ;;
  whenNotPaused s ;;
  if _endTime <=? _startTime then Err (InvalidTimeRange _startTime _endTime)
  else if _startTime <=? timestamp m then Err (InvalidTimeRange _startTime (timestamp m))
  else
    let ids := Counters.increment (_electionIds s) in
    let electionId := Counters.current ids in
    (* [Election storage newElection = elections[electionId]]: the two
       mappings of the slot are not assigned. *)
    let newElection := default Election.zero (elections s !! electionId) in
    let newElection :=
      Election.mk electionId _title _description _startTime _endTime true 0
        _candidateIds' (Election.hasVoted newElection) (Election.votes newElection)
        (sender m) (timestamp m) in
    mret (mkState (_roles s) (_entered s) (voterRegistrationTime s) (isVoterRegistered s)
            (_paused s) ids (_candidateIds s)
            (<[electionId := newElection]> (elections s)) (candidates s) (voterProfiles s)).

Definition addCandidate (m : Msg) (_name _description : string) (s : State) : result State :=
  onlyElectionCreator m s ;;
  whenNotPaused s ;;
  if (String.length _name =? 0)%nat || (String.length _description =? 0)%nat
  then Err (InvalidCandidateData _name _description)
  else
    let ids := Counters.increment (_candidateIds s) in
    let candidateId := Counters.current ids in
    mret (mkState (_roles s) (_entered s) (voterRegistrationTime s) (isVoterRegistered s)
            (_paused s) (_electionIds s) ids (elections s)
            (<[candidateId :=
                 Candidate.mk candidateId _name _description 0 true (sender m) (timestamp m)]>
               (candidates s))
            (voterProfiles s)).

(** The roster scan of [castVote]: first match wins. *)
Fixpoint candidateInElection (ids : list uint256) (_candidateId : uint256) : bool :=
  match ids with
  | [] => false
  | i :: rest => if i =? _candidateId then true else candidateInElection rest _candidateId
  end.

(** The writes of [castVote] ("Record the vote", "Update voter profile"),
    given the incremented counters [v] (the election's votes for the
    candidate), [t] (its totalVotes), [c] (the candidate's voteCount) and
    [n] (the voter's totalVotesCast). *)
Definition recordVote (m : Msg) (_electionId _candidateId : uint256)
    (v t c n : uint256) (s : State) : State :=
  let election := election s _electionId in
  let candidate := candidate s _candidateId in
  let profile := voterProfile s (sender m) in
  let election' :=
    Election.mk (Election.id election) (Election.title election)
      (Election.description election) (Election.startTime election)
      (Election.endTime election) (Election.isActive election) t
      (Election.candidateIds election)
      ({[ sender m ]} ∪ Election.hasVoted election)
      (<[_candidateId := v]> (Election.votes election))
      (Election.creator election) (Election.createdAt election) in
  let candidate' :=
    Candidate.mk (Candidate.id candidate) (Candidate.name candidate)
      (Candidate.description candidate) c (Candidate.exists_ candidate)
      (Candidate.addedBy candidate) (Candidate.addedAt candidate) in
  let profile' :=
    VoterProfile.mk (VoterProfile.voterAddress profile) (VoterProfile.isRegistered profile)
      (VoterProfile.isEligible profile) (VoterProfile.registrationTime profile) n
      ({[ _electionId ]} ∪ VoterProfile.electionsVotedIn profile) in
  mkState (_roles s) (_entered s) (voterRegistrationTime s) (isVoterRegistered s)
    (_paused s) (_electionIds s) (_candidateIds s)
    (<[_electionId := election']> (elections s))
    (<[_candidateId := candidate']> (candidates s))
    (<[sender m := profile']> (voterProfiles s)).

Definition castVote_body (m : Msg) (_electionId _candidateId : uint256)
    (s : State) : result State :=
  let election := election s _electionId in
  let candidate := candidate s _candidateId in
  (* Verify candidate is part of this election *)
  require (candidateInElection (Election.candidateIds election) _candidateId)
    "VotingContract: Candidate not in this election" ;;
  v ← checked_inc (mget (Election.votes election) _candidateId);
  t ← checked_inc (Election.totalVotes election);
  c ← checked_inc (Candidate.voteCount candidate);
  n ← checked_inc (VoterProfile.totalVotesCast (voterProfile s (sender m)));
  mret (recordVote m _electionId _candidateId v t c n s).

Definition castVote (m : Msg) (_electionId _candidateId : uint256) (s : State) : result State :=
  onlyVoter m s ;;
  electionExists _electionId s ;;
  candidateExists _candidateId s ;;
  onlyDuringElection m _electionId s ;;
  hasNotVoted m _electionId s ;;
  whenNotPaused s ;;
  nonReentrant (castVote_body m _electionId _candidateId) s.

Definition getElection (s : State) (_electionId : uint256) : result Election.t :=
  electionExists _electionId s ;;
  mret (election s _electionId).

Definition getCandidate (s : State) (_candidateId : uint256) : result Candidate.t :=
  candidateExists _candidateId s ;;
  mret (candidate s _candidateId).

Definition getElectionResults (s : State) (_electionId : uint256)
    : result (list uint256 * list uint256) :=
  electionExists _electionId s ;;
  let election := election s _electionId in
  mret (Election.candidateIds election,
        map (mget (Election.votes election)) (Election.candidateIds election)).

Definition endElection (m : Msg) (_electionId : uint256) (s : State) : result State :=
  onlyElectionCreator m s ;;
  electionExists _electionId s ;;
  let election := election s _electionId in
  require (Election.isActive election) "VotingContract: Election already ended" ;;
  mret (set_elections (<[_electionId := set_isActive false election]> (elections s)) s).

Definition toggleElectionStatus (m : Msg) (_electionId : uint256) (s : State) : result State :=
  onlyElectionCreator m s ;;
  electionExists _electionId s ;;
  let election := election s _electionId in
  mret (set_elections
          (<[_electionId := set_isActive (negb (Election.isActive election)) election]>
             (elections s)) s).

Definition getTotalElections (s : State) : uint256 := Counters.current (_electionIds s).
Definition getTotalCandidates (s : State) : uint256 := Counters.current (_candidateIds s).

Definition hasVotedInElection (s : State) (_voter : address) (_electionId : uint256)
    : result bool :=
  electionExists _electionId s ;;
  mret (bool_decide (_voter ∈ Election.hasVoted (election s _electionId))).

Definition pause (m : Msg) (s : State) : result State :=
  onlyAdmin m s ;;
  whenNotPaused s ;;
  mret (set_paused true s).

Definition unpause (m : Msg) (s : State) : result State :=
  onlyAdmin m s ;;
  whenPaused s ;;
  mret (set_paused false s).

(** The entry points inherited from OpenZeppelin's AccessControl. *)
Definition grantRole (m : Msg) (role : Role) (account : address) (s : State) : result State :=
  rs ← AccessControl.grantRole m role account (_roles s);
  mret (set_roles (fun _ => rs) s).

Definition revokeRole (m : Msg) (role : Role) (account : address) (s : State) : result State :=
  rs ← AccessControl.revokeRole m role account (_roles s);
  mret (set_roles (fun _ => rs) s).

Definition renounceRole (m : Msg) (role : Role) (account : address) (s : State) : result State :=
  rs ← AccessControl.renounceRole m role account (_roles s);
  mret (set_roles (fun _ => rs) s).

(** *** Transactions and reachable states *)

Inductive Call :=
| call_registerVoter (_voter : address)
| call_batchRegisterVoters (_voters : list address)
| call_grantElectionCreatorRole (_account : address)
| call_revokeElectionCreatorRole (_account : address)
| call_createElection (_title _description : string) (_startTime _endTime : uint256)
    (_candidateIds' : list uint256)
| call_addCandidate (_name _description : string)
| call_castVote (_electionId _candidateId : uint256)
| call_endElection (_electionId : uint256)
| call_toggleElectionStatus (_electionId : uint256)
| call_pause
| call_unpause
| call_grantRole (role : Role) (account : address)
| call_revokeRole (role : Role) (account : address)
| call_renounceRole (role : Role) (account : address).

Definition execute (m : Msg) (c : Call) (s : State) : result State :=
  match c with
  | call_registerVoter v => registerVoter m v s
  | call_batchRegisterVoters vs => batchRegisterVoters m vs s
  | call_grantElectionCreatorRole a => grantElectionCreatorRole m a s
  | call_revokeElectionCreatorRole a => revokeElectionCreatorRole m a s
  | call_createElection t d st en ids => createElection m t d st en ids s
  | call_addCandidate n d => addCandidate m n d s
  | call_castVote e c => castVote m e c s
  | call_endElection e => endElection m e s
  | call_toggleElectionStatus e => toggleElectionStatus m e s
  | call_pause => pause m s
  | call_unpause => unpause m s
  | call_grantRole r a => grantRole m r a s
  | call_revokeRole r a => revokeRole m r a s
  | call_renounceRole r a => renounceRole m r a s
  end.

(** A transaction commits the new storage or, on revert, keeps the old. *)
Definition transact (m : Msg) (c : Call) (s : State) : State :=
  match execute m c s with
  | Ok s' => s'
  | Err _ => s
  end.

(** [reachable n s]: [s] is the storage after deployment and [n]
    transactions, by any senders at any block times. *)
Inductive reachable : nat -> State -> Prop :=
| reachable_deploy m : reachable 0 (constructor m)
| reachable_transact n s m c : reachable n s -> reachable (S n) (transact m c s).

(** The storage after a sequence of transactions. *)
Fixpoint run (txs : list (Msg * Call)) (s : State) : State :=
  match txs with
  | [] => s
  | (m, c) :: rest => run rest (transact m c s)
  end.

(** *** The tally of an election *)

(** [sum(E.perCandidateVotes.values())] over the [votes] mapping. *)
Definition sum_votes (votes : gmap uint256 uint256) : N :=
  map_fold (fun _ v acc => v + acc) 0 votes.

(** The number of addresses marked in [hasVoted]. *)
Definition ballotsCast (e : Election.t) : N := N.of_nat (size (Election.hasVoted e)).

Definition tally_consistent (e : Election.t) : Prop :=
  Election.totalVotes e = sum_votes (Election.votes e) /\
  Election.totalVotes e = ballotsCast e.

(** The registration record of VotingAccessControl. *)
Definition registry (s : State) := (isVoterRegistered s, voterRegistrationTime s).

(** The part of the storage the election ledger lives in. *)
Definition ledger (s : State) :=
  (_entered s, _electionIds s, elections s, candidates s, voterProfiles s).

(** What [n] transactions maintain: the guard is released, the election
    slots written are exactly those from 1 to the counter, every written
    election has a consistent tally and a proper window, and no counter
    exceeds [n]. *)
Record ledger_inv (n : nat) (s : State) : Prop := mk_ledger_inv {
  inv_entered : _entered s = false;
  inv_ids : _electionIds s <= N.of_nat n;
  inv_fresh : forall id, id = 0 \/ _electionIds s < id -> elections s !! id = None;
  inv_written : forall id, id <> 0 -> id <= _electionIds s -> is_Some (elections s !! id);
  inv_tally : forall id e, elections s !! id = Some e -> tally_consistent e;
  inv_total : forall id e, elections s !! id = Some e -> Election.totalVotes e <= N.of_nat n;
  inv_window : forall id e, elections s !! id = Some e ->
    Election.startTime e < Election.endTime e;
  inv_voteCount : forall id c, candidates s !! id = Some c ->
    Candidate.voteCount c <= N.of_nat n;
  inv_cast : forall a p, voterProfiles s !! a = Some p ->
    VoterProfile.totalVotesCast p <= N.of_nat n
}.

(** The checks of a vote as the specification lists them: the caller
    holds the Voter role; the election exists and is Open; the candidate
    exists and is in the election's roster; the caller has not already
    voted in that election. *)
Definition castVote_checks (m : Msg) (_electionId _candidateId : uint256) (s : State) : bool :=
  let e := election s _electionId in
  hasRole s VOTER_ROLE (sender m)
  && (negb (_electionId =? 0) && (_electionId <=? _electionIds s))
  && (Election.isActive e
      && (Election.startTime e <=? timestamp m) && (timestamp m <=? Election.endTime e))
  && (Candidate.exists_ (candidate s _candidateId)
      && candidateInElection (Election.candidateIds e) _candidateId)
  && negb (bool_decide (sender m ∈ Election.hasVoted e)).

(** A vote is committed from [s]: [castVote] returns a state, the one the
    transaction leaves behind, in which the caller is marked as having
    voted in the election, and the election's count for the candidate,
    its totalVotes and the candidate's global voteCount are each one
    higher than in [s]. *)
Definition castVote_recorded (m : Msg) (_electionId _candidateId : uint256) (s : State) : Prop :=
  exists s',
    castVote m _electionId _candidateId s = Ok s' /\
    transact m (call_castVote _electionId _candidateId) s = s' /\
    (sender m ∈ Election.hasVoted (election s' _electionId)) /\
    mget (Election.votes (election s' _electionId)) _candidateId
      = mget (Election.votes (election s _electionId)) _candidateId + 1 /\
    Election.totalVotes (election s' _electionId)
      = Election.totalVotes (election s _electionId) + 1 /\
    Candidate.voteCount (candidate s' _candidateId)
      = Candidate.voteCount (candidate s _candidateId) + 1.

(** A run of the contract: deployment by account 1, a voter (account 7),
    two candidates, one election open over [200, 300], then a vote. *)
Module Scenario.
Definition deployed : State := constructor (mkMsg 1 100).
Definition with_voter : State := transact (mkMsg 1 110) (call_registerVoter 7) deployed.
Definition with_alice : State :=
  transact (mkMsg 1 120) (call_addCandidate "Alice" "First candidate") with_voter.
Definition with_bob : State :=
  transact (mkMsg 1 130) (call_addCandidate "Bob" "Second candidate") with_alice.
Definition with_election : State :=
  transact (mkMsg 1 140) (call_createElection "E1" "General election" 200 300 [1; 2]) with_bob.
Definition after_vote : State :=
  transact (mkMsg 7 200) (call_castVote 1 1) with_election.
Definition paused : State := transact (mkMsg 1 150) call_pause with_election.
(** The same election, its roster naming candidate 99, which was never
    added. *)
Definition with_unknown_in_roster : State :=
  transact (mkMsg 1 140) (call_createElection "E1" "General election" 200 300 [1; 99]) with_bob.
End Scenario.

(** *** The candidate catalog and the voter profiles *)

(** The votes cast for candidate [c], summed over all elections. *)
Definition candidateTally (s : State) (c : uint256) : N :=
  map_sum (fun e => mget (Election.votes e) c) (elections s).

(** What [n] transactions maintain beside [ledger_inv]: the candidate
    slots written are exactly those from 1 to the counter, a written
    candidate or election carries its own id, a candidate's global
    voteCount is its tally over the elections, and only candidates of an
    election's roster have votes in it. *)
Record catalog_inv (n : nat) (s : State) : Prop := mk_catalog_inv {
  cat_ids : _candidateIds s <= N.of_nat n;
  cat_fresh : forall c, c = 0 \/ _candidateIds s < c -> candidates s !! c = None;
  cat_dense : forall c, c <> 0 -> c <= _candidateIds s -> is_Some (candidates s !! c);
  cat_written : forall c x, candidates s !! c = Some x ->
    Candidate.id x = c /\ Candidate.exists_ x = true;
  cat_tally : forall c, Candidate.voteCount (candidate s c) = candidateTally s c;
  cat_election_id : forall id e, elections s !! id = Some e -> Election.id e = id;
  cat_roster : forall id e c, elections s !! id = Some e ->
    is_Some (Election.votes e !! c) -> candidateInElection (Election.candidateIds e) c = true
}.

(** A voter's profile agrees with the per-election markers. *)
Definition profile_inv (s : State) : Prop :=
  forall a,
    VoterProfile.totalVotesCast (voterProfile s a)
      = N.of_nat (size (VoterProfile.electionsVotedIn (voterProfile s a))) /\
    forall eid,
      eid ∈ VoterProfile.electionsVotedIn (voterProfile s a)
      <-> a ∈ Election.hasVoted (election s eid).

(** No [grantRole(VOTER_ROLE, p)] among the calls. *)
Definition no_voter_grant (p : address) (txs : list (Msg * Call)) : Prop :=
  Forall (fun tx => snd tx <> call_grantRole VOTER_ROLE p) txs.

End VotingContract.

(** ** The role-management VotingContract (voter and admin registration only) *)

Module RoleVotingContract.

Record State := mkState {
  _roles : AccessControl.RoleStore;
  _entered : bool
}.

Definition hasRole (s : State) (role : Role) (account : address) : bool :=
  AccessControl.hasRole (_roles s) role account.

Definition getRoleMemberCount (s : State) (role : Role) : uint256 :=
  AccessControl.getRoleMemberCount (_roles s) role.

Definition constructor (m : Msg) : State :=
  mkState
    (AccessControl._setRoleAdmin VOTER_ROLE ADMIN_ROLE
      (AccessControl._grantRole ADMIN_ROLE (sender m)
        (AccessControl._grantRole DEFAULT_ADMIN_ROLE (sender m) AccessControl.empty)))
    false.

Definition onlyAdmin (m : Msg) (s : State) : result unit :=
  require (hasRole s ADMIN_ROLE (sender m)) "VotingContract: caller is not an admin".

Definition onlyVoter (m : Msg) (s : State) : result unit :=
  require (hasRole s VOTER_ROLE (sender m))
    "VotingContract: caller is not a registered voter".

Definition onlyAuthorized (m : Msg) (s : State) : result unit :=
  require (hasRole s ADMIN_ROLE (sender m) || hasRole s VOTER_ROLE (sender m))
    "VotingContract: caller is not authorized".

Definition nonReentrant (body : State -> result State) (s : State) : result State :=
  require (negb (_entered s)) "ReentrancyGuard: reentrant call" ;;
  s' ← body (mkState (_roles s) true);
  mret (mkState (_roles s') false).

Definition set_roles (f : AccessControl.RoleStore -> AccessControl.RoleStore) (s : State) : State :=
  mkState (f (_roles s)) (_entered s).

Definition registerVoter (m : Msg) (voter : address) (s : State) : result State :=
  onlyAdmin m s ;;
  nonReentrant (fun s =>
    require (negb (voter =? 0)) "VotingContract: invalid voter address" ;;
    require (negb (hasRole s VOTER_ROLE voter)) "VotingContract: voter already registered" ;;
    mret (set_roles (AccessControl._grantRole VOTER_ROLE voter) s)) s.

Fixpoint registerVotersBatch_loop (voters : list address) (s : State) : result State :=
  match voters with
  | [] => Ok s
  | voter :: rest =>
      require (negb (voter =? 0)) "VotingContract: invalid voter address" ;;
      registerVotersBatch_loop rest
        (if negb (hasRole s VOTER_ROLE voter)
         then set_roles (AccessControl._grantRole VOTER_ROLE voter) s
         else s)
  end.

Definition registerVotersBatch (m : Msg) (voters : list address) (s : State) : result State :=
  onlyAdmin m s ;;
  nonReentrant (fun s =>
    require (0 <? N.of_nat (length voters)) "VotingContract: empty voters array" ;;
    require (N.of_nat (length voters) <=? 100) "VotingContract: too many voters in batch" ;;
    registerVotersBatch_loop voters s) s.

Definition revokeVoter (m : Msg) (voter : address) (s : State) : result State :=
  onlyAdmin m s ;;
  nonReentrant (fun s =>
    require (negb (voter =? 0)) "VotingContract: invalid voter address" ;;
    require (hasRole s VOTER_ROLE voter) "VotingContract: voter not registered" ;;
    mret (set_roles (AccessControl._revokeRole VOTER_ROLE voter) s)) s.

Definition grantAdminRole (m : Msg) (newAdmin : address) (s : State) : result State :=
  onlyAdmin m s ;;
  nonReentrant (fun s =>
    require (negb (newAdmin =? 0)) "VotingContract: invalid admin address" ;;
    require (negb (hasRole s ADMIN_ROLE newAdmin))
      "VotingContract: address already has admin role" ;;
    mret (set_roles (AccessControl._grantRole ADMIN_ROLE newAdmin) s)) s.

Definition revokeAdminRole (m : Msg) (admin : address) (s : State) : result State :=
  onlyAdmin m s ;;
  nonReentrant (fun s =>
    require (negb (admin =? 0)) "VotingContract: invalid admin address" ;;
    require (hasRole s ADMIN_ROLE admin) "VotingContract: address does not have admin role" ;;
    require (negb (admin =? sender m)) "VotingContract: cannot revoke own admin role" ;;
    (* Ensure there's at least one admin remaining *)
    let adminCount := getRoleMemberCount s ADMIN_ROLE in
    require (1 <? adminCount) "VotingContract: cannot revoke last admin" ;;
    mret (set_roles (AccessControl._revokeRole ADMIN_ROLE admin) s)) s.

Definition isRegisteredVoter (s : State) (voter : address) : bool := hasRole s VOTER_ROLE voter.
Definition isAdmin (s : State) (admin : address) : bool := hasRole s ADMIN_ROLE admin.
Definition getVoterCount (s : State) : uint256 := getRoleMemberCount s VOTER_ROLE.
Definition getAdminCount (s : State) : uint256 := getRoleMemberCount s ADMIN_ROLE.

(** The entry points inherited from OpenZeppelin's AccessControl. *)
Definition grantRole (m : Msg) (role : Role) (account : address) (s : State) : result State :=
  rs ← AccessControl.grantRole m role account (_roles s);
  mret (set_roles (fun _ => rs) s).

Definition revokeRole (m : Msg) (role : Role) (account : address) (s : State) : result State :=
  rs ← AccessControl.revokeRole m role account (_roles s);
  mret (set_roles (fun _ => rs) s).

Definition renounceRole (m : Msg) (role : Role) (account : address) (s : State) : result State :=
  rs ← AccessControl.renounceRole m role account (_roles s);
  mret (set_roles (fun _ => rs) s).

(** The functions the contract declares itself; the three inherited
    entry points above are kept apart from them. *)
Inductive Call :=
| call_registerVoter (voter : address)
| call_registerVotersBatch (voters : list address)
| call_revokeVoter (voter : address)
| call_grantAdminRole (newAdmin : address)
| call_revokeAdminRole (admin : address).

Definition execute (m : Msg) (c : Call) (s : State) : result State :=
  match c with
  | call_registerVoter v => registerVoter m v s
  | call_registerVotersBatch vs => registerVotersBatch m vs s
  | call_revokeVoter v => revokeVoter m v s
  | call_grantAdminRole a => grantAdminRole m a s
  | call_revokeAdminRole a => revokeAdminRole m a s
  end.

Definition transact (m : Msg) (c : Call) (s : State) : State :=
  match execute m c s with
  | Ok s' => s'
  | Err _ => s
  end.

Fixpoint run (txs : list (Msg * Call)) (s : State) : State :=
  match txs with
  | [] => s
  | (m, c) :: rest => run rest (transact m c s)
  end.

(** [s] is the storage after deployment and some calls of the contract's
    own functions. *)
Definition reachable (s : State) : Prop :=
  exists m txs, s = run txs (constructor m).

(** A state between two transactions: the guard is released and some
    account is an administrator. *)
Definition admin_inv (s : State) : Prop :=
  _entered s = false /\ exists a, isAdmin s a = true.

(** Deployment by account 1; account 7 registered as voter, then revoked. *)
Module Scenario.
Definition deployed : State := constructor (mkMsg 1 100).
Definition with_voter : State := transact (mkMsg 1 110) (call_registerVoter 7) deployed.
Definition voter_revoked : State := transact (mkMsg 1 120) (call_revokeVoter 7) with_voter.
End Scenario.

End RoleVotingContract.

(** ** VotingSystem (contracts/VotingSystem.sol) *)

Module VotingSystem.

Module Candidate.
Record t := mk {
  id : uint256;
  name : string;
  party : string;
  voteCount : uint256;
  exists_ : bool
}.
Definition zero : t := mk 0 "" "" 0 false.
End Candidate.

Module Voter.
Record t := mk {
  authorized : bool;
  voted : bool;
  vote : uint256;
  exists_ : bool
}.
Definition zero : t := mk false false 0 false.
End Voter.

Module Election.
Record t := mk {
  id : uint256;
  title : string;
  description : string;
  startTime : uint256;
  endTime : uint256;
  active : bool;
  exists_ : bool
}.
Definition zero : t := mk 0 "" "" 0 0 false false.
End Election.

Record State := mkState {
  _owner : address;                      (* Ownable *)
  _entered : bool;                       (* ReentrancyGuard *)
  _paused : bool;                        (* Pausable *)
  voters : gmap address Voter.t;
  candidates : gmap uint256 Candidate.t;
  elections : gmap uint256 Election.t;
  candidatesCount : uint256;
  electionsCount : uint256;
  totalVotes : uint256
}.

Definition voter (s : State) (a : address) : Voter.t := default Voter.zero (voters s !! a).
Definition candidate (s : State) (i : uint256) : Candidate.t :=
  default Candidate.zero (candidates s !! i).
Definition election (s : State) (i : uint256) : Election.t :=
  default Election.zero (elections s !! i).

Definition set_entered (b : bool) (s : State) : State :=
  mkState (_owner s) b (_paused s) (voters s) (candidates s) (elections s)
    (candidatesCount s) (electionsCount s) (totalVotes s).
Definition set_paused (b : bool) (s : State) : State :=
  mkState (_owner s) (_entered s) b (voters s) (candidates s) (elections s)
    (candidatesCount s) (electionsCount s) (totalVotes s).
Definition set_owner (a : address) (s : State) : State :=
  mkState a (_entered s) (_paused s) (voters s) (candidates s) (elections s)
    (candidatesCount s) (electionsCount s) (totalVotes s).

(** *** Modifiers *)

Definition onlyOwner (m : Msg) (s : State) : result unit :=
  require (_owner s =? sender m) "Ownable: caller is not the owner".

Definition onlyAuthorized (m : Msg) (s : State) : result unit :=
  require (Voter.authorized (voter s (sender m))) "Voter not authorized".

Definition onlyDuringElection (m : Msg) (_electionId : uint256) (s : State) : result unit :=
  require (Election.exists_ (election s _electionId)) "Election does not exist" ;;
  require (Election.active (election s _electionId)) "Election is not active" ;;
  require (Election.startTime (election s _electionId) <=? timestamp m)
    "Election has not started" ;;
  require (timestamp m <=? Election.endTime (election s _electionId)) "Election has ended".

Definition validCandidate (_candidateId : uint256) (s : State) : result unit :=
  require (Candidate.exists_ (candidate s _candidateId)) "Candidate does not exist".

Definition whenNotPaused (s : State) : result unit :=
  require (negb (_paused s)) "Pausable: paused".

Definition whenPaused (s : State) : result unit :=
  require (_paused s) "Pausable: not paused".

Definition nonReentrant (body : State -> result State) (s : State) : result State :=
  require (negb (_entered s)) "ReentrancyGuard: reentrant call" ;;
  s' ← body (set_entered true s);
  mret (set_entered false s').

(** *** Functions *)

Definition constructor (m : Msg) : State :=
  mkState (sender m) false false ∅ ∅ ∅ 0 0 0.

Definition authorizeVoter (m : Msg) (_voter : address) (s : State) : result State :=
  onlyOwner m s ;;
  require (negb (Voter.exists_ (voter s _voter))) "Voter already exists" ;;
  mret (mkState (_owner s) (_entered s) (_paused s)
          (<[_voter := Voter.mk true false 0 true]> (voters s))
          (candidates s) (elections s) (candidatesCount s) (electionsCount s) (totalVotes s)).

Definition addCandidate (m : Msg) (_name _party : string) (s : State) : result State :=
  onlyOwner m s ;;
  count ← checked_inc (candidatesCount s);
  mret (mkState (_owner s) (_entered s) (_paused s) (voters s)
          (<[count := Candidate.mk count _name _party 0 true]> (candidates s))
          (elections s) count (electionsCount s) (totalVotes s)).

Definition createElection (m : Msg) (_title _description : string)
    (_startTime _endTime : uint256) (s : State) : result State :=
  onlyOwner m s ;;
  require (_startTime <? _endTime) "Start time must be before end time" ;;
  require (timestamp m <? _startTime) "Start time must be in the future" ;;
  count ← checked_inc (electionsCount s);
  mret (mkState (_owner s) (_entered s) (_paused s) (voters s) (candidates s)
          (<[count := Election.mk count _title _description _startTime _endTime true true]>
             (elections s))
          (candidatesCount s) count (totalVotes s)).

Definition vote_body (m : Msg) (_candidateId _electionId : uint256) (s : State) : result State :=
  require (negb (Voter.voted (voter s (sender m)))) "Voter has already voted" ;;
  let v := voter s (sender m) in
  let v' := Voter.mk (Voter.authorized v) true _candidateId (Voter.exists_ v) in
  let c := candidate s _candidateId in
  count ← checked_inc (Candidate.voteCount c);
  total ← checked_inc (totalVotes s);
  mret (mkState (_owner s) (_entered s) (_paused s)
          (<[sender m := v']> (voters s))
          (<[_candidateId :=
               Candidate.mk (Candidate.id c) (Candidate.name c) (Candidate.party c) count
                 (Candidate.exists_ c)]> (candidates s))
          (elections s) (candidatesCount s) (electionsCount s) total).

Definition vote (m : Msg) (_candidateId _electionId : uint256) (s : State) : result State :=
  onlyAuthorized m s ;;
  onlyDuringElection m _electionId s ;;
  validCandidate _candidateId s ;;
  nonReentrant (fun s =>
    whenNotPaused s ;;
    vote_body m _candidateId _electionId s) s.

Definition toggleElectionStatus (m : Msg) (_electionId : uint256) (s : State) : result State :=
  onlyOwner m s ;;
  require (Election.exists_ (election s _electionId)) "Election does not exist" ;;
  let e := election s _electionId in
  mret (mkState (_owner s) (_entered s) (_paused s) (voters s) (candidates s)
          (<[_electionId :=
               Election.mk (Election.id e) (Election.title e) (Election.description e)
                 (Election.startTime e) (Election.endTime e) (negb (Election.active e))
                 (Election.exists_ e)]> (elections s))
          (candidatesCount s) (electionsCount s) (totalVotes s)).

Definition pause (m : Msg) (s : State) : result State :=
  onlyOwner m s ;;
  whenNotPaused s ;;
  mret (set_paused true s).

Definition unpause (m : Msg) (s : State) : result State :=
  onlyOwner m s ;;
  whenPaused s ;;
  mret (set_paused false s).

(** Inherited from OpenZeppelin's Ownable. *)
Definition transferOwnership (m : Msg) (newOwner : address) (s : State) : result State :=
  onlyOwner m s ;;
  require (negb (newOwner =? 0)) "Ownable: new owner is the zero address" ;;
  mret (set_owner newOwner s).

Definition renounceOwnership (m : Msg) (s : State) : result State :=
  onlyOwner m s ;;
  mret (set_owner 0 s).

Inductive Call :=
| call_authorizeVoter (_voter : address)
| call_addCandidate (_name _party : string)
| call_createElection (_title _description : string) (_startTime _endTime : uint256)
| call_vote (_candidateId _electionId : uint256)
| call_toggleElectionStatus (_electionId : uint256)
| call_pause
| call_unpause
| call_transferOwnership (newOwner : address)
| call_renounceOwnership.

Definition execute (m : Msg) (c : Call) (s : State) : result State :=
  match c with
  | call_authorizeVoter v => authorizeVoter m v s
  | call_addCandidate n p => addCandidate m n p s
  | call_createElection t d st en => createElection m t d st en s
  | call_vote c e => vote m c e s
  | call_toggleElectionStatus e => toggleElectionStatus m e s
  | call_pause => pause m s
  | call_unpause => unpause m s
  | call_transferOwnership a => transferOwnership m a s
  | call_renounceOwnership => renounceOwnership m s
  end.

Definition transact (m : Msg) (c : Call) (s : State) : State :=
  match execute m c s with
  | Ok s' => s'
  | Err _ => s
  end.

Fixpoint run (txs : list (Msg * Call)) (s : State) : State :=
  match txs with
  | [] => s
  | (m, c) :: rest => run rest (transact m c s)
  end.

(** [s] is the storage after deployment and some transactions. *)
Definition reachable (s : State) : Prop :=
  exists m txs, s = run txs (constructor m).



(** Deployment by account 1, voter 7, one candidate, election 1 open over
    [200, 300] and election 2 over [400, 500]; 7 votes in election 1. *)
Module Scenario.
Definition deployed : State := constructor (mkMsg 1 100).
Definition with_voter : State := transact (mkMsg 1 110) (call_authorizeVoter 7) deployed.
Definition with_candidate : State :=
  transact (mkMsg 1 120) (call_addCandidate "Alice" "Party A") with_voter.
Definition with_first : State :=
  transact (mkMsg 1 130) (call_createElection "E1" "First election" 200 300) with_candidate.
Definition with_second : State :=
  transact (mkMsg 1 140) (call_createElection "E2" "Second election" 400 500) with_first.
End Scenario.

(** *** Views *)

Definition getCandidate (s : State) (_candidateId : uint256) : result Candidate.t :=
  validCandidate _candidateId s ;;
  mret (candidate s _candidateId).

Definition getElection (s : State) (_electionId : uint256) : result Election.t :=
  require (Election.exists_ (election s _electionId)) "Election does not exist" ;;
  mret (election s _electionId).

Definition getVoter (s : State) (_voter : address) : result Voter.t :=
  require (Voter.exists_ (voter s _voter)) "Voter does not exist" ;;
  mret (voter s _voter).

(** [for (i = 1; i <= candidatesCount; i++) allCandidates[i - 1] = candidates[i]] *)
Definition getAllCandidates (s : State) : list Candidate.t :=
  map (fun i => candidate s (N.of_nat i)) (seq 1 (N.to_nat (candidatesCount s))).

Definition getAllElections (s : State) : list Election.t :=
  map (fun i => election s (N.of_nat i)) (seq 1 (N.to_nat (electionsCount s))).

(** The loop of [getVotingResults] does not read [_electionId]. *)
Definition getVotingResults (s : State) (_electionId : uint256) : result (list Candidate.t) :=
  require (Election.exists_ (election s _electionId)) "Election does not exist" ;;
  mret (map (fun i => candidate s (N.of_nat i)) (seq 1 (N.to_nat (candidatesCount s)))).

(** The number of voters whose [voted] flag is set, and the votes of all
    candidates together. *)
Definition votedCount (s : State) : N :=
  map_sum (fun v => if Voter.voted v then 1 else 0) (voters s).

Definition candidateVotes (s : State) : N := map_sum Candidate.voteCount (candidates s).

(** What the transactions maintain: between two of them the guard is
    released; the candidate and election slots written are those from 1
    to the counters, each carrying its id and the exists flag; a voter
    record is authorized and exists; totalVotes counts the voters who
    voted and the votes of the candidates. *)
Record system_inv (s : State) : Prop := mk_system_inv {
  sys_entered : _entered s = false;
  sys_cand_fresh : forall c, c = 0 \/ candidatesCount s < c -> candidates s !! c = None;
  sys_cand_dense : forall c, c <> 0 -> c <= candidatesCount s -> is_Some (candidates s !! c);
  sys_cand_written : forall c x, candidates s !! c = Some x ->
    Candidate.id x = c /\ Candidate.exists_ x = true;
  sys_el_fresh : forall e, e = 0 \/ electionsCount s < e -> elections s !! e = None;
  sys_el_dense : forall e, e <> 0 -> e <= electionsCount s -> is_Some (elections s !! e);
  sys_el_written : forall e x, elections s !! e = Some x ->
    Election.id x = e /\ Election.exists_ x = true /\ Election.startTime x < Election.endTime x;
  sys_voters : forall a v, voters s !! a = Some v ->
    Voter.authorized v = true /\ Voter.exists_ v = true;
  sys_total_voted : totalVotes s = votedCount s;
  sys_total_candidates : totalVotes s = candidateVotes s
}.

End VotingSystem.


(** * Properties *)

(** ** The revert monad *)

Lemma bind_Ok {A B} (r : result A) (k : A -> result B) (b : B) :
  r ≫= k = Ok b -> exists a, r = Ok a /\ k a = Ok b.
Proof. destruct r as [a|e]; simpl; [eauto | discriminate]. Qed.

Lemma require_Ok (cond : bool) (reason : string) (u : unit) :
  require cond reason = Ok u -> cond = true.
Proof. by destruct cond. Qed.

Lemma checked_inc_Ok (x y : N) :
  checked_inc x = Ok y -> x < MAX_UINT256 /\ y = x + 1.
Proof.
  unfold checked_inc. destruct (x <? MAX_UINT256) eqn:Hlt; [| discriminate].
  intros [= <-]. by apply N.ltb_lt in Hlt.
Qed.

Lemma checked_inc_lt (x : N) : x < MAX_UINT256 -> checked_inc x = Ok (x + 1).
Proof. intros Hlt. unfold checked_inc. by apply N.ltb_lt in Hlt as ->. Qed.

Lemma is_Err_not_Ok {A} (r : result A) : is_Err r <-> forall a, r <> Ok a.
Proof.
  split.
  - intros [e ->] a. discriminate.
  - destruct r as [a|e]; [intros H; by destruct (H a) | by exists e].
Qed.

(** Peel one [bind] off a successful run. *)
Ltac bind_inv H :=
  let u := fresh "u" in
  let Hu := fresh "Hchk" in
  apply bind_Ok in H as (u & Hu & H).

(** ** Role membership *)

Module AccessControlFacts.

Lemma hasRole_grant role account r a rs :
  AccessControl.hasRole (AccessControl._grantRole role account rs) r a
  = bool_decide ((r, a) = (role, account)) || AccessControl.hasRole rs r a.
Proof.
  apply Bool.eq_iff_eq_true. rewrite orb_true_iff, bool_decide_eq_true.
  unfold AccessControl._grantRole.
  destruct (AccessControl.hasRole rs role account) eqn:Hh;
    unfold AccessControl.hasRole in *; simpl; rewrite !bool_decide_eq_true.
  - apply bool_decide_eq_true in Hh. set_solver.
  - set_solver.
Qed.

Lemma hasRole_revoke role account r a rs :
  AccessControl.hasRole (AccessControl._revokeRole role account rs) r a
  = negb (bool_decide ((r, a) = (role, account))) && AccessControl.hasRole rs r a.
Proof.
  apply Bool.eq_iff_eq_true.
  rewrite andb_true_iff, negb_true_iff, bool_decide_eq_false.
  unfold AccessControl._revokeRole.
  destruct (AccessControl.hasRole rs role account) eqn:Hh;
    unfold AccessControl.hasRole in *; simpl; rewrite !bool_decide_eq_true.
  - set_solver.
  - apply bool_decide_eq_false in Hh. set_solver.
Qed.

Lemma hasRole_setRoleAdmin role admin r a rs :
  AccessControl.hasRole (AccessControl._setRoleAdmin role admin rs) r a
  = AccessControl.hasRole rs r a.
Proof. reflexivity. Qed.

Lemma hasRole_count_pos rs role a :
  AccessControl.hasRole rs role a = true -> 1 <= AccessControl.getRoleMemberCount rs role.
Proof.
  unfold AccessControl.hasRole, AccessControl.getRoleMemberCount, AccessControl.roleMembers.
  intros Ha%bool_decide_eq_true.
  assert (Hsub : ({[ (role, a) ]} : gset (Role * N))
                   ⊆ filter (fun p => p.1 = role) (AccessControl.members rs)).
  { intros x ->%elem_of_singleton. by apply elem_of_filter. }
  apply subseteq_size in Hsub. rewrite size_singleton in Hsub. lia.
Qed.

Lemma hasRole_count_two rs role a b :
  a <> b ->
  AccessControl.hasRole rs role a = true -> AccessControl.hasRole rs role b = true ->
  1 < AccessControl.getRoleMemberCount rs role.
Proof.
  unfold AccessControl.hasRole, AccessControl.getRoleMemberCount, AccessControl.roleMembers.
  intros Hne Ha%bool_decide_eq_true Hb%bool_decide_eq_true.
  assert (Hsub : ({[ (role, a) ]} ∪ {[ (role, b) ]} : gset (Role * N))
                   ⊆ filter (fun p => p.1 = role) (AccessControl.members rs)).
  { intros x [->%elem_of_singleton | ->%elem_of_singleton]%elem_of_union;
      by apply elem_of_filter. }
  apply subseteq_size in Hsub.
  rewrite size_union, !size_singleton in Hsub; [lia |].
  intros x Hx%elem_of_singleton Hy%elem_of_singleton. congruence.
Qed.

End AccessControlFacts.

(** ** Sums over the [votes] mapping *)

Module TallyFacts.
Import VotingContract.

Lemma sum_votes_insert_fresh (m : gmap N N) c v :
  m !! c = None -> sum_votes (<[c := v]> m) = v + sum_votes m.
Proof.
  intros Hc. unfold sum_votes.
  rewrite map_fold_insert_L; [done | intros; lia | done].
Qed.

Lemma sum_votes_delete (m : gmap N N) c v :
  m !! c = Some v -> sum_votes m = v + sum_votes (delete c m).
Proof.
  intros Hc. unfold sum_votes.
  rewrite (map_fold_delete_L _ _ c v m); [done | intros; lia | done].
Qed.

Lemma sum_votes_inc (m : gmap N N) c :
  sum_votes (<[c := mget m c + 1]> m) = sum_votes m + 1.
Proof.
  unfold mget. destruct (m !! c) as [v|] eqn:Hc; simpl.
  - rewrite <- insert_delete_eq.
    rewrite sum_votes_insert_fresh by apply lookup_delete_eq.
    rewrite (sum_votes_delete m c v Hc). lia.
  - rewrite sum_votes_insert_fresh by done. lia.
Qed.

Lemma mget_le_sum_votes (m : gmap N N) c : mget m c <= sum_votes m.
Proof.
  unfold mget. destruct (m !! c) as [v|] eqn:Hc; simpl; [| lia].
  rewrite (sum_votes_delete m c v Hc). lia.
Qed.

Lemma ballots_add (X : gset N) a :
  a ∉ X -> N.of_nat (size ({[a]} ∪ X)) = N.of_nat (size X) + 1.
Proof.
  intros Ha. rewrite size_union by set_solver. rewrite size_singleton. lia.
Qed.

Lemma tally_zero : tally_consistent Election.zero.
Proof. split; reflexivity. Qed.

End TallyFacts.

(** ** VotingContract: the ledger invariant *)

Module LedgerFacts.
Import VotingContract TallyFacts.

Lemma electionExists_Ok eid s u :
  electionExists eid s = Ok u -> eid <> 0 /\ eid <= _electionIds s.
Proof.
  unfold electionExists, Counters.current.
  destruct (eid =? 0) eqn:H0; [discriminate |].
  destruct (_electionIds s <? eid) eqn:Hlt; [discriminate |].
  intros _. apply N.eqb_neq in H0. apply N.ltb_ge in Hlt. done.
Qed.

Lemma electionExists_intro eid s :
  eid <> 0 -> eid <= _electionIds s -> electionExists eid s = Ok tt.
Proof.
  intros H0 Hle. unfold electionExists, Counters.current.
  apply N.eqb_neq in H0 as ->. by apply N.ltb_ge in Hle as ->.
Qed.

Lemma candidateExists_Ok cid s u :
  candidateExists cid s = Ok u -> Candidate.exists_ (candidate s cid) = true.
Proof. unfold candidateExists. by destruct (Candidate.exists_ _). Qed.

Lemma onlyDuringElection_Ok m eid s u :
  onlyDuringElection m eid s = Ok u ->
  Election.isActive (election s eid) = true /\
  (Election.startTime (election s eid) <= timestamp m /\
   timestamp m <= Election.endTime (election s eid)).
Proof.
  unfold onlyDuringElection.
  destruct (Election.isActive _); [simpl | discriminate].
  destruct (timestamp m <? _) eqn:H1; [discriminate |].
  destruct (_ <? timestamp m) eqn:H2; [discriminate |].
  intros _. apply N.ltb_ge in H1, H2. done.
Qed.

Lemma hasNotVoted_Ok m eid s u :
  hasNotVoted m eid s = Ok u -> sender m ∉ Election.hasVoted (election s eid).
Proof.
  unfold hasNotVoted. case_bool_decide; [discriminate | done].
Qed.

Lemma whenNotPaused_Ok s u : whenNotPaused s = Ok u -> _paused s = false.
Proof. unfold whenNotPaused. by destruct (_paused s). Qed.

Lemma nonReentrant_Ok body s s' :
  nonReentrant body s = Ok s' ->
  _entered s = false /\ exists s1, body (set_entered true s) = Ok s1 /\ s' = set_entered false s1.
Proof.
  unfold nonReentrant. intros H. bind_inv H.
  apply require_Ok in Hchk. bind_inv H. injection H as <-.
  split; [by destruct (_entered s) | eauto].
Qed.

(** Reads of the ledger under the invariant. *)
Lemma election_active_written s eid :
  Election.isActive (election s eid) = true -> elections s !! eid = Some (election s eid).
Proof. unfold election. by destruct (elections s !! eid). Qed.

Lemma ledger_inv_election n s eid :
  ledger_inv n s ->
  tally_consistent (election s eid) /\ Election.totalVotes (election s eid) <= N.of_nat n.
Proof.
  intros Hinv. unfold election.
  destruct (elections s !! eid) as [e|] eqn:He; simpl.
  - split; [eapply inv_tally | eapply inv_total]; eauto.
  - split; [apply tally_zero | simpl; lia].
Qed.

Lemma ledger_inv_candidate n s cid :
  ledger_inv n s -> Candidate.voteCount (candidate s cid) <= N.of_nat n.
Proof.
  intros Hinv. unfold candidate.
  destruct (candidates s !! cid) as [c|] eqn:Hc; simpl; [| lia].
  eapply inv_voteCount; eauto.
Qed.

Lemma ledger_inv_profile n s a :
  ledger_inv n s -> VoterProfile.totalVotesCast (voterProfile s a) <= N.of_nat n.
Proof.
  intros Hinv. unfold voterProfile.
  destruct (voterProfiles s !! a) as [p|] eqn:Hp; simpl; [| lia].
  eapply inv_cast; eauto.
Qed.

(** The invariant only reads the ledger part and is monotone in [n]. *)
Lemma ledger_inv_frame n n' s s' :
  ledger s' = ledger s -> (n <= n')%nat -> ledger_inv n s -> ledger_inv n' s'.
Proof.
  unfold ledger. intros [= He Hi Hel Hc Hp] Hn [].
  split; rewrite ?He, ?Hi, ?Hel, ?Hc, ?Hp; eauto; intros.
  - lia.
  - etrans; [eapply inv_total0 | lia]; eauto.
  - etrans; [eapply inv_voteCount0 | lia]; eauto.
  - etrans; [eapply inv_cast0 | lia]; eauto.
Qed.

Lemma constructor_inv m : ledger_inv 0 (constructor m).
Proof.
  split; simpl; try done; intros; lia.
Qed.

End LedgerFacts.

Module LedgerSteps.
Import VotingContract TallyFacts LedgerFacts.

Lemma increment_small c : c < MAX_UINT256 -> Counters.increment c = c + 1.
Proof.
  unfold Counters.increment, MAX_UINT256. intros Hc.
  apply N.mod_small. lia.
Qed.

Lemma batch_loop_ledger m vs s : ledger (batchRegisterVoters_loop m vs s) = ledger s.
Proof.
  revert s. induction vs as [|v vs IH]; intros s; simpl; [done |].
  rewrite IH. by destruct (negb _).
Qed.

Lemma createElection_inv n m t d st en ids s s' :
  ledger_inv n s -> N.of_nat (S n) <= MAX_UINT256 ->
  createElection m t d st en ids s = Ok s' -> ledger_inv (S n) s'.
Proof.
  intros Hinv Hn H. unfold createElection in H.
  bind_inv H. bind_inv H.
  destruct (en <=? st) eqn:Hw; [discriminate |].
  destruct (st <=? timestamp m) eqn:Hpast; [discriminate |].
  injection H as <-. apply N.leb_gt in Hw.
  pose proof (inv_ids _ _ Hinv) as Hids.
  unfold Counters.current. rewrite increment_small by lia.
  assert (Hnew : elections s !! (_electionIds s + 1) = None)
    by (apply (inv_fresh _ _ Hinv); lia).
  rewrite Hnew. simpl.
  split; simpl.
  - apply (inv_entered _ _ Hinv).
  - lia.
  - intros id Hid. rewrite lookup_insert_ne by lia.
    apply (inv_fresh _ _ Hinv). lia.
  - intros id H0 Hle. destruct (decide (id = _electionIds s + 1)) as [->|Hne].
    + rewrite lookup_insert_eq. eauto.
    + rewrite lookup_insert_ne by done. apply (inv_written _ _ Hinv); [done | lia].
  - intros id e. destruct (decide (id = _electionIds s + 1)) as [->|Hne].
    + rewrite lookup_insert_eq. intros [= <-]. split; reflexivity.
    + rewrite lookup_insert_ne by done. apply (inv_tally _ _ Hinv).
  - intros id e. destruct (decide (id = _electionIds s + 1)) as [->|Hne].
    + rewrite lookup_insert_eq. intros [= <-]. simpl. lia.
    + rewrite lookup_insert_ne by done. intros He.
      pose proof (inv_total _ _ Hinv _ _ He). lia.
  - intros id e. destruct (decide (id = _electionIds s + 1)) as [->|Hne].
    + rewrite lookup_insert_eq. by intros [= <-].
    + rewrite lookup_insert_ne by done. apply (inv_window _ _ Hinv).
  - intros id c Hc. pose proof (inv_voteCount _ _ Hinv _ _ Hc). lia.
  - intros a p Hp. pose proof (inv_cast _ _ Hinv _ _ Hp). lia.
Qed.

Lemma addCandidate_inv n m name d s s' :
  ledger_inv n s -> addCandidate m name d s = Ok s' -> ledger_inv (S n) s'.
Proof.
  intros Hinv H. unfold addCandidate in H.
  bind_inv H. bind_inv H.
  destruct (_ || _); [discriminate |]. injection H as <-.
  destruct Hinv. split; simpl; eauto.
  - lia.
  - intros id e He. pose proof (inv_total0 _ _ He). lia.
  - intros id c. destruct (decide (id = Counters.current (Counters.increment (_candidateIds s))))
      as [->|Hne].
    + rewrite lookup_insert_eq. intros [= <-]. simpl. lia.
    + rewrite lookup_insert_ne by done. intros Hc.
      pose proof (inv_voteCount0 _ _ Hc). lia.
  - intros a p Hp. pose proof (inv_cast0 _ _ Hp). lia.
Qed.

(** Flipping [isActive] of a written election keeps the invariant. *)
Lemma set_isActive_inv n s eid b :
  ledger_inv n s -> is_Some (elections s !! eid) ->
  ledger_inv (S n)
    (set_elections (<[eid := set_isActive b (election s eid)]> (elections s)) s).
Proof.
  intros Hinv [e He]. unfold election. rewrite He. simpl.
  destruct Hinv. split; simpl; eauto.
  - lia.
  - intros id Hid. destruct (decide (id = eid)) as [->|Hne].
    + rewrite (inv_fresh0 _ Hid) in He. discriminate.
    + rewrite lookup_insert_ne by done. eauto.
  - intros id H0 Hle. destruct (decide (id = eid)) as [->|Hne].
    + rewrite lookup_insert_eq. eauto.
    + rewrite lookup_insert_ne by done. eauto.
  - intros id e'. destruct (decide (id = eid)) as [->|Hne].
    + rewrite lookup_insert_eq. intros [= <-]. apply (inv_tally0 _ _ He).
    + rewrite lookup_insert_ne by done. eauto.
  - intros id e'. destruct (decide (id = eid)) as [->|Hne].
    + rewrite lookup_insert_eq. intros [= <-]. simpl.
      pose proof (inv_total0 _ _ He). lia.
    + rewrite lookup_insert_ne by done. intros He'.
      pose proof (inv_total0 _ _ He'). lia.
  - intros id e'. destruct (decide (id = eid)) as [->|Hne].
    + rewrite lookup_insert_eq. intros [= <-]. apply (inv_window0 _ _ He).
    + rewrite lookup_insert_ne by done. eauto.
  - intros id c Hc. pose proof (inv_voteCount0 _ _ Hc). lia.
  - intros a p Hp. pose proof (inv_cast0 _ _ Hp). lia.
Qed.

Lemma endElection_inv n m eid s s' :
  ledger_inv n s -> endElection m eid s = Ok s' -> ledger_inv (S n) s'.
Proof.
  intros Hinv H. unfold endElection in H.
  bind_inv H. bind_inv H. apply electionExists_Ok in Hchk0 as [H0 Hle].
  bind_inv H. injection H as <-.
  apply set_isActive_inv; [done |]. by apply (inv_written _ _ Hinv).
Qed.

Lemma toggleElectionStatus_inv n m eid s s' :
  ledger_inv n s -> toggleElectionStatus m eid s = Ok s' -> ledger_inv (S n) s'.
Proof.
  intros Hinv H. unfold toggleElectionStatus in H.
  bind_inv H. bind_inv H. apply electionExists_Ok in Hchk0 as [H0 Hle].
  injection H as <-.
  apply set_isActive_inv; [done |]. by apply (inv_written _ _ Hinv).
Qed.

End LedgerSteps.

Module CastVoteFacts.
Import VotingContract TallyFacts LedgerFacts LedgerSteps.

(** What a successful [castVote] has checked, and what it wrote. *)
Lemma castVote_Ok m eid cid s s' :
  castVote m eid cid s = Ok s' ->
  let e := election s eid in
  hasRole s VOTER_ROLE (sender m) = true /\
  (eid <> 0 /\ eid <= _electionIds s) /\
  Candidate.exists_ (candidate s cid) = true /\
  (Election.isActive e = true /\
   (Election.startTime e <= timestamp m /\ timestamp m <= Election.endTime e)) /\
  (sender m ∉ Election.hasVoted e) /\
  _paused s = false /\
  _entered s = false /\
  candidateInElection (Election.candidateIds e) cid = true /\
  s' = set_entered false
         (recordVote m eid cid
            (mget (Election.votes e) cid + 1) (Election.totalVotes e + 1)
            (Candidate.voteCount (candidate s cid) + 1)
            (VoterProfile.totalVotesCast (voterProfile s (sender m)) + 1)
            (set_entered true s)).
Proof.
  intros H e. unfold castVote in H.
  bind_inv H. apply require_Ok in Hchk.
  bind_inv H. apply electionExists_Ok in Hchk0.
  bind_inv H. apply candidateExists_Ok in Hchk1.
  bind_inv H. apply onlyDuringElection_Ok in Hchk2.
  bind_inv H. apply hasNotVoted_Ok in Hchk3.
  bind_inv H. apply whenNotPaused_Ok in Hchk4.
  apply nonReentrant_Ok in H as (Hent & s1 & Hbody & ->).
  unfold castVote_body in Hbody.
  bind_inv Hbody. apply require_Ok in Hchk5.
  bind_inv Hbody. apply checked_inc_Ok in Hchk6 as [_ ->].
  bind_inv Hbody. apply checked_inc_Ok in Hchk6 as [_ ->].
  bind_inv Hbody. apply checked_inc_Ok in Hchk6 as [_ ->].
  bind_inv Hbody. apply checked_inc_Ok in Hchk6 as [_ ->].
  injection Hbody as <-.
  repeat split; try done; tauto.
Qed.

Lemma castVote_inv n m eid cid s s' :
  ledger_inv n s -> castVote m eid cid s = Ok s' -> ledger_inv (S n) s'.
Proof.
  intros Hinv H. apply castVote_Ok in H
    as (_ & [H0 Hle] & _ & [Hact _] & Hnv & _ & _ & _ & ->).
  pose proof (election_active_written _ _ Hact) as He.
  pose proof (ledger_inv_election _ _ eid Hinv) as [[Hsum Hsz] Htot].
  pose proof (ledger_inv_candidate _ _ cid Hinv) as Hvc.
  pose proof (ledger_inv_profile _ _ (sender m) Hinv) as Hp.
  unfold recordVote.
  change (election (set_entered true s) eid) with (election s eid).
  change (candidate (set_entered true s) cid) with (candidate s cid).
  change (voterProfile (set_entered true s) (sender m)) with (voterProfile s (sender m)).
  destruct Hinv. split; simpl; eauto.
  - lia.
  - intros id Hid. rewrite lookup_insert_ne by (intros ->; lia). eauto.
  - intros id Hid0 Hid. destruct (decide (id = eid)) as [->|Hne].
    + rewrite lookup_insert_eq. eauto.
    + rewrite lookup_insert_ne by done. eauto.
  - intros id e'. destruct (decide (id = eid)) as [->|Hne].
    + rewrite lookup_insert_eq. intros [= <-]. split; simpl.
      * rewrite sum_votes_inc. lia.
      * unfold ballotsCast in *. simpl. rewrite ballots_add by done. lia.
    + rewrite lookup_insert_ne by done. eauto.
  - intros id e'. destruct (decide (id = eid)) as [->|Hne].
    + rewrite lookup_insert_eq. intros [= <-]. simpl. lia.
    + rewrite lookup_insert_ne by done. intros He'.
      pose proof (inv_total0 _ _ He'). lia.
  - intros id e'. destruct (decide (id = eid)) as [->|Hne].
    + rewrite lookup_insert_eq. intros [= <-]. simpl. eapply inv_window0; eauto.
    + rewrite lookup_insert_ne by done. eauto.
  - intros id c. destruct (decide (id = cid)) as [->|Hne].
    + rewrite lookup_insert_eq. intros [= <-]. simpl. lia.
    + rewrite lookup_insert_ne by done. intros Hc.
      pose proof (inv_voteCount0 _ _ Hc). lia.
  - intros a p. destruct (decide (a = sender m)) as [->|Hne].
    + rewrite lookup_insert_eq. intros [= <-]. simpl. lia.
    + rewrite lookup_insert_ne by done. intros Hp'.
      pose proof (inv_cast0 _ _ Hp'). lia.
Qed.

(** One transaction keeps the invariant, as long as the election counter
    cannot wrap. *)
Lemma execute_inv n m c s s' :
  ledger_inv n s -> N.of_nat (S n) <= MAX_UINT256 ->
  execute m c s = Ok s' -> ledger_inv (S n) s'.
Proof.
  intros Hinv Hn H. destruct c; simpl in H;
    eauto using createElection_inv, addCandidate_inv, castVote_inv, endElection_inv,
      toggleElectionStatus_inv.
  all: apply (ledger_inv_frame n (S n) s); [| lia | done].
  - unfold registerVoter in H. bind_inv H. bind_inv H. by injection H as <-.
  - unfold batchRegisterVoters in H. bind_inv H. bind_inv H. bind_inv H.
    injection H as <-. apply batch_loop_ledger.
  - unfold grantElectionCreatorRole in H. bind_inv H. by injection H as <-.
  - unfold revokeElectionCreatorRole in H. bind_inv H. by injection H as <-.
  - unfold pause in H. bind_inv H. bind_inv H. by injection H as <-.
  - unfold unpause in H. bind_inv H. bind_inv H. by injection H as <-.
  - unfold grantRole in H. bind_inv H. by injection H as <-.
  - unfold revokeRole in H. bind_inv H. by injection H as <-.
  - unfold renounceRole in H. bind_inv H. by injection H as <-.
Qed.

Lemma transact_inv n m c s :
  ledger_inv n s -> N.of_nat (S n) <= MAX_UINT256 -> ledger_inv (S n) (transact m c s).
Proof.
  intros Hinv Hn. unfold transact.
  destruct (execute m c s) as [s'|e] eqn:H.
  - eapply execute_inv; eauto.
  - apply (ledger_inv_frame n (S n) s); [done | lia | done].
Qed.

Lemma reachable_inv n s :
  reachable n s -> N.of_nat n <= MAX_UINT256 -> ledger_inv n s.
Proof.
  induction 1 as [m | n s m c Hr IH]; intros Hn.
  - apply constructor_inv.
  - apply transact_inv; [apply IH; lia | done].
Qed.

End CastVoteFacts.

Module CastVoteForward.
Import VotingContract TallyFacts LedgerFacts LedgerSteps CastVoteFacts.

Lemma onlyDuringElection_intro m eid s :
  Election.isActive (election s eid) = true ->
  Election.startTime (election s eid) <= timestamp m ->
  timestamp m <= Election.endTime (election s eid) ->
  onlyDuringElection m eid s = Ok tt.
Proof.
  intros Hact Hst Hen. unfold onlyDuringElection. rewrite Hact. simpl.
  apply N.ltb_ge in Hst as ->. by apply N.ltb_ge in Hen as ->.
Qed.

(** The state a successful vote commits, read back field by field. *)
Lemma recordVote_reads m eid cid v t c n s :
  let s' := set_entered false (recordVote m eid cid v t c n (set_entered true s)) in
  (sender m ∈ Election.hasVoted (election s' eid)) /\
  mget (Election.votes (election s' eid)) cid = v /\
  Election.totalVotes (election s' eid) = t /\
  Candidate.voteCount (candidate s' cid) = c.
Proof.
  simpl. unfold election, candidate, mget, recordVote. simpl.
  rewrite !lookup_insert_eq. simpl. rewrite lookup_insert_eq. simpl.
  split; [set_solver | done].
Qed.

(** With the invariant and room for one more transaction, a vote that
    passes every modifier and the roster scan is committed. *)
Lemma castVote_commits n m eid cid s :
  ledger_inv n s -> N.of_nat n < MAX_UINT256 ->
  hasRole s VOTER_ROLE (sender m) = true ->
  eid <> 0 -> eid <= _electionIds s ->
  Candidate.exists_ (candidate s cid) = true ->
  Election.isActive (election s eid) = true ->
  Election.startTime (election s eid) <= timestamp m ->
  timestamp m <= Election.endTime (election s eid) ->
  sender m ∉ Election.hasVoted (election s eid) ->
  _paused s = false ->
  candidateInElection (Election.candidateIds (election s eid)) cid = true ->
  castVote m eid cid s
  = Ok (set_entered false
         (recordVote m eid cid
            (mget (Election.votes (election s eid)) cid + 1)
            (Election.totalVotes (election s eid) + 1)
            (Candidate.voteCount (candidate s cid) + 1)
            (VoterProfile.totalVotesCast (voterProfile s (sender m)) + 1)
            (set_entered true s))).
Proof.
  intros Hinv Hn Hrole H0 Hle Hcand Hact Hst Hen Hnv Hp Hin.
  pose proof (ledger_inv_election _ _ eid Hinv) as [[Hsum Hsz] Htot].
  pose proof (ledger_inv_candidate _ _ cid Hinv) as Hvc.
  pose proof (ledger_inv_profile _ _ (sender m) Hinv) as Hpr.
  pose proof (mget_le_sum_votes (Election.votes (election s eid)) cid) as Hv.
  unfold castVote, onlyVoter. rewrite Hrole. simpl.
  rewrite electionExists_intro by done. simpl.
  unfold candidateExists. rewrite Hcand. simpl.
  rewrite onlyDuringElection_intro by done. simpl.
  unfold hasNotVoted. rewrite bool_decide_eq_false_2 by done. simpl.
  unfold whenNotPaused. rewrite Hp. simpl.
  unfold nonReentrant. rewrite (inv_entered _ _ Hinv). simpl.
  unfold castVote_body.
  change (election (set_entered true s) eid) with (election s eid).
  change (candidate (set_entered true s) cid) with (candidate s cid).
  change (voterProfile (set_entered true s) (sender m)) with (voterProfile s (sender m)).
  rewrite Hin. simpl.
  rewrite !checked_inc_lt by lia. reflexivity.
Qed.

Lemma castVote_checks_true m eid cid s :
  castVote_checks m eid cid s = true <->
  hasRole s VOTER_ROLE (sender m) = true /\
  (eid <> 0 /\ eid <= _electionIds s) /\
  (Election.isActive (election s eid) = true /\
   Election.startTime (election s eid) <= timestamp m /\
   timestamp m <= Election.endTime (election s eid)) /\
  (Candidate.exists_ (candidate s cid) = true /\
   candidateInElection (Election.candidateIds (election s eid)) cid = true) /\
  (sender m ∉ Election.hasVoted (election s eid)).
Proof.
  unfold castVote_checks. cbv zeta.
  rewrite !andb_true_iff, negb_true_iff, N.eqb_neq, !N.leb_le, negb_true_iff,
    bool_decide_eq_false.
  tauto.
Qed.

End CastVoteForward.

(** ** VotingContract: what the pause flag gates *)

Module PauseFacts.
Import VotingContract LedgerFacts.

Lemma batch_loop_set_paused b m vs s :
  batchRegisterVoters_loop m vs (set_paused b s)
  = set_paused b (batchRegisterVoters_loop m vs s).
Proof.
  revert s. induction vs as [|v vs IH]; intros s; simpl; [done |].
  rewrite <- IH. by destruct (negb _).
Qed.

(** The entry points without [whenNotPaused] never read the flag. *)
Lemma endElection_ungated b m eid s :
  endElection m eid (set_paused b s) = set_paused b <$> endElection m eid s.
Proof.
  unfold endElection, onlyElectionCreator.
  change (hasRole (set_paused b s)) with (hasRole s).
  destruct (hasRole s ELECTION_CREATOR_ROLE (sender m)); [simpl | done].
  change (electionExists eid (set_paused b s)) with (electionExists eid s).
  destruct (electionExists eid s); [simpl | done].
  change (election (set_paused b s) eid) with (election s eid).
  by destruct (Election.isActive (election s eid)).
Qed.

Lemma toggleElectionStatus_ungated b m eid s :
  toggleElectionStatus m eid (set_paused b s)
  = set_paused b <$> toggleElectionStatus m eid s.
Proof.
  unfold toggleElectionStatus, onlyElectionCreator.
  change (hasRole (set_paused b s)) with (hasRole s).
  destruct (hasRole s ELECTION_CREATOR_ROLE (sender m)); [simpl | done].
  change (electionExists eid (set_paused b s)) with (electionExists eid s).
  by destruct (electionExists eid s).
Qed.

Lemma registerVoter_ungated b m v s :
  registerVoter m v (set_paused b s) = set_paused b <$> registerVoter m v s.
Proof.
  unfold registerVoter, onlyAdmin.
  change (hasRole (set_paused b s)) with (hasRole s).
  destruct (hasRole s ADMIN_ROLE (sender m)); [simpl | done].
  by destruct (negb _).
Qed.

Lemma batchRegisterVoters_ungated b m vs s :
  batchRegisterVoters m vs (set_paused b s) = set_paused b <$> batchRegisterVoters m vs s.
Proof.
  unfold batchRegisterVoters, onlyAdmin.
  change (hasRole (set_paused b s)) with (hasRole s).
  destruct (hasRole s ADMIN_ROLE (sender m)); [simpl | done].
  destruct (0 <? _); [simpl | done].
  destruct (_ <=? 100); [simpl | done].
  by rewrite batch_loop_set_paused.
Qed.

End PauseFacts.

(** ** VotingContract: tally and vote *)

Module VotingContractProps.
Import VotingContract TallyFacts LedgerFacts LedgerSteps CastVoteFacts CastVoteForward.
Import PauseFacts.

(** C1. In every state reached by deployment and fewer than 2^256
    transactions, every election E has E.totalVotes equal to the sum of
    its per-candidate vote counts and equal to the number of addresses
    marked as having voted in E. Every operation (castVote,
    createElection, endElection, toggleElectionStatus, the registration
    and role operations, pause) preserves the equality: the statement is
    about the state after any sequence of them. *)
Theorem tally_invariant (n : nat) (s : State) :
  reachable n s -> N.of_nat n <= MAX_UINT256 ->
  forall electionId,
    Election.totalVotes (election s electionId)
      = sum_votes (Election.votes (election s electionId)) /\
    Election.totalVotes (election s electionId) = ballotsCast (election s electionId).
Proof.
  intros Hr Hn eid.
  apply (ledger_inv_election n s eid). by apply reachable_inv.
Qed.

(** The step of C1 on its own: a transaction by any sender, of any entry
    point, takes a state with the ledger invariant to one that has it. *)
Lemma tally_preserved (n : nat) (s : State) (m : Msg) (c : Call) :
  ledger_inv n s -> N.of_nat (S n) <= MAX_UINT256 ->
  forall electionId, tally_consistent (election (transact m c s) electionId).
Proof.
  intros Hinv Hn eid.
  apply (ledger_inv_election (S n) _ eid). by apply transact_inv.
Qed.

Lemma tally_invariant_witness :
  reachable 5 Scenario.after_vote /\ N.of_nat 5 <= MAX_UINT256 /\
  Election.totalVotes (election Scenario.after_vote 1) = 1 /\
  sum_votes (Election.votes (election Scenario.after_vote 1)) = 1 /\
  ballotsCast (election Scenario.after_vote 1) = 1.
Proof.
  assert (Hr : reachable 5 Scenario.after_vote) by (repeat constructor).
  assert (Hn : N.of_nat 5 <= MAX_UINT256) by (unfold MAX_UINT256; lia).
  destruct (tally_invariant 5 Scenario.after_vote Hr Hn 1) as [Hsum Hsz].
  assert (Ht : Election.totalVotes (election Scenario.after_vote 1) = 1)
    by (vm_compute; reflexivity).
  rewrite Ht in Hsum, Hsz. auto.
Defined.

(** C2, as the code has it. castVote has one check more than the four
    listed: the contract must not be paused. In every state reached by
    fewer than 2^256 - 1 transactions: when the caller holds the Voter
    role, the election exists and is Open, the candidate exists and is
    in the roster, the caller has not voted in that election and the
    contract is not paused, the call succeeds and in that one transition
    the caller is marked as having voted in the election, the election's
    count for the candidate, its totalVotes and the candidate's global
    voteCount are each incremented; when any of these checks fails, the
    pause check included, the call reverts and the state is exactly what
    it was. *)
Theorem castVote_all_or_nothing (n : nat) (s : State) (m : Msg)
    (electionId candidateId : uint256) :
  reachable n s -> N.of_nat n < MAX_UINT256 ->
  if castVote_checks m electionId candidateId s && negb (_paused s)
  then exists s',
    castVote m electionId candidateId s = Ok s' /\
    transact m (call_castVote electionId candidateId) s = s' /\
    (sender m ∈ Election.hasVoted (election s' electionId)) /\
    mget (Election.votes (election s' electionId)) candidateId
      = mget (Election.votes (election s electionId)) candidateId + 1 /\
    Election.totalVotes (election s' electionId)
      = Election.totalVotes (election s electionId) + 1 /\
    Candidate.voteCount (candidate s' candidateId)
      = Candidate.voteCount (candidate s candidateId) + 1
  else
    is_Err (castVote m electionId candidateId s) /\
    transact m (call_castVote electionId candidateId) s = s.
Proof.
  intros Hr Hn.
  assert (Hinv : ledger_inv n s) by (apply reachable_inv; [done | lia]).
  destruct (castVote_checks m electionId candidateId s && negb (_paused s)) eqn:Hc.
  - apply andb_true_iff in Hc as [Hc Hp]. apply negb_true_iff in Hp.
    apply castVote_checks_true in Hc
      as (Hrole & [H0 Hle] & (Hact & Hst & Hen) & [Hcand Hin] & Hnv).
    eexists. split; [by eapply castVote_commits |].
    split.
    + unfold transact. simpl. by erewrite castVote_commits.
    + apply recordVote_reads.
  - assert (He : is_Err (castVote m electionId candidateId s)).
    { apply is_Err_not_Ok. intros s' Hok. apply castVote_Ok in Hok
        as (Hrole & Hex & Hcand & (Hact & Hst & Hen) & Hnv & Hp & _ & Hin & _).
      assert (Hc' : castVote_checks m electionId candidateId s = true)
        by (apply castVote_checks_true; tauto).
      rewrite Hc', Hp in Hc. discriminate. }
    split; [done |]. destruct He as [e He]. unfold transact. simpl. by rewrite He.
Qed.

Lemma castVote_all_or_nothing_witness :
  reachable 4 Scenario.with_election /\ N.of_nat 4 < MAX_UINT256 /\
  exists s',
    castVote (mkMsg 7 200) 1 1 Scenario.with_election = Ok s' /\
    transact (mkMsg 7 200) (call_castVote 1 1) Scenario.with_election = s' /\
    (7 ∈ Election.hasVoted (election s' 1)) /\
    mget (Election.votes (election s' 1)) 1 = 0 + 1 /\
    Election.totalVotes (election s' 1) = 0 + 1 /\
    Candidate.voteCount (candidate s' 1) = 0 + 1.
Proof.
  assert (Hr : reachable 4 Scenario.with_election) by (repeat constructor).
  assert (Hn : N.of_nat 4 < MAX_UINT256) by (unfold MAX_UINT256; lia).
  split; [done |]. split; [done |].
  exact (castVote_all_or_nothing 4 Scenario.with_election (mkMsg 7 200) 1 1 Hr Hn).
Defined.

(** Counterexample to C2 as stated: in the paused contract each of the four
    listed checks passes for voter 7 voting for candidate 1 in election
    1 at time 200, and the vote is rejected; the voter is not marked and
    nothing is counted. *)
Lemma paused_castVote_not_committed :
  reachable 5 Scenario.paused /\
  castVote_checks (mkMsg 7 200) 1 1 Scenario.paused = true /\
  castVote (mkMsg 7 200) 1 1 Scenario.paused = Err (Revert "Pausable: paused") /\
  transact (mkMsg 7 200) (call_castVote 1 1) Scenario.paused = Scenario.paused /\
  hasVotedInElection (transact (mkMsg 7 200) (call_castVote 1 1) Scenario.paused) 7 1
    = Ok false /\
  Election.totalVotes (election (transact (mkMsg 7 200) (call_castVote 1 1) Scenario.paused) 1)
    = 0.
Proof.
  split; [repeat constructor |].
  repeat split; vm_compute; reflexivity.
Qed.

(** C5, as the code has it. For an active election of a state reached
    by fewer than 2^256 - 1 transactions, a caller with the Voter role
    and a candidate that exists: a vote strictly before startTime fails
    with ElectionNotStarted and a vote strictly after endTime fails with
    ElectionEnded. When moreover the contract is not paused, the
    candidate is in the roster and the caller has not yet voted in the
    election, a vote at block time startTime succeeds, a vote at endTime
    succeeds, as does any in between, and each is recorded: the caller
    is marked and the three counts are incremented. *)
Theorem castVote_window (n : nat) (s : State) (caller : address)
    (electionId candidateId : uint256) :
  reachable n s -> N.of_nat n < MAX_UINT256 ->
  hasRole s VOTER_ROLE caller = true ->
  Election.isActive (election s electionId) = true ->
  Candidate.exists_ (candidate s candidateId) = true ->
  let e := election s electionId in
  (_paused s = false ->
   candidateInElection (Election.candidateIds e) candidateId = true ->
   caller ∉ Election.hasVoted e ->
   castVote_recorded (mkMsg caller (Election.startTime e)) electionId candidateId s /\
   castVote_recorded (mkMsg caller (Election.endTime e)) electionId candidateId s /\
   (forall now, Election.startTime e <= now -> now <= Election.endTime e ->
      castVote_recorded (mkMsg caller now) electionId candidateId s)) /\
  (forall now, now < Election.startTime e ->
     castVote (mkMsg caller now) electionId candidateId s = Err (ElectionNotStarted electionId)) /\
  (forall now, Election.endTime e < now ->
     castVote (mkMsg caller now) electionId candidateId s = Err (ElectionEnded electionId)).
Proof.
  intros Hr Hn Hrole Hact Hcand e. subst e.
  assert (Hinv : ledger_inv n s) by (apply reachable_inv; [done | lia]).
  pose proof (election_active_written _ _ Hact) as He.
  pose proof (inv_window _ _ Hinv _ _ He) as Hw.
  assert (Hex : electionId <> 0 /\ electionId <= _electionIds s).
  { split.
    - intros ->. rewrite (inv_fresh _ _ Hinv 0) in He by auto. discriminate.
    - apply N.le_ngt. intros Hlt.
      rewrite (inv_fresh _ _ Hinv electionId) in He by auto. discriminate. }
  destruct Hex as [H0 Hle].
  split; [| split].
  - intros Hp Hin Hnv.
    assert (Hopen : forall now,
              Election.startTime (election s electionId) <= now ->
              now <= Election.endTime (election s electionId) ->
              castVote_recorded (mkMsg caller now) electionId candidateId s).
    { intros now Hst Hen.
      assert (Hrun := castVote_commits n (mkMsg caller now) electionId candidateId s
                        Hinv Hn Hrole H0 Hle Hcand Hact Hst Hen Hnv Hp Hin).
      eexists. split; [exact Hrun |]. split.
      - unfold transact. simpl. by rewrite Hrun.
      - apply (recordVote_reads (mkMsg caller now)). }
    split; [apply Hopen; lia |]. split; [apply Hopen; lia | done].
  - intros now Hnow.
    unfold castVote, onlyVoter. simpl. rewrite Hrole. simpl.
    rewrite electionExists_intro by done. simpl.
    unfold candidateExists. rewrite Hcand. simpl.
    unfold onlyDuringElection. rewrite Hact. simpl.
    by apply N.ltb_lt in Hnow as ->.
  - intros now Hnow.
    unfold castVote, onlyVoter. simpl. rewrite Hrole. simpl.
    rewrite electionExists_intro by done. simpl.
    unfold candidateExists. rewrite Hcand. simpl.
    unfold onlyDuringElection. rewrite Hact. simpl.
    assert (Hge : (now <? Election.startTime (election s electionId)) = false)
      by (apply N.ltb_ge; lia).
    rewrite Hge. by apply N.ltb_lt in Hnow as ->.
Qed.

Lemma castVote_window_witness :
  castVote_recorded (mkMsg 7 200) 1 1 Scenario.with_election /\
  castVote_recorded (mkMsg 7 300) 1 1 Scenario.with_election /\
  castVote (mkMsg 7 199) 1 1 Scenario.with_election = Err (ElectionNotStarted 1) /\
  castVote (mkMsg 7 301) 1 1 Scenario.with_election = Err (ElectionEnded 1) /\
  castVote (mkMsg 7 199) 1 1 Scenario.paused = Err (ElectionNotStarted 1).
Proof.
  assert (Hr : reachable 4 Scenario.with_election) by (repeat constructor).
  assert (Hn : N.of_nat 4 < MAX_UINT256) by (unfold MAX_UINT256; lia).
  assert (Hr5 : reachable 5 Scenario.paused) by (repeat constructor).
  assert (Hn5 : N.of_nat 5 < MAX_UINT256) by (unfold MAX_UINT256; lia).
  destruct (castVote_window 4 Scenario.with_election 7 1 1 Hr Hn)
    as (Hopen & Hb & Ha); try (vm_compute; reflexivity).
  destruct (castVote_window 5 Scenario.paused 7 1 1 Hr5 Hn5)
    as (_ & Hb5 & _); try (vm_compute; reflexivity).
  destruct Hopen as (Hs & He & _).
  - vm_compute. reflexivity.
  - vm_compute. reflexivity.
  - vm_compute. intros H. discriminate H.
  - split; [exact Hs |]. split; [exact He |]. split; [| split].
    + apply (Hb 199). vm_compute. reflexivity.
    + apply (Ha 301). vm_compute. reflexivity.
    + apply (Hb5 199). vm_compute. reflexivity.
Defined.

(** Counterexample to C5 as stated: election 1 is active with window [200, 300] and
    voter 7 has not voted. In the paused contract the votes for roster
    candidate 1 at 200 and at 300 are rejected. With the roster
    [1; 99], candidate 99 never having been added, a vote for 99 is
    rejected with CandidateNotFound at 200, and also at 199 and at 301,
    where neither ElectionNotStarted nor ElectionEnded is reported. *)
Lemma castVote_in_window_rejected :
  reachable 5 Scenario.paused /\
  Election.isActive (election Scenario.paused 1) = true /\
  hasRole Scenario.paused VOTER_ROLE 7 = true /\
  hasVotedInElection Scenario.paused 7 1 = Ok false /\
  candidateInElection (Election.candidateIds (election Scenario.paused 1)) 1 = true /\
  castVote (mkMsg 7 200) 1 1 Scenario.paused = Err (Revert "Pausable: paused") /\
  castVote (mkMsg 7 300) 1 1 Scenario.paused = Err (Revert "Pausable: paused") /\
  reachable 4 Scenario.with_unknown_in_roster /\
  Election.isActive (election Scenario.with_unknown_in_roster 1) = true /\
  hasRole Scenario.with_unknown_in_roster VOTER_ROLE 7 = true /\
  hasVotedInElection Scenario.with_unknown_in_roster 7 1 = Ok false /\
  candidateInElection
    (Election.candidateIds (election Scenario.with_unknown_in_roster 1)) 99 = true /\
  castVote (mkMsg 7 200) 1 99 Scenario.with_unknown_in_roster = Err (CandidateNotFound 99) /\
  castVote (mkMsg 7 199) 1 99 Scenario.with_unknown_in_roster = Err (CandidateNotFound 99) /\
  castVote (mkMsg 7 301) 1 99 Scenario.with_unknown_in_roster = Err (CandidateNotFound 99).
Proof.
  split; [repeat constructor |].
  do 6 (split; [vm_compute; reflexivity |]).
  split; [repeat constructor |].
  repeat split; vm_compute; reflexivity.
Qed.

(** C3, as the code has it. createElection does not look at the
    candidate ids it is given: called by an ElectionCreator while the
    contract is not paused, with startTime < endTime and startTime after
    the block time, it succeeds for every list of ids (empty, or naming
    candidates that do not exist) and stores the list as supplied in a
    new active election with totalVotes 0; it never fails with
    CandidateNotFound. *)
Theorem createElection_stores_roster (m : Msg) (title description : string)
    (startTime endTime : uint256) (ids : list uint256) (s : State) :
  hasRole s ELECTION_CREATOR_ROLE (sender m) = true ->
  _paused s = false ->
  startTime < endTime ->
  timestamp m < startTime ->
  (exists s',
     createElection m title description startTime endTime ids s = Ok s' /\
     getTotalElections s' = Counters.increment (_electionIds s) /\
     let e := election s' (getTotalElections s') in
     Election.candidateIds e = ids /\
     Election.isActive e = true /\
     Election.totalVotes e = 0 /\
     Election.startTime e = startTime /\ Election.endTime e = endTime) /\
  (forall c,
     createElection m title description startTime endTime ids s <> Err (CandidateNotFound c)).
Proof.
  intros Hrole Hp Hw Hfut.
  assert (Hrun : createElection m title description startTime endTime ids s
    = Ok (mkState (_roles s) (_entered s) (voterRegistrationTime s) (isVoterRegistered s)
            (_paused s) (Counters.increment (_electionIds s)) (_candidateIds s)
            (<[Counters.increment (_electionIds s) :=
                 Election.mk (Counters.increment (_electionIds s)) title description
                   startTime endTime true 0 ids
                   (Election.hasVoted
                      (default Election.zero
                         (elections s !! Counters.increment (_electionIds s))))
                   (Election.votes
                      (default Election.zero
                         (elections s !! Counters.increment (_electionIds s))))
                   (sender m) (timestamp m)]> (elections s))
            (candidates s) (voterProfiles s))).
  { unfold createElection, onlyElectionCreator, whenNotPaused.
    rewrite Hrole, Hp. simpl.
    assert (H1 : (endTime <=? startTime) = false) by (apply N.leb_gt; lia).
    assert (H2 : (startTime <=? timestamp m) = false) by (apply N.leb_gt; lia).
    rewrite H1, H2. reflexivity. }
  split.
  - eexists. split; [exact Hrun |]. split; [reflexivity |].
    unfold getTotalElections, Counters.current, election. simpl.
    rewrite lookup_insert_eq. simpl. done.
  - intros c. rewrite Hrun. discriminate.
Qed.

Lemma createElection_stores_roster_witness :
  exists s',
    createElection (mkMsg 1 140) "E1" "General election" 200 300 [99; 99] Scenario.with_bob
      = Ok s' /\
    getTotalElections s' = 1 /\
    Election.candidateIds (election s' 1) = [99; 99].
Proof.
  destruct (createElection_stores_roster (mkMsg 1 140) "E1" "General election" 200 300
              [99; 99] Scenario.with_bob) as [(s' & Hrun & Hid & Hroster & _) _];
    try (vm_compute; reflexivity).
  exists s'. split; [exact Hrun |].
  assert (Hone : getTotalElections s' = 1) by (rewrite Hid; vm_compute; reflexivity).
  rewrite Hone in Hroster. auto.
Defined.

(** Counterexample to C3 as stated: right after deployment no candidate exists,
    and createElection still creates election 1 with the roster [99], and
    also one with the empty roster. *)
Lemma createElection_accepts_unknown_candidate :
  getCandidate Scenario.deployed 99 = Err (CandidateNotFound 99) /\
  (exists s',
     createElection (mkMsg 1 140) "E1" "General election" 200 300 [99] Scenario.deployed
       = Ok s' /\
     getTotalElections s' = 1 /\
     Election.candidateIds (election s' 1) = [99] /\
     getCandidate s' 99 = Err (CandidateNotFound 99)) /\
  is_Ok (createElection (mkMsg 1 140) "E0" "No candidates" 200 300 [] Scenario.deployed).
Proof.
  split; [vm_compute; reflexivity |]. split.
  - eexists. split; [vm_compute; reflexivity |].
    repeat split; vm_compute; reflexivity.
  - eexists. vm_compute. reflexivity.
Qed.

(** C4, as the code has it. While the paused flag is set, castVote,
    createElection and addCandidate fail and change no state; the failure
    is "Pausable: paused" once the checks placed before the pause gate
    have passed (the role check; for castVote also election and candidate
    existence, the voting window and the already-voted check). pause
    fails too, unpause by an Administrator succeeds. endElection,
    toggleElectionStatus, registerVoter and batchRegisterVoters carry no
    pause gate: they do under either value of the flag what they do
    under the other. *)
Theorem pause_gate (m : Msg) (s : State) :
  _paused s = true ->
  (forall eid cid,
     is_Err (castVote m eid cid s) /\ transact m (call_castVote eid cid) s = s) /\
  (forall eid cid,
     hasRole s VOTER_ROLE (sender m) = true ->
     electionExists eid s = Ok tt -> candidateExists cid s = Ok tt ->
     onlyDuringElection m eid s = Ok tt -> hasNotVoted m eid s = Ok tt ->
     castVote m eid cid s = Err (Revert "Pausable: paused")) /\
  (forall t d st en ids,
     is_Err (createElection m t d st en ids s) /\
     transact m (call_createElection t d st en ids) s = s /\
     (hasRole s ELECTION_CREATOR_ROLE (sender m) = true ->
      createElection m t d st en ids s = Err (Revert "Pausable: paused"))) /\
  (forall name d,
     is_Err (addCandidate m name d s) /\
     transact m (call_addCandidate name d) s = s /\
     (hasRole s ELECTION_CREATOR_ROLE (sender m) = true ->
      addCandidate m name d s = Err (Revert "Pausable: paused"))) /\
  is_Err (pause m s) /\
  (hasRole s ADMIN_ROLE (sender m) = true -> unpause m s = Ok (set_paused false s)) /\
  (forall b eid,
     endElection m eid (set_paused b s) = set_paused b <$> endElection m eid s) /\
  (forall b eid,
     toggleElectionStatus m eid (set_paused b s)
     = set_paused b <$> toggleElectionStatus m eid s) /\
  (forall b v,
     registerVoter m v (set_paused b s) = set_paused b <$> registerVoter m v s) /\
  (forall b vs,
     batchRegisterVoters m vs (set_paused b s) = set_paused b <$> batchRegisterVoters m vs s).
Proof.
  intros Hp.
  assert (Hvote : forall eid cid, is_Err (castVote m eid cid s)).
  { intros eid cid. apply is_Err_not_Ok. intros s' Hok.
    apply castVote_Ok in Hok as (_ & _ & _ & _ & _ & Hnp & _). congruence. }
  assert (Hcreate : forall t d st en ids, is_Err (createElection m t d st en ids s)).
  { intros t d st en ids. unfold createElection, onlyElectionCreator, whenNotPaused.
    rewrite Hp. destruct (hasRole s ELECTION_CREATOR_ROLE (sender m)); simpl; by eexists. }
  assert (Hadd : forall name d, is_Err (addCandidate m name d s)).
  { intros name d. unfold addCandidate, onlyElectionCreator, whenNotPaused.
    rewrite Hp. destruct (hasRole s ELECTION_CREATOR_ROLE (sender m)); simpl; by eexists. }
  repeat split.
  - apply Hvote.
  - destruct (Hvote eid cid) as [e He]. unfold transact. simpl. by rewrite He.
  - intros eid cid Hrole Hex Hcand Hwin Hnv.
    unfold castVote, onlyVoter, whenNotPaused.
    rewrite Hrole, Hex, Hcand, Hwin, Hnv, Hp. reflexivity.
  - apply Hcreate.
  - destruct (Hcreate t d st en ids) as [e He]. unfold transact. simpl. by rewrite He.
  - intros Hrole. unfold createElection, onlyElectionCreator, whenNotPaused.
    rewrite Hrole, Hp. reflexivity.
  - apply Hadd.
  - destruct (Hadd name d) as [e He]. unfold transact. simpl. by rewrite He.
  - intros Hrole. unfold addCandidate, onlyElectionCreator, whenNotPaused.
    rewrite Hrole, Hp. reflexivity.
  - unfold pause, onlyAdmin, whenNotPaused. rewrite Hp.
    destruct (hasRole s ADMIN_ROLE (sender m)); simpl; by eexists.
  - intros Hrole. unfold unpause, onlyAdmin, whenPaused. rewrite Hrole, Hp. reflexivity.
  - intros. apply endElection_ungated.
  - intros. apply toggleElectionStatus_ungated.
  - intros. apply registerVoter_ungated.
  - intros. apply batchRegisterVoters_ungated.
Qed.

Lemma pause_gate_witness :
  _paused Scenario.paused = true /\
  castVote (mkMsg 7 200) 1 1 Scenario.paused = Err (Revert "Pausable: paused") /\
  createElection (mkMsg 1 160) "E2" "Second" 400 500 [1] Scenario.paused
    = Err (Revert "Pausable: paused") /\
  addCandidate (mkMsg 1 160) "Carol" "Third candidate" Scenario.paused
    = Err (Revert "Pausable: paused") /\
  unpause (mkMsg 1 160) Scenario.paused = Ok (set_paused false Scenario.paused).
Proof.
  assert (Hp : _paused Scenario.paused = true) by (vm_compute; reflexivity).
  destruct (pause_gate (mkMsg 7 200) Scenario.paused Hp) as (_ & Hvote & _).
  destruct (pause_gate (mkMsg 1 160) Scenario.paused Hp)
    as (_ & _ & Hcreate & Hadd & _ & Hun & _).
  split; [exact Hp |]. split.
  - apply Hvote; vm_compute; reflexivity.
  - split; [apply Hcreate; vm_compute; reflexivity |].
    split; [apply Hadd; vm_compute; reflexivity |].
    apply Hun. vm_compute. reflexivity.
Defined.

(** Counterexample to C4 as stated: with the flag set, endElection by the election
    creator succeeds and closes election 1, and a voter is registered. *)
Lemma paused_endElection_succeeds :
  _paused Scenario.paused = true /\
  Election.isActive (election Scenario.paused 1) = true /\
  (exists s',
     endElection (mkMsg 1 160) 1 Scenario.paused = Ok s' /\
     Election.isActive (election s' 1) = false) /\
  (exists s',
     registerVoter (mkMsg 1 160) 8 Scenario.paused = Ok s' /\
     isRegisteredVoter s' 8 = true).
Proof.
  split; [vm_compute; reflexivity |]. split; [vm_compute; reflexivity |].
  split; eexists; (split; [vm_compute; reflexivity |]); vm_compute; reflexivity.
Qed.

End VotingContractProps.

(** ** VotingAccessControl: voter registration *)

Module RegistrationFacts.
Import VotingContract AccessControlFacts.

(** What the loop of [batchRegisterVoters] leaves behind, address by
    address: [a] is touched exactly when it occurs in the batch and was
    not registered before. *)
Lemma batch_loop_registered m vs s a :
  (a ∈ isVoterRegistered (batchRegisterVoters_loop m vs s))
  <-> (a ∈ isVoterRegistered s) \/ (a ∈ vs).
Proof.
  revert s. induction vs as [|v vs IH]; intros s; simpl.
  - set_solver.
  - rewrite IH. case_bool_decide as Hv; simpl; set_solver.
Qed.

Lemma batch_loop_time m vs s a :
  voterRegistrationTime (batchRegisterVoters_loop m vs s) !! a
  = if decide ((a ∉ isVoterRegistered s) /\ (a ∈ vs))
    then Some (timestamp m)
    else voterRegistrationTime s !! a.
Proof.
  revert s. induction vs as [|v vs IH]; intros s; simpl.
  - case_decide as H; [| done]. destruct H as [_ H]. by apply elem_of_nil in H.
  - rewrite IH. case_bool_decide as Hv; simpl.
    + repeat case_decide; try done; set_solver.
    + destruct (decide (a = v)) as [->|Hne].
      * rewrite lookup_insert_eq. repeat case_decide; try done; set_solver.
      * rewrite lookup_insert_ne by done. repeat case_decide; try done; set_solver.
Qed.

Lemma batch_loop_role m vs s r a :
  hasRole (batchRegisterVoters_loop m vs s) r a
  = bool_decide (r = VOTER_ROLE /\ (a ∉ isVoterRegistered s) /\ (a ∈ vs)) || hasRole s r a.
Proof.
  revert s. induction vs as [|v vs IH]; intros s; simpl.
  - rewrite bool_decide_eq_false_2; [done |]. intros (_ & _ & H). by apply elem_of_nil in H.
  - rewrite IH. destruct (decide (v ∈ isVoterRegistered s)) as [Hv|Hv].
    + rewrite (bool_decide_eq_true_2 _ Hv). simpl.
      f_equal. apply bool_decide_ext. set_solver.
    + rewrite (bool_decide_eq_false_2 _ Hv). simpl.
      unfold hasRole at 1. simpl. rewrite hasRole_grant. fold (hasRole s r a).
      rewrite orb_assoc. f_equal.
      apply Bool.eq_iff_eq_true.
      rewrite orb_true_iff, !bool_decide_eq_true.
      split.
      * intros [(-> & Ha & Hin) | Heq]; [set_solver |].
        injection Heq as ? ?; subst. set_solver.
      * intros (-> & Ha & Hin). destruct (decide (a = v)) as [-> | Hne]; [by right |].
        left. apply elem_of_cons in Hin as [-> | Hin]; [done |].
        split; [done |]. split; [| done].
        intros [Hav | Hreg]%elem_of_union; [| done].
        by apply elem_of_singleton in Hav.
Qed.

Lemma batch_loop_rest m vs s :
  _paused (batchRegisterVoters_loop m vs s) = _paused s /\
  ledger (batchRegisterVoters_loop m vs s) = ledger s /\
  _candidateIds (batchRegisterVoters_loop m vs s) = _candidateIds s.
Proof.
  revert s. induction vs as [|v vs IH]; intros s; simpl; [done |].
  destruct (IH (if negb (bool_decide (v ∈ isVoterRegistered s))
                then register m v s else s)) as (-> & -> & ->).
  by destruct (negb _).
Qed.

(** No call other than a registration writes the registration record,
    and a registration never rewrites the record of a registered address. *)
Lemma execute_registry m c s s' p :
  execute m c s = Ok s' -> p ∈ isVoterRegistered s ->
  (p ∈ isVoterRegistered s') /\
  voterRegistrationTime s' !! p = voterRegistrationTime s !! p.
Proof.
  intros H Hp.
  assert (Hframe : registry s' = registry s ->
            (p ∈ isVoterRegistered s') /\
            voterRegistrationTime s' !! p = voterRegistrationTime s !! p).
  { unfold registry. intros [= -> ->]. done. }
  destruct c; simpl in H.
  - unfold registerVoter in H. bind_inv H. bind_inv H. injection H as <-.
    apply require_Ok, negb_true_iff, bool_decide_eq_false in Hchk0. simpl.
    split; [set_solver |]. rewrite lookup_insert_ne; [done |]. by intros ->.
  - unfold batchRegisterVoters in H. bind_inv H. bind_inv H. bind_inv H.
    injection H as <-. split; [apply batch_loop_registered; auto |].
    rewrite batch_loop_time. by rewrite decide_False by tauto.
  - apply Hframe. unfold grantElectionCreatorRole in H. bind_inv H. by injection H as <-.
  - apply Hframe. unfold revokeElectionCreatorRole in H. bind_inv H. by injection H as <-.
  - apply Hframe. unfold createElection in H. bind_inv H. bind_inv H.
    destruct (_ <=? _); [discriminate |]. destruct (_ <=? _); [discriminate |].
    by injection H as <-.
  - apply Hframe. unfold addCandidate in H. bind_inv H. bind_inv H.
    destruct (_ || _); [discriminate |]. by injection H as <-.
  - apply Hframe. apply CastVoteFacts.castVote_Ok in H
      as (_ & _ & _ & _ & _ & _ & _ & _ & ->). reflexivity.
  - apply Hframe. unfold endElection in H. bind_inv H. bind_inv H. bind_inv H.
    by injection H as <-.
  - apply Hframe. unfold toggleElectionStatus in H. bind_inv H. bind_inv H.
    by injection H as <-.
  - apply Hframe. unfold pause in H. bind_inv H. bind_inv H. by injection H as <-.
  - apply Hframe. unfold unpause in H. bind_inv H. bind_inv H. by injection H as <-.
  - apply Hframe. unfold grantRole in H. bind_inv H. by injection H as <-.
  - apply Hframe. unfold revokeRole in H. bind_inv H. by injection H as <-.
  - apply Hframe. unfold renounceRole in H. bind_inv H. by injection H as <-.
Qed.

Lemma run_registry txs s p :
  p ∈ isVoterRegistered s ->
  (p ∈ isVoterRegistered (run txs s)) /\
  voterRegistrationTime (run txs s) !! p = voterRegistrationTime s !! p.
Proof.
  revert s. induction txs as [|[m c] txs IH]; intros s Hp; simpl; [done |].
  assert (Hstep : (p ∈ isVoterRegistered (transact m c s)) /\
            voterRegistrationTime (transact m c s) !! p = voterRegistrationTime s !! p).
  { unfold transact. destruct (execute m c s) as [s'|e] eqn:H; [| done].
    by eapply execute_registry. }
  destruct Hstep as [Hp' Ht]. destruct (IH _ Hp') as [Hp'' Ht'].
  split; [done | congruence].
Qed.

End RegistrationFacts.

Module RegistrationProps.
Import VotingContract AccessControlFacts RegistrationFacts.

(** C8. batchRegisterVoters called by an Administrator fails with
    "Empty voters array" on an empty list and with "Too many voters in
    batch" on more than 100 addresses; otherwise it succeeds as a whole:
    an address already registered is skipped (its registration time and
    its roles are what they were), an address of the batch that was not
    registered is registered with the block time and the Voter role, and
    nothing else changes. *)
Theorem batchRegisterVoters_spec (m : Msg) (voters : list address) (s : State) :
  hasRole s ADMIN_ROLE (sender m) = true ->
  (voters = [] ->
     batchRegisterVoters m voters s = Err (Revert "AccessControl: Empty voters array")) /\
  ((100 < length voters)%nat ->
     batchRegisterVoters m voters s = Err (Revert "AccessControl: Too many voters in batch")) /\
  (voters <> [] -> (length voters <= 100)%nat ->
     exists s',
       batchRegisterVoters m voters s = Ok s' /\
       (forall a, a ∈ isVoterRegistered s ->
          (a ∈ isVoterRegistered s') /\
          voterRegistrationTime s' !! a = voterRegistrationTime s !! a /\
          forall r, hasRole s' r a = hasRole s r a) /\
       (forall a, a ∉ isVoterRegistered s -> a ∈ voters ->
          (a ∈ isVoterRegistered s') /\
          voterRegistrationTime s' !! a = Some (timestamp m) /\
          hasRole s' VOTER_ROLE a = true /\
          forall r, r <> VOTER_ROLE -> hasRole s' r a = hasRole s r a) /\
       (forall a, a ∉ isVoterRegistered s -> a ∉ voters ->
          (a ∉ isVoterRegistered s') /\
          voterRegistrationTime s' !! a = voterRegistrationTime s !! a /\
          forall r, hasRole s' r a = hasRole s r a) /\
       _paused s' = _paused s /\ ledger s' = ledger s /\
       _candidateIds s' = _candidateIds s).
Proof.
  intros Hrole. unfold batchRegisterVoters, onlyAdmin. rewrite Hrole. simpl.
  split; [by intros -> |]. split.
  - intros Hlen. destruct voters as [|v vs]; [simpl in Hlen; lia |].
    assert (H0 : (0 <? N.of_nat (length (v :: vs))) = true) by (apply N.ltb_lt; simpl; lia).
    assert (H1 : (N.of_nat (length (v :: vs)) <=? 100) = false) by (apply N.leb_gt; lia).
    rewrite H0, H1. reflexivity.
  - intros Hne Hlen. destruct voters as [|v vs]; [done |].
    assert (H0 : (0 <? N.of_nat (length (v :: vs))) = true) by (apply N.ltb_lt; simpl; lia).
    assert (H1 : (N.of_nat (length (v :: vs)) <=? 100) = true) by (apply N.leb_le; lia).
    rewrite H0, H1. simpl. eexists. split; [reflexivity |].
    set (vs' := v :: vs).
    change (batchRegisterVoters_loop m vs
              (if negb (bool_decide (v ∈ isVoterRegistered s)) then register m v s else s))
      with (batchRegisterVoters_loop m vs' s).
    split; [| split; [| split]].
    + intros a Ha. split; [apply batch_loop_registered; auto |].
      split.
      * rewrite batch_loop_time. rewrite decide_False by tauto. done.
      * intros r. rewrite batch_loop_role.
        rewrite bool_decide_eq_false_2 by tauto. done.
    + intros a Ha Hin. split; [apply batch_loop_registered; auto |].
      split; [| split].
      * rewrite batch_loop_time. by rewrite decide_True.
      * rewrite batch_loop_role. by rewrite bool_decide_eq_true_2.
      * intros r Hr. rewrite batch_loop_role.
        rewrite bool_decide_eq_false_2 by tauto. done.
    + intros a Ha Hin. split; [rewrite batch_loop_registered; tauto |].
      split.
      * rewrite batch_loop_time. rewrite decide_False by tauto. done.
      * intros r. rewrite batch_loop_role.
        rewrite bool_decide_eq_false_2 by tauto. done.
    + apply batch_loop_rest.
Qed.

Lemma batchRegisterVoters_spec_witness :
  exists s',
    batchRegisterVoters (mkMsg 1 115) [7; 8; 7] Scenario.with_voter = Ok s' /\
    voterRegistrationTime s' !! 7 = Some 110 /\
    voterRegistrationTime s' !! 8 = Some 115 /\
    hasRole s' VOTER_ROLE 8 = true.
Proof.
  assert (Hrole : hasRole Scenario.with_voter ADMIN_ROLE (sender (mkMsg 1 115)) = true)
    by (vm_compute; reflexivity).
  destruct (batchRegisterVoters_spec (mkMsg 1 115) [7; 8; 7] Scenario.with_voter Hrole)
    as (_ & _ & Hrun).
  destruct Hrun as (s' & Hrun & Hold & Hnew & _); [discriminate | simpl; lia |].
  exists s'. split; [exact Hrun |].
  assert (H7 : 7 ∈ isVoterRegistered Scenario.with_voter) by (vm_compute; reflexivity).
  assert (H8 : 8 ∉ isVoterRegistered Scenario.with_voter)
    by (vm_compute; intros H; discriminate H).
  assert (Hin : 8 ∈ [7; 8; 7]) by apply list_elem_of_further, list_elem_of_here.
  destruct (Hold 7 H7) as (_ & Ht7 & _).
  destruct (Hnew 8 H8 Hin) as (_ & Ht8 & Hr8 & _).
  split; [| split; [exact Ht8 | exact Hr8]].
  rewrite Ht7. vm_compute. reflexivity.
Defined.

(** C9. For a principal P not yet registered, registerVoter(P) called by
    an Administrator succeeds: P gets a registration record with the
    block time and the Voter role. A second registerVoter(P) by an
    Administrator (the same caller is still one) fails with "Voter already
    registered" and leaves the whole state as the first call left it. *)
Theorem registerVoter_twice (m : Msg) (p : address) (s : State) :
  hasRole s ADMIN_ROLE (sender m) = true ->
  p ∉ isVoterRegistered s ->
  exists s1,
    registerVoter m p s = Ok s1 /\
    (p ∈ isVoterRegistered s1) /\
    getVoterRegistrationTime s1 p = Ok (timestamp m) /\
    hasRole s1 VOTER_ROLE p = true /\
    hasRole s1 ADMIN_ROLE (sender m) = true /\
    forall m2, hasRole s1 ADMIN_ROLE (sender m2) = true ->
      registerVoter m2 p s1 = Err (Revert "AccessControl: Voter already registered") /\
      transact m2 (call_registerVoter p) s1 = s1.
Proof.
  intros Hrole Hp.
  assert (Hrun : registerVoter m p s = Ok (register m p s)).
  { unfold registerVoter, onlyAdmin. rewrite Hrole. simpl.
    by rewrite bool_decide_eq_false_2. }
  assert (Hreg : p ∈ isVoterRegistered (register m p s)) by (simpl; set_solver).
  exists (register m p s). split; [done |]. split; [done |].
  split; [| split; [| split]].
  - unfold getVoterRegistrationTime. rewrite bool_decide_eq_true_2 by done. simpl.
    unfold mget. by rewrite lookup_insert_eq.
  - unfold hasRole. simpl. rewrite hasRole_grant.
    by rewrite bool_decide_eq_true_2.
  - unfold hasRole in *. simpl. rewrite hasRole_grant, Hrole. apply orb_true_r.
  - intros m2 Hrole2.
    assert (Hfail : registerVoter m2 p (register m p s)
              = Err (Revert "AccessControl: Voter already registered")).
    { unfold registerVoter, onlyAdmin. rewrite Hrole2. simpl.
      by rewrite bool_decide_eq_true_2. }
    split; [done |]. unfold transact. simpl. by rewrite Hfail.
Qed.

Lemma registerVoter_twice_witness :
  exists s1,
    registerVoter (mkMsg 1 110) 7 Scenario.deployed = Ok s1 /\
    getVoterRegistrationTime s1 7 = Ok 110 /\
    registerVoter (mkMsg 1 111) 7 s1 = Err (Revert "AccessControl: Voter already registered") /\
    transact (mkMsg 1 111) (call_registerVoter 7) s1 = s1.
Proof.
  destruct (registerVoter_twice (mkMsg 1 110) 7 Scenario.deployed)
    as (s1 & Hrun & _ & Ht & _ & Hadm & Hsecond).
  - vm_compute. reflexivity.
  - vm_compute. intros H. discriminate H.
  - exists s1. split; [exact Hrun |]. split; [exact Ht |].
    apply (Hsecond (mkMsg 1 111)). exact Hadm.
Defined.

(** C7, as the code has it. The registration record of VotingAccessControl
    is monotonic: once isVoterRegistered[P] is set, it stays set in every
    later state, with the registration time it was given, whatever
    happens to the Voter role (which is what isRegisteredVoter(P)
    returns, and which can be taken away again). *)
Theorem registration_record_persists (txs : list (Msg * Call)) (s : State) (p : address) :
  p ∈ isVoterRegistered s ->
  (p ∈ isVoterRegistered (run txs s)) /\
  voterRegistrationTime (run txs s) !! p = voterRegistrationTime s !! p /\
  getVoterRegistrationTime (run txs s) p = getVoterRegistrationTime s p.
Proof.
  intros Hp. destruct (run_registry txs s p Hp) as [Hp' Ht].
  split; [done |]. split; [done |].
  unfold getVoterRegistrationTime, mget.
  rewrite !bool_decide_eq_true_2 by done. simpl. by rewrite Ht.
Qed.

Lemma registration_record_persists_witness :
  (7 ∈ isVoterRegistered
         (run [(mkMsg 7 115, call_renounceRole VOTER_ROLE 7)] Scenario.with_voter)) /\
  getVoterRegistrationTime
    (run [(mkMsg 7 115, call_renounceRole VOTER_ROLE 7)] Scenario.with_voter) 7 = Ok 110.
Proof.
  assert (H7 : 7 ∈ isVoterRegistered Scenario.with_voter) by (vm_compute; reflexivity).
  destruct (registration_record_persists
              [(mkMsg 7 115, call_renounceRole VOTER_ROLE 7)] Scenario.with_voter 7 H7)
    as (Hreg & _ & Ht).
  split; [exact Hreg |]. rewrite Ht. vm_compute. reflexivity.
Defined.

(** Counterexample to C7 as stated: in the role-management contract revokeVoter
    turns isRegisteredVoter(7) from true back to false; in
    VotingAccessControl the voter giving up the Voter role does the same,
    while the registration record stays. *)
Lemma isRegisteredVoter_reverts :
  RoleVotingContract.isRegisteredVoter RoleVotingContract.Scenario.with_voter 7 = true /\
  RoleVotingContract.isRegisteredVoter RoleVotingContract.Scenario.voter_revoked 7 = false /\
  isRegisteredVoter Scenario.with_voter 7 = true /\
  isRegisteredVoter
    (transact (mkMsg 7 115) (call_renounceRole VOTER_ROLE 7) Scenario.with_voter) 7 = false /\
  (7 ∈ isVoterRegistered
         (transact (mkMsg 7 115) (call_renounceRole VOTER_ROLE 7) Scenario.with_voter)).
Proof. repeat split; vm_compute; reflexivity. Qed.

End RegistrationProps.

(** ** The role-management contract: administrators *)

Module RoleFacts.
Import RoleVotingContract AccessControlFacts.

Lemma role_nonReentrant_Ok body s s' :
  nonReentrant body s = Ok s' ->
  _entered s = false /\
  exists s1, body (mkState (_roles s) true) = Ok s1 /\ s' = mkState (_roles s1) false.
Proof.
  unfold nonReentrant. intros H. bind_inv H.
  apply require_Ok in Hchk. bind_inv H. injection H as <-.
  split; [by destruct (_entered s) | eauto].
Qed.

Lemma batch_loop_admin vs s s' a :
  registerVotersBatch_loop vs s = Ok s' ->
  _entered s' = _entered s /\ (isAdmin s a = true -> isAdmin s' a = true).
Proof.
  revert s. induction vs as [|v vs IH]; intros s H; simpl in H.
  - by injection H as <-.
  - bind_inv H. apply IH in H as [He Ha]. split.
    + rewrite He. by destruct (hasRole s VOTER_ROLE v).
    + intros Hadm. apply Ha. destruct (hasRole s VOTER_ROLE v); [done |].
      unfold isAdmin, hasRole in *. simpl. rewrite hasRole_grant, Hadm. apply orb_true_r.
Qed.

(** What a successful [revokeAdminRole] has checked and written. *)
Lemma revokeAdminRole_Ok m admin s s' :
  revokeAdminRole m admin s = Ok s' ->
  _entered s = false /\ isAdmin s (sender m) = true /\ admin <> sender m /\
  s' = mkState (AccessControl._revokeRole ADMIN_ROLE admin (_roles s)) false.
Proof.
  unfold revokeAdminRole. intros H. bind_inv H. apply require_Ok in Hchk.
  apply role_nonReentrant_Ok in H as (Hent & s1 & H & ->).
  bind_inv H. bind_inv H. bind_inv H. apply require_Ok, negb_true_iff, N.eqb_neq in Hchk2.
  bind_inv H. injection H as <-. done.
Qed.

Lemma execute_admin_inv m c s s' :
  admin_inv s -> execute m c s = Ok s' -> admin_inv s'.
Proof.
  intros [Hent [a Ha]] H. destruct c; simpl in H.
  - unfold registerVoter in H. bind_inv H.
    apply role_nonReentrant_Ok in H as (_ & s1 & H & ->).
    bind_inv H. bind_inv H. injection H as <-.
    split; [done |]. exists a. unfold isAdmin, hasRole in *. simpl.
    rewrite hasRole_grant, Ha. apply orb_true_r.
  - unfold registerVotersBatch in H. bind_inv H.
    apply role_nonReentrant_Ok in H as (_ & s1 & H & ->).
    bind_inv H. bind_inv H. apply (batch_loop_admin _ _ _ a) in H as [_ Hadm].
    split; [done |]. exists a. apply Hadm. exact Ha.
  - unfold revokeVoter in H. bind_inv H.
    apply role_nonReentrant_Ok in H as (_ & s1 & H & ->).
    bind_inv H. bind_inv H. injection H as <-.
    split; [done |]. exists a. unfold isAdmin, hasRole in *. simpl.
    rewrite hasRole_revoke, Ha. by rewrite bool_decide_eq_false_2.
  - unfold grantAdminRole in H. bind_inv H.
    apply role_nonReentrant_Ok in H as (_ & s1 & H & ->).
    bind_inv H. bind_inv H. injection H as <-.
    split; [done |]. exists a. unfold isAdmin, hasRole in *. simpl.
    rewrite hasRole_grant, Ha. apply orb_true_r.
  - apply revokeAdminRole_Ok in H as (_ & Hadm & Hne & ->).
    split; [done |]. exists (sender m). unfold isAdmin, hasRole in *. simpl.
    rewrite hasRole_revoke, Hadm.
    rewrite bool_decide_eq_false_2; [done |]. intros [= Heq]. by apply Hne.
Qed.

Lemma run_admin_inv txs s : admin_inv s -> admin_inv (run txs s).
Proof.
  revert s. induction txs as [|[m c] txs IH]; intros s Hinv; simpl; [done |].
  apply IH. unfold transact. destruct (execute m c s) eqn:H; [| done].
  by eapply execute_admin_inv.
Qed.

Lemma reachable_admin_inv s : reachable s -> admin_inv s.
Proof.
  intros (m & txs & ->). apply run_admin_inv. split; [done |].
  exists (sender m). unfold isAdmin, hasRole, constructor. cbn [_roles].
  rewrite hasRole_setRoleAdmin, hasRole_grant. by rewrite bool_decide_eq_true_2.
Qed.

End RoleFacts.

Module RoleVotingContractProps.
Import RoleVotingContract AccessControlFacts RoleFacts.

(** C6, as the code has it. In every state reached from construction
    through the contract's own functions (registerVoter,
    registerVotersBatch, revokeVoter, grantAdminRole, revokeAdminRole) at
    least one account holds the Administrator role. revokeAdminRole by an
    Administrator on itself fails with "cannot revoke own admin role",
    also when it is the only Administrator; the failure "cannot revoke
    last admin" is never the outcome, since a caller and a target that
    pass the earlier checks are two Administrators. A revokeAdminRole
    that succeeds had a target other than the caller and leaves the
    caller an Administrator. *)
Theorem admin_revocation_guard (s : State) :
  reachable s ->
  (exists a, isAdmin s a = true) /\
  1 <= getAdminCount s /\
  (forall m, isAdmin s (sender m) = true -> sender m <> 0 ->
     revokeAdminRole m (sender m) s
     = Err (Revert "VotingContract: cannot revoke own admin role")) /\
  (forall m admin,
     revokeAdminRole m admin s <> Err (Revert "VotingContract: cannot revoke last admin")) /\
  (forall m admin s', revokeAdminRole m admin s = Ok s' ->
     admin <> sender m /\ isAdmin s' (sender m) = true /\ isAdmin s' admin = false).
Proof.
  intros [Hent [a Ha]]%reachable_admin_inv.
  split; [by exists a |].
  split; [by apply (hasRole_count_pos _ _ a) |].
  split; [| split].
  - intros m Hadm H0.
    unfold revokeAdminRole, onlyAdmin, nonReentrant.
    unfold isAdmin in Hadm. rewrite Hadm, Hent. simpl.
    apply N.eqb_neq in H0 as ->. simpl.
    change (hasRole (mkState (_roles s) true)) with (hasRole s). rewrite Hadm. simpl.
    by rewrite N.eqb_refl.
  - intros m admin.
    unfold revokeAdminRole, onlyAdmin, nonReentrant.
    destruct (hasRole s ADMIN_ROLE (sender m)) eqn:Hcaller; [simpl | discriminate].
    rewrite Hent. simpl.
    destruct (admin =? 0); [discriminate | simpl].
    change (hasRole (mkState (_roles s) true)) with (hasRole s).
    destruct (hasRole s ADMIN_ROLE admin) eqn:Htarget; [simpl | discriminate].
    destruct (admin =? sender m) eqn:Hself; [discriminate | simpl].
    apply N.eqb_neq in Hself.
    change (getRoleMemberCount (mkState (_roles s) true)) with (getRoleMemberCount s).
    assert (Htwo : 1 < getRoleMemberCount s ADMIN_ROLE)
      by (apply (hasRole_count_two _ _ admin (sender m)); done).
    apply N.ltb_lt in Htwo as ->. discriminate.
  - intros m admin s' H. apply revokeAdminRole_Ok in H as (_ & Hadm & Hne & ->).
    split; [done |]. unfold isAdmin, hasRole in *. simpl.
    rewrite !hasRole_revoke, Hadm. split.
    + rewrite bool_decide_eq_false_2; [done |]. intros [= Heq]. by apply Hne.
    + by rewrite bool_decide_eq_true_2.
Qed.

Lemma admin_revocation_guard_witness :
  getAdminCount Scenario.with_voter = 1 /\
  revokeAdminRole (mkMsg 1 130) 1 Scenario.with_voter
  = Err (Revert "VotingContract: cannot revoke own admin role").
Proof.
  assert (Hr : reachable Scenario.with_voter).
  { exists (mkMsg 1 100), [(mkMsg 1 110, call_registerVoter 7)]. reflexivity. }
  destruct (admin_revocation_guard Scenario.with_voter Hr) as (_ & _ & Hself & _).
  split; [vm_compute; reflexivity |].
  apply (Hself (mkMsg 1 130)); [vm_compute; reflexivity | discriminate].
Defined.

(** Counterexample to C6 as stated: account 1 is the only Administrator, so
    revoking it would leave none; the call fails, but with "cannot revoke
    own admin role", not with "cannot revoke last admin". *)
Lemma last_admin_reports_self_revocation :
  getAdminCount Scenario.deployed = 1 /\
  isAdmin Scenario.deployed 1 = true /\
  revokeAdminRole (mkMsg 1 110) 1 Scenario.deployed
  = Err (Revert "VotingContract: cannot revoke own admin role") /\
  revokeAdminRole (mkMsg 1 110) 1 Scenario.deployed
  <> Err (Revert "VotingContract: cannot revoke last admin").
Proof.
  split; [vm_compute; reflexivity |]. split; [vm_compute; reflexivity |].
  assert (H : revokeAdminRole (mkMsg 1 110) 1 Scenario.deployed
              = Err (Revert "VotingContract: cannot revoke own admin role"))
    by (vm_compute; reflexivity).
  split; [exact H |]. rewrite H. discriminate.
Qed.

(** Outside the contract's own functions: the inherited renounceRole lets
    the only Administrator give the role up, after which nobody holds it. *)
Lemma renounceRole_leaves_no_admin :
  exists s',
    renounceRole (mkMsg 1 110) ADMIN_ROLE 1 Scenario.deployed = Ok s' /\
    getAdminCount s' = 0 /\ isAdmin s' 1 = false.
Proof. eexists. split; [vm_compute; reflexivity |]. split; vm_compute; reflexivity. Qed.

End RoleVotingContractProps.

(** ** VotingSystem: the voted marker *)

Module VotingSystemFacts.
Import VotingSystem.

Lemma system_nonReentrant_Ok body s s' :
  nonReentrant body s = Ok s' ->
  _entered s = false /\
  exists s1, body (set_entered true s) = Ok s1 /\ s' = set_entered false s1.
Proof.
  unfold nonReentrant. intros H. bind_inv H.
  apply require_Ok in Hchk. bind_inv H. injection H as <-.
  split; [by destruct (_entered s) | eauto].
Qed.


Lemma voter_authorized_written s a :
  Voter.authorized (voter s a) = true -> voters s !! a = Some (voter s a).
Proof. unfold voter. by destruct (voters s !! a). Qed.






End VotingSystemFacts.

Module VotingSystemProps.
Import VotingSystem VotingSystemFacts.



End VotingSystemProps.


(** * Further properties of the contracts *)

(** ** Sums over mappings *)

Module SumFacts.

Lemma mget_insert `{Countable K} (m : gmap K N) (k c : K) (v : N) :
  mget (<[k := v]> m) c = if decide (c = k) then v else mget m c.
Proof.
  unfold mget. case_decide as Hd.
  - subst. by rewrite lookup_insert_eq.
  - by rewrite lookup_insert_ne.
Qed.

Lemma map_sum_empty `{Countable K} {A} (f : A -> N) : map_sum f (∅ : gmap K A) = 0.
Proof. unfold map_sum. apply map_fold_empty. Qed.

Lemma map_sum_insert_None `{Countable K} {A} (f : A -> N) (m : gmap K A) k x :
  m !! k = None -> map_sum f (<[k := x]> m) = f x + map_sum f m.
Proof.
  intros Hk. unfold map_sum.
  rewrite map_fold_insert_L; [done | intros; lia | done].
Qed.

Lemma map_sum_delete `{Countable K} {A} (f : A -> N) (m : gmap K A) k x :
  m !! k = Some x -> map_sum f m = f x + map_sum f (delete k m).
Proof.
  intros Hk. unfold map_sum.
  rewrite (map_fold_delete_L _ _ k x m); [done | intros; lia | done].
Qed.

(** Overwriting the entry of [k] moves the sum by the difference. *)
Lemma map_sum_insert_Some `{Countable K} {A} (f : A -> N) (m : gmap K A) k x y :
  m !! k = Some x -> map_sum f (<[k := y]> m) + f x = map_sum f m + f y.
Proof.
  intros Hk. rewrite <- insert_delete_eq.
  rewrite map_sum_insert_None by apply lookup_delete_eq.
  rewrite (map_sum_delete f m k x Hk). lia.
Qed.

Lemma map_sum_insert_same `{Countable K} {A} (f : A -> N) (m : gmap K A) k x y :
  m !! k = Some x -> f y = f x -> map_sum f (<[k := y]> m) = map_sum f m.
Proof.
  intros Hk Hf. pose proof (map_sum_insert_Some f m k x y Hk). lia.
Qed.

(** Reading a mapping along a duplicate-free array that covers its keys
    adds up to the sum over the mapping. *)
Lemma sum_list_mget (l : list N) (m : gmap N N) :
  NoDup l -> (forall c, is_Some (m !! c) -> c ∈ l) ->
  sum_list (map (mget m) l) = VotingContract.sum_votes m.
Proof.
  intros Hnd. revert m. induction Hnd as [|x l Hx Hnd IH]; intros m Hdom.
  - assert (m = ∅) as ->.
    { apply map_eq. intros c. rewrite lookup_empty.
      destruct (m !! c) eqn:Hc; [| done].
      assert (Hin : c ∈ []) by (apply Hdom; eauto). by apply elem_of_nil in Hin. }
    reflexivity.
  - simpl.
    assert (Hrest : map (mget m) l = map (mget (delete x m)) l).
    { apply map_ext_in. intros y Hy%list_elem_of_In. unfold mget.
      rewrite lookup_delete_ne; [done |]. by intros ->. }
    rewrite Hrest, IH.
    + unfold mget. destruct (m !! x) as [v|] eqn:Hv; simpl.
      * by rewrite (TallyFacts.sum_votes_delete m x v Hv).
      * by rewrite delete_id.
    + intros c [v Hc]. destruct (decide (c = x)) as [->|Hne].
      * by rewrite lookup_delete_eq in Hc.
      * rewrite lookup_delete_ne in Hc by done.
        assert (Hin : c ∈ x :: l) by (apply Hdom; eauto).
        apply elem_of_cons in Hin as [-> | Hin]; done.
Qed.

End SumFacts.

(** ** VotingContract: what each call leaves alone *)

Module CallFacts.
Import VotingContract LedgerFacts LedgerSteps CastVoteFacts.

Lemma candidateInElection_elem (ids : list N) (c : N) :
  candidateInElection ids c = true <-> c ∈ ids.
Proof.
  induction ids as [|i ids IH]; simpl.
  - split; [discriminate | by intros ?%elem_of_nil].
  - rewrite elem_of_cons. destruct (i =? c) eqn:Hi.
    + apply N.eqb_eq in Hi. split; auto.
    + apply N.eqb_neq in Hi. rewrite IH. split; [auto | intros [->|?]; done].
Qed.

Lemma candidate_exists_written s c :
  Candidate.exists_ (candidate s c) = true -> candidates s !! c = Some (candidate s c).
Proof. unfold candidate. by destruct (candidates s !! c). Qed.

(** What a successful [createElection] has checked and written. *)
Lemma createElection_Ok m t d st en ids s s' :
  createElection m t d st en ids s = Ok s' ->
  hasRole s ELECTION_CREATOR_ROLE (sender m) = true /\
  _paused s = false /\ st < en /\ timestamp m < st /\
  s' = mkState (_roles s) (_entered s) (voterRegistrationTime s) (isVoterRegistered s)
         (_paused s) (Counters.increment (_electionIds s)) (_candidateIds s)
         (<[Counters.increment (_electionIds s) :=
              Election.mk (Counters.increment (_electionIds s)) t d st en true 0 ids
                (Election.hasVoted (election s (Counters.increment (_electionIds s))))
                (Election.votes (election s (Counters.increment (_electionIds s))))
                (sender m) (timestamp m)]> (elections s))
         (candidates s) (voterProfiles s).
Proof.
  unfold createElection. intros H. bind_inv H. apply require_Ok in Hchk.
  bind_inv H. apply whenNotPaused_Ok in Hchk0.
  destruct (en <=? st) eqn:Hw; [discriminate |].
  destruct (st <=? timestamp m) eqn:Hpast; [discriminate |].
  injection H as <-. apply N.leb_gt in Hw, Hpast. done.
Qed.

(** What a successful [addCandidate] has checked and written. *)
Lemma addCandidate_Ok m name d s s' :
  addCandidate m name d s = Ok s' ->
  hasRole s ELECTION_CREATOR_ROLE (sender m) = true /\
  _paused s = false /\ name <> "" /\ d <> "" /\
  s' = mkState (_roles s) (_entered s) (voterRegistrationTime s) (isVoterRegistered s)
         (_paused s) (_electionIds s) (Counters.increment (_candidateIds s)) (elections s)
         (<[Counters.increment (_candidateIds s) :=
              Candidate.mk (Counters.increment (_candidateIds s)) name d 0 true
                (sender m) (timestamp m)]> (candidates s))
         (voterProfiles s).
Proof.
  unfold addCandidate. intros H. bind_inv H. apply require_Ok in Hchk.
  bind_inv H. apply whenNotPaused_Ok in Hchk0.
  destruct name as [|a name]; [discriminate |].
  destruct d as [|b d]; [discriminate |].
  simpl in H. injection H as <-. done.
Qed.

(** What a successful [endElection] or [toggleElectionStatus] has
    checked and written. *)
Lemma endElection_Ok m eid s s' :
  endElection m eid s = Ok s' ->
  hasRole s ELECTION_CREATOR_ROLE (sender m) = true /\
  (eid <> 0 /\ eid <= _electionIds s) /\
  Election.isActive (election s eid) = true /\
  s' = set_elections (<[eid := set_isActive false (election s eid)]> (elections s)) s.
Proof.
  unfold endElection. intros H. bind_inv H. apply require_Ok in Hchk.
  bind_inv H. apply electionExists_Ok in Hchk0.
  bind_inv H. apply require_Ok in Hchk1. injection H as <-. done.
Qed.

Lemma toggleElectionStatus_Ok m eid s s' :
  toggleElectionStatus m eid s = Ok s' ->
  hasRole s ELECTION_CREATOR_ROLE (sender m) = true /\
  (eid <> 0 /\ eid <= _electionIds s) /\
  s' = set_elections
         (<[eid := set_isActive (negb (Election.isActive (election s eid))) (election s eid)]>
            (elections s)) s.
Proof.
  unfold toggleElectionStatus. intros H. bind_inv H. apply require_Ok in Hchk.
  bind_inv H. apply electionExists_Ok in Hchk0. injection H as <-. done.
Qed.

(** The calls of VotingAccessControl, of Pausable and of AccessControl
    write neither the ledger nor the candidate counter. *)
Lemma execute_frame m c s s' :
  execute m c s = Ok s' ->
  match c with
  | call_createElection _ _ _ _ _ | call_addCandidate _ _ | call_castVote _ _
  | call_endElection _ | call_toggleElectionStatus _ => True
  | _ => ledger s' = ledger s /\ _candidateIds s' = _candidateIds s
  end.
Proof.
  intros H. destruct c; simpl in H; try done.
  - unfold registerVoter in H. bind_inv H. bind_inv H. by injection H as <-.
  - unfold batchRegisterVoters in H. bind_inv H. bind_inv H. bind_inv H.
    injection H as <-.
    destruct (RegistrationFacts.batch_loop_rest m _voters s) as (_ & ? & ?). done.
  - unfold grantElectionCreatorRole in H. bind_inv H. by injection H as <-.
  - unfold revokeElectionCreatorRole in H. bind_inv H. by injection H as <-.
  - unfold pause in H. bind_inv H. bind_inv H. by injection H as <-.
  - unfold unpause in H. bind_inv H. bind_inv H. by injection H as <-.
  - unfold grantRole in H. bind_inv H. by injection H as <-.
  - unfold revokeRole in H. bind_inv H. by injection H as <-.
  - unfold renounceRole in H. bind_inv H. by injection H as <-.
Qed.

(** Reads of an election after a write to the election table. *)
Lemma election_insert s es eid e id :
  election (set_elections (<[eid := e]> es) s) id
  = if decide (eid = id) then e else default Election.zero (es !! id).
Proof.
  unfold election. simpl. case_decide as Hd.
  - subst. by rewrite lookup_insert_eq.
  - by rewrite lookup_insert_ne.
Qed.

(** Every call but [castVote] keeps the has-voted markers of every
    election and the voter profiles. *)
Lemma execute_markers m c s s' :
  execute m c s = Ok s' ->
  match c with
  | call_castVote _ _ => True
  | _ => (forall id, Election.hasVoted (election s' id) = Election.hasVoted (election s id)) /\
         voterProfiles s' = voterProfiles s
  end.
Proof.
  intros H. pose proof (execute_frame _ _ _ _ H) as Hf.
  assert (Hframe : ledger s' = ledger s ->
            (forall id, Election.hasVoted (election s' id) = Election.hasVoted (election s id)) /\
            voterProfiles s' = voterProfiles s).
  { intros [= _ _ Hel _ Hp]. split; [| done]. intros id. unfold election. by rewrite Hel. }
  destruct c; simpl in H; try done; try (by apply Hframe, Hf).
  - apply createElection_Ok in H as (_ & _ & _ & _ & ->). split; [| done].
    intros id. unfold election at 1. simpl.
    destruct (decide (id = Counters.increment (_electionIds s))) as [->|Hne].
    + by rewrite lookup_insert_eq.
    + by rewrite lookup_insert_ne.
  - apply addCandidate_Ok in H as (_ & _ & _ & _ & ->). done.
  - apply endElection_Ok in H as (_ & _ & _ & ->). split; [| done].
    intros id. rewrite election_insert. by case_decide; subst.
  - apply toggleElectionStatus_Ok in H as (_ & _ & ->). split; [| done].
    intros id. rewrite election_insert. by case_decide; subst.
Qed.

(** Reads of the storage a vote has written. *)
Section RecordVote.
Variables (m : Msg) (eid cid v t c n : uint256) (s : State).

Let s' := set_entered false (recordVote m eid cid v t c n (set_entered true s)).

Lemma recordVote_election id :
  election s' id
  = if decide (id = eid)
    then Election.mk (Election.id (election s eid)) (Election.title (election s eid))
           (Election.description (election s eid)) (Election.startTime (election s eid))
           (Election.endTime (election s eid)) (Election.isActive (election s eid)) t
           (Election.candidateIds (election s eid))
           ({[ sender m ]} ∪ Election.hasVoted (election s eid))
           (<[cid := v]> (Election.votes (election s eid)))
           (Election.creator (election s eid)) (Election.createdAt (election s eid))
    else election s id.
Proof.
  unfold s', election, recordVote. simpl. case_decide as Hd.
  - subst. by rewrite lookup_insert_eq.
  - by rewrite lookup_insert_ne.
Qed.

Lemma recordVote_candidate id :
  candidate s' id
  = if decide (id = cid)
    then Candidate.mk (Candidate.id (candidate s cid)) (Candidate.name (candidate s cid))
           (Candidate.description (candidate s cid)) c (Candidate.exists_ (candidate s cid))
           (Candidate.addedBy (candidate s cid)) (Candidate.addedAt (candidate s cid))
    else candidate s id.
Proof.
  unfold s', candidate, recordVote. simpl. case_decide as Hd.
  - subst. by rewrite lookup_insert_eq.
  - by rewrite lookup_insert_ne.
Qed.

Lemma recordVote_voterProfile a :
  voterProfile s' a
  = if decide (a = sender m)
    then VoterProfile.mk (VoterProfile.voterAddress (voterProfile s (sender m)))
           (VoterProfile.isRegistered (voterProfile s (sender m)))
           (VoterProfile.isEligible (voterProfile s (sender m)))
           (VoterProfile.registrationTime (voterProfile s (sender m))) n
           ({[ eid ]} ∪ VoterProfile.electionsVotedIn (voterProfile s (sender m)))
    else voterProfile s a.
Proof.
  unfold s', voterProfile, recordVote. simpl. case_decide as Hd.
  - subst. by rewrite lookup_insert_eq.
  - by rewrite lookup_insert_ne.
Qed.

End RecordVote.

End CallFacts.

(** ** VotingContract: ballots *)

Module BallotFacts.
Import VotingContract LedgerFacts CastVoteFacts CallFacts.

(** A marker, once set, is never cleared. *)
Lemma execute_hasVoted m c s s' a eid :
  execute m c s = Ok s' ->
  a ∈ Election.hasVoted (election s eid) -> a ∈ Election.hasVoted (election s' eid).
Proof.
  intros H Ha. pose proof (execute_markers _ _ _ _ H) as Hm.
  destruct c; try (destruct Hm as [Hm _]; rewrite Hm; exact Ha).
  simpl in H. apply castVote_Ok in H as (_ & _ & _ & _ & _ & _ & _ & _ & ->).
  rewrite recordVote_election. case_decide as Hd; [| done].
  subst. simpl. set_solver.
Qed.

Lemma run_hasVoted txs s a eid :
  a ∈ Election.hasVoted (election s eid) -> a ∈ Election.hasVoted (election (run txs s) eid).
Proof.
  revert s. induction txs as [|[m c] txs IH]; intros s Ha; simpl; [done |].
  apply IH. unfold transact. destruct (execute m c s) eqn:H; [| done].
  by eapply execute_hasVoted.
Qed.

Lemma castVote_profile_inv m eid cid s s' :
  profile_inv s -> castVote m eid cid s = Ok s' -> profile_inv s'.
Proof.
  intros Hinv H.
  apply castVote_Ok in H as (_ & _ & _ & _ & Hnv & _ & _ & _ & ->).
  intros a. destruct (Hinv a) as [Hcount Hmark].
  rewrite recordVote_voterProfile. split.
  - case_decide as Ha; [| exact Hcount]. subst a. simpl.
    rewrite Hcount, size_union, size_singleton; [lia |].
    intros x Hx%elem_of_singleton. subst x. rewrite Hmark. exact Hnv.
  - intros id. rewrite recordVote_election.
    destruct (decide (a = sender m)) as [->|Ha], (decide (id = eid)) as [->|Hid]; simpl.
    + set_solver.
    + rewrite <- Hmark. set_solver.
    + rewrite Hmark. set_solver.
    + apply Hmark.
Qed.

Lemma execute_profile_inv m c s s' :
  profile_inv s -> execute m c s = Ok s' -> profile_inv s'.
Proof.
  intros Hinv H. pose proof (execute_markers _ _ _ _ H) as Hm.
  destruct c; try (destruct Hm as [Hv Hp]; intros a; unfold voterProfile;
                   rewrite Hp; setoid_rewrite Hv; apply Hinv).
  simpl in H. by eapply castVote_profile_inv.
Qed.

Lemma reachable_profile_inv n s : reachable n s -> profile_inv s.
Proof.
  induction 1 as [m | n s m c Hr IH].
  - intros a. split; [reflexivity |]. intros eid. unfold voterProfile, election. simpl.
    rewrite !lookup_empty. simpl. set_solver.
  - unfold transact. destruct (execute m c s) eqn:H; [| done].
    by eapply execute_profile_inv.
Qed.

End BallotFacts.

Module BallotProps.
Import VotingContract LedgerFacts CastVoteFacts CallFacts BallotFacts.

(** X1. No double voting in VotingContract: once castVote by a voter in
    an election has succeeded, in the state after any further
    transactions the voter is still marked in that election, and every
    castVote of that voter in that election fails; when the modifiers
    before hasNotVoted pass, the failure is VoterAlreadyVoted. *)
Theorem castVote_once (m : Msg) (electionId candidateId : uint256) (s s1 : State) :
  castVote m electionId candidateId s = Ok s1 ->
  forall (txs : list (Msg * Call)) (m' : Msg) (candidateId' : uint256),
    sender m' = sender m ->
    (sender m ∈ Election.hasVoted (election (run txs s1) electionId)) /\
    is_Err (castVote m' electionId candidateId' (run txs s1)) /\
    (onlyVoter m' (run txs s1) = Ok tt ->
     electionExists electionId (run txs s1) = Ok tt ->
     candidateExists candidateId' (run txs s1) = Ok tt ->
     onlyDuringElection m' electionId (run txs s1) = Ok tt ->
     castVote m' electionId candidateId' (run txs s1) = Err (VoterAlreadyVoted (sender m))).
Proof.
  intros Hvote txs m' cid' Hsender.
  assert (H1 : sender m ∈ Election.hasVoted (election s1 electionId)).
  { apply castVote_Ok in Hvote as (_ & _ & _ & _ & _ & _ & _ & _ & ->).
    rewrite recordVote_election, decide_True by done. simpl. set_solver. }
  pose proof (run_hasVoted txs _ _ _ H1) as H2.
  split; [exact H2 |]. split.
  - apply is_Err_not_Ok. intros s' Hok.
    apply castVote_Ok in Hok as (_ & _ & _ & _ & Hnv & _). rewrite Hsender in Hnv. done.
  - intros Hv Hex Hc Hw. unfold castVote. rewrite Hv, Hex, Hc, Hw. simpl.
    unfold hasNotVoted. rewrite Hsender. by rewrite bool_decide_eq_true_2.
Qed.

Lemma castVote_once_witness :
  is_Ok (castVote (mkMsg 7 200) 1 1 Scenario.with_election) /\
  castVote (mkMsg 7 250) 1 2
    (run [(mkMsg 1 210, call_toggleElectionStatus 1);
          (mkMsg 1 220, call_toggleElectionStatus 1)] Scenario.after_vote)
  = Err (VoterAlreadyVoted 7).
Proof.
  assert (Hvote : castVote (mkMsg 7 200) 1 1 Scenario.with_election = Ok Scenario.after_vote)
    by (vm_compute; reflexivity).
  split; [by eexists |].
  destruct (castVote_once _ _ _ _ _ Hvote
              [(mkMsg 1 210, call_toggleElectionStatus 1);
               (mkMsg 1 220, call_toggleElectionStatus 1)] (mkMsg 7 250) 2 eq_refl)
    as (_ & _ & Hagain).
  apply Hagain; vm_compute; reflexivity.
Defined.

(** X2. In every reachable state of VotingContract a voter's profile
    agrees with the elections: totalVotesCast is the number of elections
    recorded in electionsVotedIn, and an election is recorded there
    exactly when the voter is marked in that election's hasVoted. *)
Theorem voterProfile_consistent (n : nat) (s : State) :
  reachable n s ->
  forall (a : address),
    VoterProfile.totalVotesCast (voterProfile s a)
      = N.of_nat (size (VoterProfile.electionsVotedIn (voterProfile s a))) /\
    forall electionId,
      electionId ∈ VoterProfile.electionsVotedIn (voterProfile s a)
      <-> a ∈ Election.hasVoted (election s electionId).
Proof. intros Hr. exact (reachable_profile_inv n s Hr). Qed.

Lemma voterProfile_consistent_witness :
  VoterProfile.totalVotesCast (voterProfile Scenario.after_vote 7) = 1 /\
  (1 ∈ VoterProfile.electionsVotedIn (voterProfile Scenario.after_vote 7)).
Proof.
  assert (Hr : reachable 5 Scenario.after_vote) by (repeat constructor).
  destruct (voterProfile_consistent 5 Scenario.after_vote Hr 7) as [Hcount Hmark].
  split; [vm_compute; reflexivity |].
  apply Hmark. vm_compute. reflexivity.
Defined.

End BallotProps.

(** ** VotingContract: the candidate catalog *)

Module CatalogFacts.
Import VotingContract LedgerFacts LedgerSteps CastVoteFacts CallFacts SumFacts.

Lemma catalog_inv_frame n n' s s' :
  elections s' = elections s -> candidates s' = candidates s ->
  _candidateIds s' = _candidateIds s -> (n <= n')%nat ->
  catalog_inv n s -> catalog_inv n' s'.
Proof.
  intros Hel Hc Hi Hn [].
  split; unfold candidate, candidateTally in *; rewrite ?Hel, ?Hc, ?Hi; eauto.
  lia.
Qed.

Lemma constructor_catalog m : catalog_inv 0 (constructor m).
Proof.
  split; simpl; try done; intros; lia.
Qed.

(** Flipping [isActive] of a written election moves no tally. *)
Lemma set_isActive_catalog n s eid b :
  catalog_inv n s -> is_Some (elections s !! eid) ->
  catalog_inv (S n)
    (set_elections (<[eid := set_isActive b (election s eid)]> (elections s)) s).
Proof.
  intros Hinv [e He]. unfold election. rewrite He. simpl.
  destruct Hinv. split; simpl; eauto.
  - lia.
  - intros c. unfold candidateTally. simpl.
    rewrite (map_sum_insert_same _ _ _ e) by done. apply cat_tally0.
  - intros id e'. destruct (decide (id = eid)) as [->|Hne].
    + rewrite lookup_insert_eq. intros [= <-]. simpl. eauto.
    + rewrite lookup_insert_ne by done. eauto.
  - intros id e' c. destruct (decide (id = eid)) as [->|Hne].
    + rewrite lookup_insert_eq. intros [= <-]. simpl. eauto.
    + rewrite lookup_insert_ne by done. eauto.
Qed.

Lemma createElection_catalog n m t d st en ids s s' :
  ledger_inv n s -> catalog_inv n s -> N.of_nat (S n) <= MAX_UINT256 ->
  createElection m t d st en ids s = Ok s' -> catalog_inv (S n) s'.
Proof.
  intros Hl Hinv Hn H. apply createElection_Ok in H as (_ & _ & _ & _ & ->).
  pose proof (inv_ids _ _ Hl) as Hids.
  rewrite !increment_small by lia.
  assert (Hnew : elections s !! (_electionIds s + 1) = None)
    by (apply (inv_fresh _ _ Hl); lia).
  unfold election. rewrite Hnew. simpl.
  destruct Hinv. split; simpl; eauto.
  - lia.
  - intros c. unfold candidateTally. simpl.
    rewrite map_sum_insert_None by done. simpl. apply cat_tally0.
  - intros id e. destruct (decide (id = _electionIds s + 1)) as [->|Hne].
    + rewrite lookup_insert_eq. by intros [= <-].
    + rewrite lookup_insert_ne by done. eauto.
  - intros id e c. destruct (decide (id = _electionIds s + 1)) as [->|Hne].
    + rewrite lookup_insert_eq. intros [= <-]. simpl. rewrite lookup_empty.
      by intros [? ?].
    + rewrite lookup_insert_ne by done. eauto.
Qed.

Lemma addCandidate_catalog n m name d s s' :
  catalog_inv n s -> N.of_nat (S n) <= MAX_UINT256 ->
  addCandidate m name d s = Ok s' -> catalog_inv (S n) s'.
Proof.
  intros Hinv Hn H. apply addCandidate_Ok in H as (_ & _ & _ & _ & ->).
  pose proof (cat_ids _ _ Hinv) as Hids.
  rewrite !increment_small by lia.
  assert (Hnew : candidates s !! (_candidateIds s + 1) = None)
    by (apply (cat_fresh _ _ Hinv); lia).
  destruct Hinv. split; simpl; eauto.
  - lia.
  - intros c Hc. rewrite lookup_insert_ne by lia. apply cat_fresh0. lia.
  - intros c H0 Hle. destruct (decide (c = _candidateIds s + 1)) as [->|Hne].
    + rewrite lookup_insert_eq. eauto.
    + rewrite lookup_insert_ne by done. apply cat_dense0; [done | lia].
  - intros c x. destruct (decide (c = _candidateIds s + 1)) as [->|Hne].
    + rewrite lookup_insert_eq. by intros [= <-].
    + rewrite lookup_insert_ne by done. eauto.
  - intros c. unfold candidate, candidateTally. simpl.
    destruct (decide (c = _candidateIds s + 1)) as [->|Hne].
    + rewrite lookup_insert_eq. simpl.
      specialize (cat_tally0 (_candidateIds s + 1)).
      unfold candidate, candidateTally in cat_tally0. rewrite Hnew in cat_tally0.
      exact cat_tally0.
    + rewrite lookup_insert_ne by done. apply cat_tally0.
Qed.

Lemma castVote_catalog n m eid cid s s' :
  catalog_inv n s -> castVote m eid cid s = Ok s' -> catalog_inv (S n) s'.
Proof.
  intros Hinv H. apply castVote_Ok in H
    as (_ & _ & Hcand & [Hact _] & _ & _ & _ & Hin & ->).
  pose proof (election_active_written _ _ Hact) as He.
  pose proof (candidate_exists_written _ _ Hcand) as Hc.
  destruct (cat_written _ _ Hinv _ _ Hc) as [Hcid Hcex].
  pose proof (cat_election_id _ _ Hinv _ _ He) as Heid.
  destruct Hinv. split.
  - simpl. lia.
  - intros c Hfresh. simpl. rewrite lookup_insert_ne; [by apply cat_fresh0 |].
    intros ->. rewrite (cat_fresh0 _ Hfresh) in Hc. discriminate.
  - intros c H0 Hle. simpl. destruct (decide (c = cid)) as [->|Hne].
    + rewrite lookup_insert_eq. eauto.
    + rewrite lookup_insert_ne by done. by apply cat_dense0.
  - intros c x. simpl. destruct (decide (c = cid)) as [->|Hne].
    + rewrite lookup_insert_eq. by intros [= <-].
    + rewrite lookup_insert_ne by done. eauto.
  - intros c. rewrite recordVote_candidate. unfold candidateTally. simpl.
    change (election (set_entered true s) eid) with (election s eid).
    pose proof (map_sum_insert_Some (fun e => mget (Election.votes e) c) (elections s) eid
                  (election s eid)
                  (Election.mk (Election.id (election s eid)) (Election.title (election s eid))
                     (Election.description (election s eid))
                     (Election.startTime (election s eid))
                     (Election.endTime (election s eid))
                     (Election.isActive (election s eid))
                     (Election.totalVotes (election s eid) + 1)
                     (Election.candidateIds (election s eid))
                     ({[ sender m ]} ∪ Election.hasVoted (election s eid))
                     (<[cid := mget (Election.votes (election s eid)) cid + 1]>
                        (Election.votes (election s eid)))
                     (Election.creator (election s eid))
                     (Election.createdAt (election s eid))) He) as Hsum.
    simpl in Hsum. specialize (cat_tally0 c). unfold candidateTally in cat_tally0.
    rewrite mget_insert in Hsum. case_decide as Hd.
    + subst c. simpl. lia.
    + lia.
  - intros id e. simpl. destruct (decide (id = eid)) as [->|Hne].
    + rewrite lookup_insert_eq. by intros [= <-].
    + rewrite lookup_insert_ne by done. eauto.
  - intros id e c. simpl. destruct (decide (id = eid)) as [->|Hne].
    + rewrite lookup_insert_eq. intros [= <-]. simpl.
      change (election (set_entered true s) eid) with (election s eid).
      destruct (decide (c = cid)) as [->|Hc'].
      * intros _. exact Hin.
      * rewrite lookup_insert_ne by done. by apply (cat_roster0 eid).
    + rewrite lookup_insert_ne by done. eauto.
Qed.

Lemma execute_catalog n m c s s' :
  ledger_inv n s -> catalog_inv n s -> N.of_nat (S n) <= MAX_UINT256 ->
  execute m c s = Ok s' -> catalog_inv (S n) s'.
Proof.
  intros Hl Hinv Hn H. pose proof (execute_frame _ _ _ _ H) as Hf.
  destruct c; simpl in H;
    try (destruct Hf as [[= _ _ Hel Hc _] Hi];
         by apply (catalog_inv_frame n (S n) s); [| | | lia |]).
  - by eapply createElection_catalog.
  - by eapply addCandidate_catalog.
  - by eapply castVote_catalog.
  - apply endElection_Ok in H as (_ & [H0 Hle] & _ & ->).
    apply set_isActive_catalog; [done |]. by apply (inv_written _ _ Hl).
  - apply toggleElectionStatus_Ok in H as (_ & [H0 Hle] & ->).
    apply set_isActive_catalog; [done |]. by apply (inv_written _ _ Hl).
Qed.

Lemma reachable_catalog n s :
  reachable n s -> N.of_nat n <= MAX_UINT256 -> ledger_inv n s /\ catalog_inv n s.
Proof.
  induction 1 as [m | n s m c Hr IH]; intros Hn.
  - split; [apply constructor_inv | apply constructor_catalog].
  - destruct IH as [Hl Hc]; [lia |].
    split; [by apply transact_inv |].
    unfold transact. destruct (execute m c s) eqn:H.
    + by eapply execute_catalog.
    + by apply (catalog_inv_frame n (S n) s); [| | | lia |].
Qed.

End CatalogFacts.

Module CatalogProps.
Import VotingContract LedgerFacts LedgerSteps CastVoteFacts CallFacts SumFacts CatalogFacts.

(** X3. In every state of VotingContract reached in fewer than 2^256
    transactions, a candidate's global voteCount is the number of votes
    cast for that candidate summed over all elections. *)
Theorem voteCount_is_tally (n : nat) (s : State) :
  reachable n s -> N.of_nat n <= MAX_UINT256 ->
  forall candidateId,
    Candidate.voteCount (candidate s candidateId) = candidateTally s candidateId.
Proof.
  intros Hr Hn c. destruct (reachable_catalog n s Hr Hn) as [_ Hc].
  apply (cat_tally _ _ Hc).
Qed.

Lemma voteCount_is_tally_witness :
  Candidate.voteCount (candidate Scenario.after_vote 1) = 1 /\
  candidateTally Scenario.after_vote 1 = 1.
Proof.
  assert (Hr : reachable 5 Scenario.after_vote) by (repeat constructor).
  assert (Hn : N.of_nat 5 <= MAX_UINT256) by (unfold MAX_UINT256; lia).
  pose proof (voteCount_is_tally 5 Scenario.after_vote Hr Hn 1) as Ht.
  assert (Hv : Candidate.voteCount (candidate Scenario.after_vote 1) = 1)
    by (vm_compute; reflexivity).
  split; [exact Hv |]. rewrite <- Ht. exact Hv.
Defined.

(** X4. Ids are dense from 1. In every state of VotingContract reached in
    fewer than 2^256 transactions, getElection(id) succeeds exactly for
    1 <= id <= getTotalElections and getCandidate(id) exactly for
    1 <= id <= getTotalCandidates, and the record returned carries that
    id; outside the range they fail with ElectionNotFound and
    CandidateNotFound, the slot never having been written. *)
Theorem ids_dense (n : nat) (s : State) :
  reachable n s -> N.of_nat n <= MAX_UINT256 ->
  forall id,
    (id <> 0 /\ id <= getTotalElections s ->
       exists e, getElection s id = Ok e /\ Election.id e = id /\
                 elections s !! id = Some e) /\
    (id = 0 \/ getTotalElections s < id ->
       getElection s id = Err (ElectionNotFound id) /\ elections s !! id = None) /\
    (id <> 0 /\ id <= getTotalCandidates s ->
       exists x, getCandidate s id = Ok x /\ Candidate.id x = id /\
                 candidates s !! id = Some x) /\
    (id = 0 \/ getTotalCandidates s < id ->
       getCandidate s id = Err (CandidateNotFound id) /\ candidates s !! id = None).
Proof.
  intros Hr Hn id. destruct (reachable_catalog n s Hr Hn) as [Hl Hc].
  unfold getTotalElections, getTotalCandidates, Counters.current.
  split; [| split; [| split]].
  - intros [H0 Hle]. destruct (inv_written _ _ Hl id H0 Hle) as [e He].
    exists e. unfold getElection. rewrite electionExists_intro by done. simpl.
    unfold election. rewrite He. simpl.
    split; [done |]. split; [| done]. by apply (cat_election_id _ _ Hc).
  - intros Hout. split; [| by apply (inv_fresh _ _ Hl)].
    unfold getElection, electionExists, Counters.current.
    destruct Hout as [-> | Hlt]; [done |].
    apply N.ltb_lt in Hlt as ->. by rewrite orb_true_r.
  - intros [H0 Hle]. destruct (cat_dense _ _ Hc id H0 Hle) as [x Hx].
    destruct (cat_written _ _ Hc _ _ Hx) as [Hid Hex].
    exists x. unfold getCandidate, candidateExists, candidate. rewrite Hx. simpl.
    by rewrite Hex.
  - intros Hout. pose proof (cat_fresh _ _ Hc id Hout) as Hnone.
    split; [| done]. unfold getCandidate, candidateExists, candidate. by rewrite Hnone.
Qed.

Lemma ids_dense_witness :
  (exists x, getCandidate Scenario.after_vote 2 = Ok x /\ Candidate.id x = 2) /\
  getCandidate Scenario.after_vote 3 = Err (CandidateNotFound 3) /\
  getElection Scenario.after_vote 2 = Err (ElectionNotFound 2).
Proof.
  assert (Hr : reachable 5 Scenario.after_vote) by (repeat constructor).
  assert (Hn : N.of_nat 5 <= MAX_UINT256) by (unfold MAX_UINT256; lia).
  destruct (ids_dense 5 Scenario.after_vote Hr Hn 2) as (_ & He2 & Hc2 & _).
  destruct (ids_dense 5 Scenario.after_vote Hr Hn 3) as (_ & _ & _ & Hc3).
  split; [| split].
  - destruct Hc2 as (x & Hx & Hid & _); [split; [discriminate | vm_compute; discriminate] |].
    by exists x.
  - apply Hc3. right. vm_compute. reflexivity.
  - apply He2. right. vm_compute. reflexivity.
Defined.

(** X5. getElectionResults returns the roster and, in parallel, one
    count per roster entry. In a state reached in fewer than 2^256
    transactions no count exceeds the election's totalVotes, and when the
    roster has no duplicate id the counts add up to totalVotes. *)
Theorem getElectionResults_total (n : nat) (s : State) (electionId : uint256) :
  reachable n s -> N.of_nat n <= MAX_UINT256 ->
  electionId <> 0 -> electionId <= getTotalElections s ->
  exists voteCounts,
    getElectionResults s electionId
      = Ok (Election.candidateIds (election s electionId), voteCounts) /\
    length voteCounts = length (Election.candidateIds (election s electionId)) /\
    Forall (fun count => count <= Election.totalVotes (election s electionId)) voteCounts /\
    (NoDup (Election.candidateIds (election s electionId)) ->
       sum_list voteCounts = Election.totalVotes (election s electionId)).
Proof.
  intros Hr Hn H0 Hle. destruct (reachable_catalog n s Hr Hn) as [Hl Hc].
  destruct (inv_written _ _ Hl electionId H0 Hle) as [e He].
  destruct (inv_tally _ _ Hl _ _ He) as [Hsum _].
  eexists. unfold getElectionResults. rewrite electionExists_intro by done. simpl.
  unfold election. rewrite He. simpl.
  split; [reflexivity |]. split; [by rewrite length_map |]. split.
  - apply Forall_forall. intros x Hx. apply list_elem_of_In, in_map_iff in Hx as (c & <- & _).
    rewrite Hsum. apply TallyFacts.mget_le_sum_votes.
  - intros Hnd. rewrite Hsum. apply sum_list_mget; [done |].
    intros c Hsome. apply candidateInElection_elem. by apply (cat_roster _ _ Hc electionId).
Qed.

Lemma getElectionResults_total_witness :
  getElectionResults Scenario.after_vote 1 = Ok ([1; 2], [1; 0]) /\
  sum_list [1; 0] = Election.totalVotes (election Scenario.after_vote 1).
Proof.
  assert (Hr : reachable 5 Scenario.after_vote) by (repeat constructor).
  assert (Hn : N.of_nat 5 <= MAX_UINT256) by (unfold MAX_UINT256; lia).
  destruct (getElectionResults_total 5 Scenario.after_vote 1 Hr Hn)
    as (counts & Hres & _ & _ & Hsum); [discriminate | vm_compute; discriminate |].
  assert (Hrun : getElectionResults Scenario.after_vote 1 = Ok ([1; 2], [1; 0]))
    by (vm_compute; reflexivity).
  split; [exact Hrun |].
  rewrite Hrun in Hres. injection Hres as <-.
  apply Hsum. apply (bool_decide_unpack _). vm_compute. exact I.
Defined.

End CatalogProps.

(** ** VotingContract: creating and closing *)

Module LifecycleProps.
Import VotingContract LedgerFacts LedgerSteps CastVoteFacts CallFacts CatalogFacts.

(** X6. addCandidate by an ElectionCreator of an unpaused contract fails
    with InvalidCandidateData when the name or the description is empty,
    leaving the storage (the counter included) as it was; otherwise it
    advances the candidate counter by one and getCandidate of the new
    total returns the candidate as given, with voteCount 0, the caller
    and the block time; every other candidate and all elections are
    untouched. *)
Theorem addCandidate_getCandidate (m : Msg) (name description : string) (s : State) :
  hasRole s ELECTION_CREATOR_ROLE (sender m) = true ->
  _paused s = false ->
  (name = "" \/ description = "" ->
     addCandidate m name description s = Err (InvalidCandidateData name description) /\
     transact m (call_addCandidate name description) s = s) /\
  (name <> "" -> description <> "" ->
     exists s',
       addCandidate m name description s = Ok s' /\
       getTotalCandidates s' = Counters.increment (getTotalCandidates s) /\
       getCandidate s' (getTotalCandidates s')
         = Ok (Candidate.mk (getTotalCandidates s') name description 0 true
                 (sender m) (timestamp m)) /\
       (forall c, c <> getTotalCandidates s' -> candidate s' c = candidate s c) /\
       elections s' = elections s).
Proof.
  intros Hrole Hp. split.
  - intros Hempty.
    assert (Hfail : addCandidate m name description s
                    = Err (InvalidCandidateData name description)).
    { unfold addCandidate, onlyElectionCreator, whenNotPaused. rewrite Hrole, Hp. simpl.
      destruct Hempty as [-> | ->]; [done |]. simpl. by rewrite orb_true_r. }
    split; [done |]. unfold transact. simpl. by rewrite Hfail.
  - intros Hname Hdesc.
    assert (Hrun : addCandidate m name description s
      = Ok (mkState (_roles s) (_entered s) (voterRegistrationTime s) (isVoterRegistered s)
              (_paused s) (_electionIds s) (Counters.increment (_candidateIds s))
              (elections s)
              (<[Counters.increment (_candidateIds s) :=
                   Candidate.mk (Counters.increment (_candidateIds s)) name description 0 true
                     (sender m) (timestamp m)]> (candidates s))
              (voterProfiles s))).
    { unfold addCandidate, onlyElectionCreator, whenNotPaused. rewrite Hrole, Hp. simpl.
      destruct name; [done |]. destruct description; [done |]. reflexivity. }
    eexists. split; [exact Hrun |]. split; [reflexivity |].
    unfold getTotalCandidates, Counters.current. simpl. split; [| split; [| done]].
    + unfold getCandidate, candidateExists, candidate. simpl.
      rewrite lookup_insert_eq. reflexivity.
    + intros c Hc. unfold candidate. simpl. by rewrite lookup_insert_ne.
Qed.

Lemma addCandidate_getCandidate_witness :
  addCandidate (mkMsg 1 160) "" "Nobody" Scenario.with_election
    = Err (InvalidCandidateData "" "Nobody") /\
  exists s',
    addCandidate (mkMsg 1 160) "Carol" "Third candidate" Scenario.with_election = Ok s' /\
    getCandidate s' 3 = Ok (Candidate.mk 3 "Carol" "Third candidate" 0 true 1 160).
Proof.
  destruct (addCandidate_getCandidate (mkMsg 1 160) "" "Nobody" Scenario.with_election)
    as [Hempty _]; try (vm_compute; reflexivity).
  destruct (addCandidate_getCandidate (mkMsg 1 160) "Carol" "Third candidate"
              Scenario.with_election) as [_ Hadd]; try (vm_compute; reflexivity).
  split; [apply Hempty; by left |].
  destruct Hadd as (s' & Hrun & Htot & Hget & _); [discriminate | discriminate |].
  exists s'. split; [exact Hrun |].
  assert (H3 : getTotalCandidates s' = 3) by (rewrite Htot; vm_compute; reflexivity).
  rewrite H3 in Hget. exact Hget.
Defined.

(** X7. Round trip of createElection. In a state reached in fewer than
    2^256 - 1 transactions, a createElection that passes its checks
    advances the election counter by one, and getElection of the new
    total returns exactly what was supplied: title, description, window
    and roster, active, totalVotes 0, no ballot and no vote recorded, the
    caller as creator and the block time; getElectionResults returns the
    roster with all counts 0, and every other election is untouched. *)
Theorem createElection_getElection (n : nat) (s : State) (m : Msg)
    (title description : string) (startTime endTime : uint256) (ids : list uint256) :
  reachable n s -> N.of_nat n < MAX_UINT256 ->
  hasRole s ELECTION_CREATOR_ROLE (sender m) = true ->
  _paused s = false ->
  startTime < endTime ->
  timestamp m < startTime ->
  exists s',
    createElection m title description startTime endTime ids s = Ok s' /\
    getTotalElections s' = getTotalElections s + 1 /\
    getElection s' (getTotalElections s')
      = Ok (Election.mk (getTotalElections s') title description startTime endTime true 0
              ids ∅ ∅ (sender m) (timestamp m)) /\
    getElectionResults s' (getTotalElections s') = Ok (ids, map (fun _ => 0) ids) /\
    (forall id, id <> getTotalElections s' -> election s' id = election s id) /\
    candidates s' = candidates s.
Proof.
  intros Hr Hn Hrole Hp Hw Hfut.
  assert (Hl : ledger_inv n s) by (apply reachable_inv; [done | lia]).
  pose proof (inv_ids _ _ Hl) as Hids.
  assert (Hnew : elections s !! (_electionIds s + 1) = None)
    by (apply (inv_fresh _ _ Hl); lia).
  assert (Hrun : createElection m title description startTime endTime ids s
    = Ok (mkState (_roles s) (_entered s) (voterRegistrationTime s) (isVoterRegistered s)
            (_paused s) (_electionIds s + 1) (_candidateIds s)
            (<[_electionIds s + 1 :=
                 Election.mk (_electionIds s + 1) title description startTime endTime true 0
                   ids ∅ ∅ (sender m) (timestamp m)]> (elections s))
            (candidates s) (voterProfiles s))).
  { unfold createElection, onlyElectionCreator, whenNotPaused.
    rewrite Hrole, Hp. simpl.
    assert (H1 : (endTime <=? startTime) = false) by (apply N.leb_gt; lia).
    assert (H2 : (startTime <=? timestamp m) = false) by (apply N.leb_gt; lia).
    rewrite H1, H2. unfold Counters.current. rewrite !increment_small by lia.
    rewrite Hnew. reflexivity. }
  eexists. split; [exact Hrun |].
  unfold getTotalElections, Counters.current. simpl.
  split; [done |]. split; [| split; [| split; [| done]]].
  - unfold getElection. rewrite electionExists_intro by (simpl; lia). simpl.
    unfold election. simpl. by rewrite lookup_insert_eq.
  - unfold getElectionResults. rewrite electionExists_intro by (simpl; lia). simpl.
    unfold election. simpl. rewrite lookup_insert_eq. reflexivity.
  - intros id Hid. unfold election. simpl. by rewrite lookup_insert_ne.
Qed.

Lemma createElection_getElection_witness :
  exists s',
    createElection (mkMsg 1 160) "E2" "By-election" 400 500 [2; 1] Scenario.after_vote
      = Ok s' /\
    getElection s' 2
      = Ok (Election.mk 2 "E2" "By-election" 400 500 true 0 [2; 1] ∅ ∅ 1 160) /\
    getElectionResults s' 2 = Ok ([2; 1], [0; 0]).
Proof.
  assert (Hr : reachable 5 Scenario.after_vote) by (repeat constructor).
  assert (Hn : N.of_nat 5 < MAX_UINT256) by (unfold MAX_UINT256; lia).
  destruct (createElection_getElection 5 Scenario.after_vote (mkMsg 1 160)
              "E2" "By-election" 400 500 [2; 1] Hr Hn)
    as (s' & Hrun & Htot & Hget & Hres & _); try (vm_compute; reflexivity).
  exists s'. split; [exact Hrun |].
  assert (H2 : getTotalElections s' = 2) by (rewrite Htot; vm_compute; reflexivity).
  rewrite H2 in Hget, Hres. split; [exact Hget | exact Hres].
Defined.

End LifecycleProps.

Module StatusFacts.
Import VotingContract LedgerFacts CallFacts.

(** Flipping the flag of a written election and flipping it back gives
    the storage one started from. *)
Lemma toggle_back s eid e :
  elections s !! eid = Some e ->
  set_elections
    (<[eid := set_isActive (negb (negb (Election.isActive e)))
                (set_isActive (negb (Election.isActive e)) e)]>
       (<[eid := set_isActive (negb (Election.isActive e)) e]> (elections s)))
    (set_elections (<[eid := set_isActive (negb (Election.isActive e)) e]> (elections s)) s)
  = s.
Proof.
  intros He. unfold set_elections. destruct s; simpl in *. f_equal.
  rewrite insert_insert_eq. apply insert_id. rewrite He. f_equal.
  destruct e; simpl. by rewrite negb_involutive.
Qed.

End StatusFacts.

Module StatusProps.
Import VotingContract LedgerFacts LedgerSteps CastVoteFacts CallFacts StatusFacts.

(** X8. endElection is one-way. After a successful endElection the
    election is inactive and nothing else of it (tally, roster, window,
    ballots) or of any other election has changed; a further endElection
    on it fails, for an ElectionCreator with "Election already ended";
    and every castVote in it fails, with ElectionNotActive once the role
    and existence checks pass. *)
Theorem endElection_closes (m : Msg) (electionId : uint256) (s s1 : State) :
  endElection m electionId s = Ok s1 ->
  election s1 electionId = set_isActive false (election s electionId) /\
  (forall id, id <> electionId -> election s1 id = election s id) /\
  (forall m', is_Err (endElection m' electionId s1)) /\
  (forall m', hasRole s1 ELECTION_CREATOR_ROLE (sender m') = true ->
     endElection m' electionId s1 = Err (Revert "VotingContract: Election already ended")) /\
  (forall m' candidateId, is_Err (castVote m' electionId candidateId s1)) /\
  (forall m' candidateId,
     hasRole s1 VOTER_ROLE (sender m') = true ->
     Candidate.exists_ (candidate s1 candidateId) = true ->
     castVote m' electionId candidateId s1 = Err (ElectionNotActive electionId)).
Proof.
  intros H. apply endElection_Ok in H as (_ & [H0 Hle] & _ & ->).
  assert (Hoff : Election.isActive
            (election (set_elections
               (<[electionId := set_isActive false (election s electionId)]> (elections s)) s)
               electionId) = false)
    by (rewrite election_insert, decide_True by done; reflexivity).
  split; [by rewrite election_insert, decide_True |].
  split; [intros id Hid; by rewrite election_insert, decide_False |].
  split; [| split; [| split]].
  - intros m'. apply is_Err_not_Ok. intros s' Hok.
    apply endElection_Ok in Hok as (_ & _ & Hact & _). congruence.
  - intros m' Hrole. unfold endElection, onlyElectionCreator. rewrite Hrole. simpl.
    rewrite electionExists_intro by done. simpl. by rewrite Hoff.
  - intros m' cid. apply is_Err_not_Ok. intros s' Hok.
    apply castVote_Ok in Hok as (_ & _ & _ & [Hact _] & _). congruence.
  - intros m' cid Hrole Hcand. unfold castVote, onlyVoter. rewrite Hrole. simpl.
    rewrite electionExists_intro by done. simpl.
    unfold candidateExists. rewrite Hcand. simpl.
    unfold onlyDuringElection. by rewrite Hoff.
Qed.

Lemma endElection_closes_witness :
  exists s1,
    endElection (mkMsg 1 190) 1 Scenario.with_election = Ok s1 /\
    endElection (mkMsg 1 195) 1 s1 = Err (Revert "VotingContract: Election already ended") /\
    castVote (mkMsg 7 200) 1 1 s1 = Err (ElectionNotActive 1).
Proof.
  assert (Hend : endElection (mkMsg 1 190) 1 Scenario.with_election
                 = Ok (transact (mkMsg 1 190) (call_endElection 1) Scenario.with_election))
    by (vm_compute; reflexivity).
  destruct (endElection_closes _ _ _ _ Hend) as (_ & _ & _ & Hagain & _ & Hvote).
  eexists. split; [exact Hend |]. split.
  - apply Hagain. vm_compute. reflexivity.
  - apply Hvote; vm_compute; reflexivity.
Defined.

(** X9. toggleElectionStatus undoes itself and undoes endElection. In a
    state reached in fewer than 2^256 transactions, a toggle followed by
    a toggle of the same election (by any ElectionCreator) gives back
    exactly the storage before the first, and so does endElection
    followed by a toggle: an ended election is open again. *)
Theorem toggleElectionStatus_undoes (n : nat) (s s1 : State) (m m' : Msg)
    (electionId : uint256) :
  reachable n s -> N.of_nat n <= MAX_UINT256 ->
  toggleElectionStatus m electionId s = Ok s1 \/ endElection m electionId s = Ok s1 ->
  hasRole s ELECTION_CREATOR_ROLE (sender m') = true ->
  toggleElectionStatus m' electionId s1 = Ok s.
Proof.
  intros Hr Hn Hfirst Hrole.
  assert (Hl : ledger_inv n s) by (by apply reachable_inv).
  assert (Hs1 : (electionId <> 0 /\ electionId <= _electionIds s) /\
            s1 = set_elections
                   (<[electionId := set_isActive (negb (Election.isActive (election s electionId)))
                                      (election s electionId)]> (elections s)) s).
  { destruct Hfirst as [H | H].
    - by apply toggleElectionStatus_Ok in H as (_ & ? & ?).
    - apply endElection_Ok in H as (_ & ? & Hact & ->). by rewrite Hact. }
  destruct Hs1 as [[H0 Hle] ->].
  destruct (inv_written _ _ Hl electionId H0 Hle) as [e He].
  unfold toggleElectionStatus, onlyElectionCreator.
  change (hasRole (set_elections ?es s)) with (hasRole s). rewrite Hrole. simpl.
  rewrite electionExists_intro by done. simpl. f_equal.
  rewrite election_insert, decide_True by done.
  unfold election. rewrite He. simpl.
  apply (toggle_back s electionId e He).
Qed.

Lemma toggleElectionStatus_undoes_witness :
  toggleElectionStatus (mkMsg 1 196) 1
    (transact (mkMsg 1 190) (call_endElection 1) Scenario.after_vote)
  = Ok Scenario.after_vote.
Proof.
  assert (Hr : reachable 5 Scenario.after_vote) by (repeat constructor).
  assert (Hn : N.of_nat 5 <= MAX_UINT256) by (unfold MAX_UINT256; lia).
  apply (toggleElectionStatus_undoes 5 _ _ (mkMsg 1 190) (mkMsg 1 196) 1 Hr Hn).
  - right. vm_compute. reflexivity.
  - vm_compute. reflexivity.
Defined.

(** X10. pause and unpause are Administrator-only and alternate: on an
    unpaused contract pause sets the flag and nothing else, unpause then
    gives back exactly the storage before the pause; a second pause and
    an unpause of an unpaused contract fail, as does either call by an
    account without the Administrator role. *)
Theorem pause_unpause (m m' : Msg) (s : State) :
  hasRole s ADMIN_ROLE (sender m) = true ->
  hasRole s ADMIN_ROLE (sender m') = true ->
  _paused s = false ->
  pause m s = Ok (set_paused true s) /\
  unpause m' (set_paused true s) = Ok s /\
  pause m' (set_paused true s) = Err (Revert "Pausable: paused") /\
  unpause m' s = Err (Revert "Pausable: not paused") /\
  (forall m0, hasRole s ADMIN_ROLE (sender m0) = false ->
     pause m0 s = Err (Revert "AccessControl: Must have admin role") /\
     unpause m0 (set_paused true s) = Err (Revert "AccessControl: Must have admin role")).
Proof.
  intros Hrole Hrole' Hp.
  unfold pause, unpause, onlyAdmin, whenNotPaused, whenPaused.
  change (hasRole (set_paused true s)) with (hasRole s).
  rewrite Hrole, Hrole', Hp. simpl.
  split; [done |]. split; [| split; [done | split; [done |]]].
  - f_equal. destruct s; simpl in *. by rewrite Hp.
  - intros m0 ->. done.
Qed.

Lemma pause_unpause_witness :
  pause (mkMsg 1 150) Scenario.with_election = Ok Scenario.paused /\
  unpause (mkMsg 1 155) Scenario.paused = Ok Scenario.with_election.
Proof.
  destruct (pause_unpause (mkMsg 1 150) (mkMsg 1 155) Scenario.with_election)
    as (Hpause & Hunpause & _); try (vm_compute; reflexivity).
  assert (Hs : set_paused true Scenario.with_election = Scenario.paused)
    by (vm_compute; reflexivity).
  rewrite Hs in Hpause, Hunpause. split; [exact Hpause | exact Hunpause].
Defined.

End StatusProps.

(** ** VotingAccessControl: a revoked voter *)

Module RevocationProps.
Import VotingContract AccessControlFacts LedgerFacts CastVoteFacts CallFacts RegistrationFacts.

(** The calls of the ledger and of Pausable write no role. *)
Lemma execute_roles_frame m c s s' :
  execute m c s = Ok s' ->
  match c with
  | call_createElection _ _ _ _ _ | call_addCandidate _ _ | call_castVote _ _
  | call_endElection _ | call_toggleElectionStatus _ | call_pause | call_unpause =>
      _roles s' = _roles s
  | _ => True
  end.
Proof.
  intros H. destruct c; simpl in H; try done.
  - by apply createElection_Ok in H as (_ & _ & _ & _ & ->).
  - by apply addCandidate_Ok in H as (_ & _ & _ & _ & ->).
  - by apply castVote_Ok in H as (_ & _ & _ & _ & _ & _ & _ & _ & ->).
  - by apply endElection_Ok in H as (_ & _ & _ & ->).
  - by apply toggleElectionStatus_Ok in H as (_ & _ & ->).
  - unfold pause in H. bind_inv H. bind_inv H. by injection H as <-.
  - unfold unpause in H. bind_inv H. bind_inv H. by injection H as <-.
Qed.

Lemma execute_revoked m c s s' p :
  p ∈ isVoterRegistered s -> hasRole s VOTER_ROLE p = false ->
  c <> call_grantRole VOTER_ROLE p ->
  execute m c s = Ok s' -> hasRole s' VOTER_ROLE p = false.
Proof.
  intros Hreg Hrole Hc H. pose proof (execute_roles_frame _ _ _ _ H) as Hf.
  destruct c; simpl in H; try (unfold hasRole in *; by rewrite Hf).
  - unfold registerVoter in H. bind_inv H. bind_inv H. injection H as <-.
    apply require_Ok, negb_true_iff, bool_decide_eq_false in Hchk0.
    unfold hasRole in *. simpl. rewrite hasRole_grant, Hrole.
    rewrite bool_decide_eq_false_2; [done |]. intros [= ->]. done.
  - unfold batchRegisterVoters in H. bind_inv H. bind_inv H. bind_inv H.
    injection H as <-. rewrite batch_loop_role, Hrole.
    rewrite bool_decide_eq_false_2; [done |]. tauto.
  - unfold grantElectionCreatorRole in H. bind_inv H. injection H as <-.
    unfold hasRole in *. simpl. rewrite hasRole_grant, Hrole.
    by rewrite bool_decide_eq_false_2.
  - unfold revokeElectionCreatorRole in H. bind_inv H. injection H as <-.
    unfold hasRole in *. simpl. rewrite hasRole_revoke, Hrole. apply andb_false_r.
  - unfold grantRole, AccessControl.grantRole in H. bind_inv H. bind_inv Hchk.
    injection Hchk as <-. injection H as <-.
    unfold hasRole in *. simpl. rewrite hasRole_grant, Hrole.
    rewrite bool_decide_eq_false_2; [done |]. intros [= <- <-]. done.
  - unfold revokeRole, AccessControl.revokeRole in H. bind_inv H. bind_inv Hchk.
    injection Hchk as <-. injection H as <-.
    unfold hasRole in *. simpl. rewrite hasRole_revoke, Hrole. apply andb_false_r.
  - unfold renounceRole, AccessControl.renounceRole in H. bind_inv H. bind_inv Hchk.
    injection Hchk as <-. injection H as <-.
    unfold hasRole in *. simpl. rewrite hasRole_revoke, Hrole. apply andb_false_r.
Qed.

(** X11. Registration does not give a revoked voter the role back. If P
    has a registration record and does not hold the Voter role (it was
    revoked or renounced), then after any transactions other than a
    grantRole(VOTER_ROLE, P) P still does not hold it: registerVoter(P)
    fails with "Voter already registered" and batchRegisterVoters skips
    P, so every castVote by P keeps failing. *)
Theorem revoked_voter_stays_revoked (p : address) (s : State) (txs : list (Msg * Call)) :
  p ∈ isVoterRegistered s ->
  hasRole s VOTER_ROLE p = false ->
  no_voter_grant p txs ->
  isRegisteredVoter (run txs s) p = false /\
  (forall m, hasRole (run txs s) ADMIN_ROLE (sender m) = true ->
     registerVoter m p (run txs s) = Err (Revert "AccessControl: Voter already registered")) /\
  (forall m eid cid, sender m = p ->
     castVote m eid cid (run txs s) = Err (Revert "AccessControl: Must have voter role")).
Proof.
  intros Hreg Hrole Hno.
  assert (Hrun : (p ∈ isVoterRegistered (run txs s)) /\ hasRole (run txs s) VOTER_ROLE p = false).
  { revert s Hreg Hrole. induction Hno as [|[m c] txs Hc Hno IH]; intros s Hreg Hrole; simpl.
    - done.
    - simpl in Hc. unfold transact. destruct (execute m c s) as [s'|e] eqn:H.
      + apply IH.
        * by destruct (execute_registry _ _ _ _ p H Hreg).
        * by eapply execute_revoked.
      + by apply IH. }
  destruct Hrun as [Hreg' Hrole'].
  split; [exact Hrole' |]. split.
  - intros m Hadm. unfold registerVoter, onlyAdmin. rewrite Hadm. simpl.
    by rewrite bool_decide_eq_true_2.
  - intros m eid cid <-. unfold castVote, onlyVoter. by rewrite Hrole'.
Qed.

Lemma revoked_voter_stays_revoked_witness :
  isRegisteredVoter
    (run [(mkMsg 1 116, call_registerVoter 7); (mkMsg 1 117, call_batchRegisterVoters [7; 8])]
       (transact (mkMsg 7 115) (call_renounceRole VOTER_ROLE 7) Scenario.with_election)) 7
  = false.
Proof.
  apply (revoked_voter_stays_revoked 7
           (transact (mkMsg 7 115) (call_renounceRole VOTER_ROLE 7) Scenario.with_election)
           [(mkMsg 1 116, call_registerVoter 7);
            (mkMsg 1 117, call_batchRegisterVoters [7; 8])]).
  - vm_compute. reflexivity.
  - vm_compute. reflexivity.
  - repeat constructor; simpl; discriminate.
Defined.

End RevocationProps.

(** ** The role-management contract: registering and revoking *)

Module RoleCountFacts.

Lemma roleMembers_grant role account r rs :
  AccessControl.hasRole rs role account = false ->
  AccessControl.roleMembers (AccessControl._grantRole role account rs) r
  = if decide (r = role)
    then {[ (role, account) ]} ∪ AccessControl.roleMembers rs r
    else AccessControl.roleMembers rs r.
Proof.
  intros Hh. unfold AccessControl._grantRole. rewrite Hh.
  unfold AccessControl.roleMembers. simpl.
  apply set_eq. intros [r' a'].
  case_decide as Hd;
    rewrite ?elem_of_union, !elem_of_filter, elem_of_union, !elem_of_singleton; simpl;
    naive_solver.
Qed.

Lemma count_grant role account rs :
  AccessControl.hasRole rs role account = false ->
  AccessControl.getRoleMemberCount (AccessControl._grantRole role account rs) role
  = AccessControl.getRoleMemberCount rs role + 1.
Proof.
  intros Hh. unfold AccessControl.getRoleMemberCount.
  rewrite roleMembers_grant, decide_True by done.
  rewrite size_union, size_singleton; [lia |].
  intros x ->%elem_of_singleton Hin. unfold AccessControl.roleMembers in Hin.
  apply elem_of_filter in Hin as [_ Hin].
  unfold AccessControl.hasRole in Hh. apply bool_decide_eq_false in Hh. by apply Hh.
Qed.

Lemma count_grant_other role account r rs :
  r <> role ->
  AccessControl.getRoleMemberCount (AccessControl._grantRole role account rs) r
  = AccessControl.getRoleMemberCount rs r.
Proof.
  intros Hr. destruct (AccessControl.hasRole rs role account) eqn:Hh.
  - unfold AccessControl._grantRole. by rewrite Hh.
  - unfold AccessControl.getRoleMemberCount. by rewrite roleMembers_grant, decide_False.
Qed.

Lemma count_revoke role account rs :
  AccessControl.hasRole rs role account = true ->
  AccessControl.getRoleMemberCount (AccessControl._revokeRole role account rs) role + 1
  = AccessControl.getRoleMemberCount rs role.
Proof.
  intros Hh. pose proof (AccessControlFacts.hasRole_count_pos _ _ _ Hh) as Hpos.
  unfold AccessControl._revokeRole. rewrite Hh.
  unfold AccessControl.getRoleMemberCount, AccessControl.roleMembers in *. simpl.
  unfold AccessControl.hasRole in Hh. apply bool_decide_eq_true in Hh.
  assert (Heq : filter (fun p : Role * N => p.1 = role)
                  (AccessControl.members rs ∖ {[ (role, account) ]})
                = filter (fun p : Role * N => p.1 = role) (AccessControl.members rs)
                  ∖ {[ (role, account) ]}).
  { apply set_eq. intros x. rewrite elem_of_difference, !elem_of_filter, elem_of_difference.
    tauto. }
  rewrite Heq, size_difference, size_singleton; [lia |].
  intros x ->%elem_of_singleton. by apply elem_of_filter.
Qed.

(** Granting a role an account does not hold and revoking it again
    gives the role store one started from. *)
Lemma grant_revoke role account rs :
  AccessControl.hasRole rs role account = false ->
  AccessControl._revokeRole role account (AccessControl._grantRole role account rs) = rs.
Proof.
  intros Hh.
  assert (Hnow : AccessControl.hasRole (AccessControl._grantRole role account rs) role account
                 = true)
    by (rewrite AccessControlFacts.hasRole_grant; by rewrite bool_decide_eq_true_2).
  unfold AccessControl._revokeRole. rewrite Hnow.
  unfold AccessControl._grantRole. rewrite Hh. simpl.
  unfold AccessControl.hasRole in Hh. apply bool_decide_eq_false in Hh.
  destruct rs as [ms adm]. simpl in *. f_equal. set_solver.
Qed.

End RoleCountFacts.

Module RoleRegistryProps.
Import RoleVotingContract AccessControlFacts RoleFacts RoleCountFacts.

Lemma state_eta (s : State) : _entered s = false -> mkState (_roles s) false = s.
Proof. destruct s. simpl. by intros ->. Qed.

(** X12. In the role-management contract, registerVoter of a non-zero
    address without the Voter role, called by an Administrator, makes it
    a voter and raises getVoterCount by one, the administrators being
    the same; a second registerVoter fails with "voter already
    registered"; revokeVoter then gives back exactly the storage before
    the registration. The zero address is refused. *)
Theorem registerVoter_revokeVoter (m m' : Msg) (voter : address) (s : State) :
  _entered s = false ->
  isAdmin s (sender m) = true -> isAdmin s (sender m') = true ->
  isRegisteredVoter s voter = false ->
  (voter = 0 ->
     registerVoter m voter s = Err (Revert "VotingContract: invalid voter address")) /\
  (voter <> 0 ->
     exists s1,
       registerVoter m voter s = Ok s1 /\
       isRegisteredVoter s1 voter = true /\
       getVoterCount s1 = getVoterCount s + 1 /\
       getAdminCount s1 = getAdminCount s /\
       registerVoter m' voter s1 = Err (Revert "VotingContract: voter already registered") /\
       revokeVoter m' voter s1 = Ok s).
Proof.
  intros Hent Hadm Hadm' Hnot. unfold isAdmin, isRegisteredVoter in *. split.
  - intros ->. unfold registerVoter, onlyAdmin, nonReentrant. by rewrite Hadm, Hent.
  - intros Hv. apply N.eqb_neq in Hv.
    assert (Hrun : registerVoter m voter s
              = Ok (mkState (AccessControl._grantRole VOTER_ROLE voter (_roles s)) false)).
    { unfold registerVoter, onlyAdmin, nonReentrant. rewrite Hadm, Hent. simpl.
      rewrite Hv. simpl.
      change (hasRole (mkState (_roles s) true)) with (hasRole s). by rewrite Hnot. }
    eexists. split; [exact Hrun |].
    assert (Hnow : hasRole (mkState (AccessControl._grantRole VOTER_ROLE voter (_roles s)) false)
                     VOTER_ROLE voter = true).
    { unfold hasRole. simpl. rewrite hasRole_grant. by rewrite bool_decide_eq_true_2. }
    assert (Hadm1 : hasRole (mkState (AccessControl._grantRole VOTER_ROLE voter (_roles s)) false)
                      ADMIN_ROLE (sender m') = true).
    { unfold hasRole in *. simpl. rewrite hasRole_grant, Hadm'. apply orb_true_r. }
    split; [exact Hnow |]. split; [| split; [| split]].
    + unfold getVoterCount, getRoleMemberCount. simpl. by apply count_grant.
    + unfold getAdminCount, getRoleMemberCount. simpl. by apply count_grant_other.
    + unfold registerVoter, onlyAdmin, nonReentrant. rewrite Hadm1. simpl. rewrite Hv. simpl.
      change (hasRole (mkState ?r true)) with (hasRole (mkState r false)). by rewrite Hnow.
    + unfold revokeVoter, onlyAdmin, nonReentrant. rewrite Hadm1. simpl. rewrite Hv. simpl.
      change (hasRole (mkState ?r true)) with (hasRole (mkState r false)). rewrite Hnow. simpl.
      unfold set_roles. simpl. rewrite grant_revoke by done. f_equal. by apply state_eta.
Qed.

Lemma registerVoter_revokeVoter_witness :
  registerVoter (mkMsg 1 110) 7 Scenario.deployed = Ok Scenario.with_voter /\
  getVoterCount Scenario.with_voter = getVoterCount Scenario.deployed + 1 /\
  revokeVoter (mkMsg 1 120) 7 Scenario.with_voter = Ok Scenario.deployed.
Proof.
  destruct (registerVoter_revokeVoter (mkMsg 1 110) (mkMsg 1 120) 7 Scenario.deployed)
    as [_ Hreg]; try (vm_compute; reflexivity).
  destruct Hreg as (s1 & Hrun & _ & Hcount & _ & _ & Hback); [discriminate |].
  assert (Hs1 : registerVoter (mkMsg 1 110) 7 Scenario.deployed = Ok Scenario.with_voter)
    by (vm_compute; reflexivity).
  rewrite Hs1 in Hrun. injection Hrun as <-. done.
Defined.

(** The loop of [registerVotersBatch]: a zero address anywhere makes it
    revert; otherwise it grants the Voter role along the array. *)
Lemma batch_loop_zero vs s :
  0 ∈ vs ->
  registerVotersBatch_loop vs s = Err (Revert "VotingContract: invalid voter address").
Proof.
  revert s. induction vs as [|v vs IH]; intros s Hin; [by apply elem_of_nil in Hin |].
  simpl. destruct (v =? 0) eqn:Hv; [done |]. simpl.
  apply elem_of_cons in Hin as [Heq | Hin]; [| by apply IH].
  subst v. discriminate Hv.
Qed.

Lemma batch_loop_ok vs s :
  0 ∉ vs ->
  exists s',
    registerVotersBatch_loop vs s = Ok s' /\ _entered s' = _entered s /\
    forall r a, hasRole s' r a = hasRole s r a || bool_decide (r = VOTER_ROLE /\ (a ∈ vs)).
Proof.
  revert s. induction vs as [|v vs IH]; intros s Hin; simpl.
  - exists s. split; [done |]. split; [done |]. intros r a.
    rewrite bool_decide_eq_false_2; [by rewrite orb_false_r |].
    intros [_ H]. by apply elem_of_nil in H.
  - assert (Hv : (v =? 0) = false) by (apply N.eqb_neq; intros ->; apply Hin; left).
    rewrite Hv. simpl.
    destruct (IH (if negb (hasRole s VOTER_ROLE v)
                  then set_roles (AccessControl._grantRole VOTER_ROLE v) s else s))
      as (s' & Hrun & Hent & Hroles); [intros H; apply Hin; by right |].
    exists s'. split; [exact Hrun |]. split; [rewrite Hent; by destruct (negb _) |].
    intros r a. rewrite Hroles. apply Bool.eq_iff_eq_true.
    rewrite !orb_true_iff, !bool_decide_eq_true, elem_of_cons.
    destruct (hasRole s VOTER_ROLE v) eqn:Hhas; simpl.
    + split; [tauto |]. intros [? | [-> [-> | ?]]]; auto.
    + unfold hasRole at 1. simpl. rewrite hasRole_grant. fold (hasRole s r a).
      rewrite orb_true_iff, bool_decide_eq_true. split.
      * intros [[[= -> ->] | ?] | [? ?]]; auto.
      * intros [? | [-> [-> | ?]]]; auto.
Qed.

(** X13. registerVotersBatch of the role-management contract is
    all-or-nothing: for an Administrator and a batch of 1 to 100
    addresses, a zero address anywhere in the batch makes the whole call
    fail with "invalid voter address" and nothing is registered;
    otherwise it succeeds, every address of the batch holds the Voter
    role afterwards, and no other role membership changes. *)
Theorem registerVotersBatch_atomic (m : Msg) (voters : list address) (s : State) :
  _entered s = false ->
  isAdmin s (sender m) = true ->
  voters <> [] -> (length voters <= 100)%nat ->
  (0 ∈ voters ->
     registerVotersBatch m voters s = Err (Revert "VotingContract: invalid voter address") /\
     transact m (call_registerVotersBatch voters) s = s) /\
  (0 ∉ voters ->
     exists s',
       registerVotersBatch m voters s = Ok s' /\
       (forall a, a ∈ voters -> isRegisteredVoter s' a = true) /\
       (forall a, a ∉ voters -> isRegisteredVoter s' a = isRegisteredVoter s a) /\
       (forall r a, r <> VOTER_ROLE -> hasRole s' r a = hasRole s r a)).
Proof.
  intros Hent Hadm Hne Hlen. unfold isAdmin in Hadm.
  assert (H0 : (0 <? N.of_nat (length voters)) = true).
  { apply N.ltb_lt. destruct voters; [done | simpl; lia]. }
  assert (H1 : (N.of_nat (length voters) <=? 100) = true) by (apply N.leb_le; lia).
  split.
  - intros Hz.
    assert (Hfail : registerVotersBatch m voters s
                    = Err (Revert "VotingContract: invalid voter address")).
    { unfold registerVotersBatch, onlyAdmin, nonReentrant. rewrite Hadm, Hent. simpl.
      rewrite H0, H1. simpl. by rewrite batch_loop_zero. }
    split; [done |]. unfold transact. simpl. by rewrite Hfail.
  - intros Hz. destruct (batch_loop_ok voters (mkState (_roles s) true) Hz)
      as (s1 & Hrun & _ & Hroles).
    exists (mkState (_roles s1) false). split.
    + unfold registerVotersBatch, onlyAdmin, nonReentrant. rewrite Hadm, Hent. simpl.
      rewrite H0, H1. simpl. by rewrite Hrun.
    + unfold isRegisteredVoter.
      change (hasRole (mkState (_roles s1) false)) with (hasRole s1).
      change (hasRole s) with (hasRole (mkState (_roles s) true)).
      split; [| split].
      * intros a Ha. rewrite Hroles, (bool_decide_eq_true_2 (_ /\ _)) by done.
        apply orb_true_r.
      * intros a Ha. rewrite Hroles, (bool_decide_eq_false_2 (_ /\ _)) by tauto.
        apply orb_false_r.
      * intros r a Hr. rewrite Hroles, (bool_decide_eq_false_2 (_ /\ _)) by tauto.
        apply orb_false_r.
Qed.

Lemma registerVotersBatch_atomic_witness :
  registerVotersBatch (mkMsg 1 110) [7; 0; 8] Scenario.deployed
    = Err (Revert "VotingContract: invalid voter address") /\
  exists s',
    registerVotersBatch (mkMsg 1 110) [7; 8] Scenario.deployed = Ok s' /\
    isRegisteredVoter s' 8 = true.
Proof.
  destruct (registerVotersBatch_atomic (mkMsg 1 110) [7; 0; 8] Scenario.deployed)
    as [Hzero _]; try (vm_compute; reflexivity); [discriminate | simpl; lia |].
  destruct (registerVotersBatch_atomic (mkMsg 1 110) [7; 8] Scenario.deployed)
    as [_ Hok]; try (vm_compute; reflexivity); [discriminate | simpl; lia |].
  split.
  - apply Hzero. apply list_elem_of_further, list_elem_of_here.
  - destruct Hok as (s' & Hrun & Hin & _).
    + intros H. apply elem_of_cons in H as [H | H]; [discriminate |].
      apply elem_of_cons in H as [H | H]; [discriminate |]. by apply elem_of_nil in H.
    + exists s'. split; [exact Hrun |].
      apply Hin. apply list_elem_of_further, list_elem_of_here.
Defined.

(** X14. grantAdminRole by an Administrator to a non-zero address that
    is not one raises getAdminCount by one; granting again fails with
    "address already has admin role"; revokeAdminRole of the new
    administrator by the granter gives back the storage before the
    grant. The new administrator has the same power: it can revoke the
    granter, who is then no administrator. *)
Theorem grantAdminRole_revokeAdminRole (m : Msg) (newAdmin : address) (s : State) :
  _entered s = false ->
  isAdmin s (sender m) = true ->
  newAdmin <> 0 -> sender m <> 0 ->
  isAdmin s newAdmin = false ->
  exists s1,
    grantAdminRole m newAdmin s = Ok s1 /\
    isAdmin s1 newAdmin = true /\
    getAdminCount s1 = getAdminCount s + 1 /\
    grantAdminRole m newAdmin s1
      = Err (Revert "VotingContract: address already has admin role") /\
    revokeAdminRole m newAdmin s1 = Ok s /\
    forall t, exists s2,
      revokeAdminRole (mkMsg newAdmin t) (sender m) s1 = Ok s2 /\
      isAdmin s2 (sender m) = false /\ isAdmin s2 newAdmin = true /\
      getAdminCount s2 = getAdminCount s.
Proof.
  intros Hent Hadm Hn0 Hm0 Hnot. unfold isAdmin in *.
  assert (Hne : newAdmin <> sender m) by (intros ->; congruence).
  apply N.eqb_neq in Hn0 as Hn0b. apply N.eqb_neq in Hm0 as Hm0b.
  set (rs1 := AccessControl._grantRole ADMIN_ROLE newAdmin (_roles s)).
  assert (Hnew : AccessControl.hasRole rs1 ADMIN_ROLE newAdmin = true).
  { unfold rs1. rewrite hasRole_grant. by rewrite bool_decide_eq_true_2. }
  assert (Hold : AccessControl.hasRole rs1 ADMIN_ROLE (sender m) = true).
  { unfold rs1. unfold hasRole in Hadm. rewrite hasRole_grant, Hadm. apply orb_true_r. }
  assert (Hcount : AccessControl.getRoleMemberCount rs1 ADMIN_ROLE
                   = AccessControl.getRoleMemberCount (_roles s) ADMIN_ROLE + 1)
    by (by apply count_grant).
  assert (Htwo : (1 <? AccessControl.getRoleMemberCount rs1 ADMIN_ROLE) = true).
  { apply N.ltb_lt. by apply (hasRole_count_two _ _ newAdmin (sender m)). }
  exists (mkState rs1 false).
  split; [| split; [exact Hnew | split; [exact Hcount | split; [| split]]]].
  - unfold grantAdminRole, onlyAdmin, nonReentrant. rewrite Hadm, Hent. simpl.
    rewrite Hn0b. simpl.
    change (hasRole (mkState (_roles s) true)) with (hasRole s). by rewrite Hnot.
  - unfold grantAdminRole, onlyAdmin, nonReentrant, hasRole. simpl.
    rewrite Hold. simpl. rewrite Hn0b. simpl. unfold hasRole. simpl. by rewrite Hnew.
  - unfold revokeAdminRole, onlyAdmin, nonReentrant, hasRole, getRoleMemberCount. simpl.
    rewrite Hold. simpl. rewrite Hn0b. simpl. unfold hasRole. simpl. rewrite Hnew. simpl.
    apply N.eqb_neq in Hne as ->. simpl. unfold getRoleMemberCount. simpl.
    rewrite Htwo. simpl. unfold set_roles. simpl. unfold rs1.
    rewrite grant_revoke by done. f_equal. by apply state_eta.
  - intros t.
    exists (mkState (AccessControl._revokeRole ADMIN_ROLE (sender m) rs1) false).
    split; [| split; [| split]].
    + unfold revokeAdminRole, onlyAdmin, nonReentrant, hasRole. simpl.
      rewrite Hnew. simpl. rewrite Hm0b. simpl. unfold hasRole. simpl. rewrite Hold. simpl.
      assert (Hself : (sender m =? newAdmin) = false) by (apply N.eqb_neq; congruence).
      rewrite Hself. simpl. unfold getRoleMemberCount. simpl. by rewrite Htwo.
    + unfold hasRole. simpl. rewrite hasRole_revoke.
      by rewrite bool_decide_eq_true_2.
    + unfold hasRole. simpl. rewrite hasRole_revoke, Hnew.
      rewrite bool_decide_eq_false_2; [done |]. intros [= ?]. done.
    + unfold getAdminCount, getRoleMemberCount. simpl.
      pose proof (count_revoke ADMIN_ROLE (sender m) rs1 Hold). lia.
Qed.

Lemma grantAdminRole_revokeAdminRole_witness :
  exists s1,
    grantAdminRole (mkMsg 1 110) 2 Scenario.deployed = Ok s1 /\
    getAdminCount s1 = 2 /\
    revokeAdminRole (mkMsg 1 120) 2 s1 = Ok Scenario.deployed /\
    exists s2, revokeAdminRole (mkMsg 2 120) 1 s1 = Ok s2 /\ isAdmin s2 1 = false.
Proof.
  destruct (grantAdminRole_revokeAdminRole (mkMsg 1 110) 2 Scenario.deployed)
    as (s1 & Hrun & _ & Hcount & _ & Hback & Htake);
    try (vm_compute; reflexivity); try discriminate.
  exists s1. split; [exact Hrun |]. split; [rewrite Hcount; vm_compute; reflexivity |].
  split.
  - assert (Hsame : revokeAdminRole (mkMsg 1 120) 2 s1 = revokeAdminRole (mkMsg 1 110) 2 s1)
      by reflexivity.
    by rewrite Hsame.
  - destruct (Htake 120) as (s2 & Hrev & Hgone & _). by exists s2.
Defined.

End RoleRegistryProps.

(** ** VotingSystem: counters and tallies *)

Module SystemFacts.
Import VotingSystem VotingSystemFacts SumFacts.

Lemma system_candidate_written s c :
  Candidate.exists_ (candidate s c) = true -> candidates s !! c = Some (candidate s c).
Proof. unfold candidate. by destruct (candidates s !! c). Qed.

Lemma system_election_written s e :
  Election.exists_ (election s e) = true -> elections s !! e = Some (election s e).
Proof. unfold election. by destruct (elections s !! e). Qed.

Lemma system_onlyDuringElection_Ok m eid s u :
  onlyDuringElection m eid s = Ok u ->
  Election.exists_ (election s eid) = true /\ Election.active (election s eid) = true /\
  Election.startTime (election s eid) <= timestamp m /\
  timestamp m <= Election.endTime (election s eid).
Proof.
  unfold onlyDuringElection. intros H.
  bind_inv H. bind_inv H. bind_inv H.
  apply require_Ok in Hchk, Hchk0, Hchk1, H.
  apply N.leb_le in Hchk1, H. done.
Qed.

(** What a successful [vote] has checked, and the storage it wrote. *)
Lemma vote_Ok_state m cid eid s s' :
  vote m cid eid s = Ok s' ->
  Voter.authorized (voter s (sender m)) = true /\
  (Election.exists_ (election s eid) = true /\ Election.active (election s eid) = true /\
   Election.startTime (election s eid) <= timestamp m /\
   timestamp m <= Election.endTime (election s eid)) /\
  Candidate.exists_ (candidate s cid) = true /\
  _entered s = false /\ _paused s = false /\
  Voter.voted (voter s (sender m)) = false /\
  s' = mkState (_owner s) false (_paused s)
         (<[sender m := Voter.mk (Voter.authorized (voter s (sender m))) true cid
                          (Voter.exists_ (voter s (sender m)))]> (voters s))
         (<[cid := Candidate.mk (Candidate.id (candidate s cid))
                     (Candidate.name (candidate s cid)) (Candidate.party (candidate s cid))
                     (Candidate.voteCount (candidate s cid) + 1)
                     (Candidate.exists_ (candidate s cid))]> (candidates s))
         (elections s) (candidatesCount s) (electionsCount s) (totalVotes s + 1).
Proof.
  unfold vote. intros H. bind_inv H. apply require_Ok in Hchk.
  bind_inv H. apply system_onlyDuringElection_Ok in Hchk0.
  bind_inv H. apply require_Ok in Hchk1.
  apply system_nonReentrant_Ok in H as (Hent & s1 & H & ->).
  bind_inv H. apply require_Ok, negb_true_iff in Hchk2. simpl in Hchk2.
  unfold vote_body in H. bind_inv H. apply require_Ok, negb_true_iff in Hchk3.
  bind_inv H. apply checked_inc_Ok in Hchk4 as [_ ->].
  bind_inv H. apply checked_inc_Ok in Hchk4 as [_ ->].
  injection H as <-. done.
Qed.

Lemma constructor_system_inv m : system_inv (constructor m).
Proof. split; simpl; try done; intros; lia. Qed.

Lemma execute_system_inv m c s s' :
  system_inv s -> execute m c s = Ok s' -> system_inv s'.
Proof.
  intros Hinv H.
  assert (Hframe : _entered s' = _entered s -> voters s' = voters s ->
            candidates s' = candidates s -> elections s' = elections s ->
            candidatesCount s' = candidatesCount s -> electionsCount s' = electionsCount s ->
            totalVotes s' = totalVotes s -> system_inv s').
  { intros He Hv Hc Hel Hcc Hec Ht. destruct Hinv.
    split; unfold votedCount, candidateVotes in *;
      rewrite ?He, ?Hv, ?Hc, ?Hel, ?Hcc, ?Hec, ?Ht; eauto. }
  destruct c; simpl in H.
  - (* authorizeVoter *)
    unfold authorizeVoter in H. bind_inv H. bind_inv H. injection H as <-.
    apply require_Ok, negb_true_iff in Hchk0.
    assert (Hnone : voters s !! _voter = None).
    { destruct (voters s !! _voter) as [v|] eqn:Hv; [| done].
      destruct (sys_voters _ Hinv _ _ Hv) as [_ Hex].
      unfold voter in Hchk0. rewrite Hv in Hchk0. simpl in Hchk0. congruence. }
    destruct Hinv. split; simpl; eauto.
    + intros a v. destruct (decide (a = _voter)) as [->|Hne].
      * rewrite lookup_insert_eq. by intros [= <-].
      * rewrite lookup_insert_ne by done. eauto.
    + unfold votedCount in *. simpl. rewrite map_sum_insert_None by done. simpl.
      exact sys_total_voted0.
  - (* addCandidate *)
    unfold addCandidate in H. bind_inv H. bind_inv H.
    apply checked_inc_Ok in Hchk0 as [_ ->]. injection H as <-.
    assert (Hnone : candidates s !! (candidatesCount s + 1) = None)
      by (apply (sys_cand_fresh _ Hinv); lia).
    destruct Hinv. split; simpl; eauto.
    + intros c Hc. rewrite lookup_insert_ne by lia. apply sys_cand_fresh0. lia.
    + intros c H0 Hle. destruct (decide (c = candidatesCount s + 1)) as [->|Hne].
      * rewrite lookup_insert_eq. eauto.
      * rewrite lookup_insert_ne by done. apply sys_cand_dense0; [done | lia].
    + intros c x. destruct (decide (c = candidatesCount s + 1)) as [->|Hne].
      * rewrite lookup_insert_eq. by intros [= <-].
      * rewrite lookup_insert_ne by done. eauto.
    + unfold candidateVotes in *. simpl. rewrite map_sum_insert_None by done. simpl.
      exact sys_total_candidates0.
  - (* createElection *)
    unfold createElection in H. bind_inv H. bind_inv H. bind_inv H. bind_inv H.
    apply require_Ok, N.ltb_lt in Hchk0.
    apply checked_inc_Ok in Hchk2 as [_ ->]. injection H as <-.
    assert (Hnone : elections s !! (electionsCount s + 1) = None)
      by (apply (sys_el_fresh _ Hinv); lia).
    destruct Hinv. split; simpl; eauto.
    + intros e He. rewrite lookup_insert_ne by lia. apply sys_el_fresh0. lia.
    + intros e H0 Hle. destruct (decide (e = electionsCount s + 1)) as [->|Hne].
      * rewrite lookup_insert_eq. eauto.
      * rewrite lookup_insert_ne by done. apply sys_el_dense0; [done | lia].
    + intros e x. destruct (decide (e = electionsCount s + 1)) as [->|Hne].
      * rewrite lookup_insert_eq. by intros [= <-].
      * rewrite lookup_insert_ne by done. eauto.
  - (* vote *)
    apply vote_Ok_state in H as (Hauth & _ & Hcand & _ & _ & Hnot & ->).
    pose proof (voter_authorized_written _ _ Hauth) as Hv.
    pose proof (system_candidate_written _ _ Hcand) as Hc.
    destruct Hinv. split; simpl; eauto.
    + intros c Hfresh. rewrite lookup_insert_ne; [by apply sys_cand_fresh0 |].
      intros ->. rewrite (sys_cand_fresh0 _ Hfresh) in Hc. discriminate.
    + intros c H0 Hle. destruct (decide (c = _candidateId)) as [->|Hne].
      * rewrite lookup_insert_eq. eauto.
      * rewrite lookup_insert_ne by done. by apply sys_cand_dense0.
    + intros c x. destruct (decide (c = _candidateId)) as [->|Hne].
      * rewrite lookup_insert_eq. intros [= <-]. simpl. eauto.
      * rewrite lookup_insert_ne by done. eauto.
    + intros a v. destruct (decide (a = sender m)) as [->|Hne].
      * rewrite lookup_insert_eq. intros [= <-]. simpl.
        split; [done |]. by destruct (sys_voters0 _ _ Hv).
      * rewrite lookup_insert_ne by done. eauto.
    + unfold votedCount in *. simpl.
      pose proof (map_sum_insert_Some (fun v => if Voter.voted v then 1 else 0) (voters s)
                    (sender m) (voter s (sender m))
                    (Voter.mk (Voter.authorized (voter s (sender m))) true _candidateId
                       (Voter.exists_ (voter s (sender m)))) Hv) as Hsum.
      simpl in Hsum. rewrite Hnot in Hsum. lia.
    + unfold candidateVotes in *. simpl.
      pose proof (map_sum_insert_Some Candidate.voteCount (candidates s) _candidateId
                    (candidate s _candidateId)
                    (Candidate.mk (Candidate.id (candidate s _candidateId))
                       (Candidate.name (candidate s _candidateId))
                       (Candidate.party (candidate s _candidateId))
                       (Candidate.voteCount (candidate s _candidateId) + 1)
                       (Candidate.exists_ (candidate s _candidateId))) Hc) as Hsum.
      simpl in Hsum. lia.
  - (* toggleElectionStatus *)
    unfold toggleElectionStatus in H. bind_inv H. bind_inv H. injection H as <-.
    apply require_Ok in Hchk0. pose proof (system_election_written _ _ Hchk0) as He.
    destruct Hinv. split; simpl; eauto.
    + intros e Hfresh. rewrite lookup_insert_ne; [by apply sys_el_fresh0 |].
      intros ->. rewrite (sys_el_fresh0 _ Hfresh) in He. discriminate.
    + intros e H0 Hle. destruct (decide (e = _electionId)) as [->|Hne].
      * rewrite lookup_insert_eq. eauto.
      * rewrite lookup_insert_ne by done. by apply sys_el_dense0.
    + intros e x. destruct (decide (e = _electionId)) as [->|Hne].
      * rewrite lookup_insert_eq. intros [= <-]. simpl. eauto.
      * rewrite lookup_insert_ne by done. eauto.
  - unfold pause in H. bind_inv H. bind_inv H. injection H as <-. by apply Hframe.
  - unfold unpause in H. bind_inv H. bind_inv H. injection H as <-. by apply Hframe.
  - unfold transferOwnership in H. bind_inv H. bind_inv H. injection H as <-.
    by apply Hframe.
  - unfold renounceOwnership in H. bind_inv H. injection H as <-. by apply Hframe.
Qed.

Lemma reachable_system_inv s : reachable s -> system_inv s.
Proof.
  intros (m & txs & ->). generalize (constructor_system_inv m).
  generalize (constructor m). induction txs as [|[m' c] txs IH]; intros s Hinv; simpl.
  - done.
  - apply IH. unfold transact. destruct (execute m' c s) eqn:H; [| done].
    by eapply execute_system_inv.
Qed.

End SystemFacts.

Module SystemProps.
Import VotingSystem VotingSystemFacts SumFacts SystemFacts.

(** X15. In every reachable state of VotingSystem the global totalVotes
    is the number of voters whose voted flag is set and is the sum of
    the voteCount of all candidates. *)
Theorem totalVotes_consistent (s : State) :
  reachable s ->
  totalVotes s = votedCount s /\ totalVotes s = candidateVotes s.
Proof.
  intros Hinv%reachable_system_inv.
  split; [apply (sys_total_voted _ Hinv) | apply (sys_total_candidates _ Hinv)].
Qed.

Lemma totalVotes_consistent_witness :
  votedCount (transact (mkMsg 7 200) (call_vote 1 1) Scenario.with_second) = 1 /\
  candidateVotes (transact (mkMsg 7 200) (call_vote 1 1) Scenario.with_second) = 1.
Proof.
  assert (Hr : reachable (transact (mkMsg 7 200) (call_vote 1 1) Scenario.with_second)).
  { exists (mkMsg 1 100),
      [ (mkMsg 1 110, call_authorizeVoter 7);
        (mkMsg 1 120, call_addCandidate "Alice" "Party A");
        (mkMsg 1 130, call_createElection "E1" "First election" 200 300);
        (mkMsg 1 140, call_createElection "E2" "Second election" 400 500);
        (mkMsg 7 200, call_vote 1 1) ].
    reflexivity. }
  destruct (totalVotes_consistent _ Hr) as [Hv Hc].
  assert (Ht : totalVotes (transact (mkMsg 7 200) (call_vote 1 1) Scenario.with_second) = 1)
    by (vm_compute; reflexivity).
  rewrite Ht in Hv, Hc. by split.
Defined.

(** X16. getAllCandidates and getAllElections list the records in id
    order: in every reachable state the lists have candidatesCount and
    electionsCount entries, and the entry at index i is an existing
    record with id i + 1, the one getCandidate(i + 1), getElection(i + 1)
    return; past the counter, and at 0, getCandidate fails with
    "Candidate does not exist". *)
Theorem getAll_in_id_order (s : State) :
  reachable s ->
  length (getAllCandidates s) = N.to_nat (candidatesCount s) /\
  length (getAllElections s) = N.to_nat (electionsCount s) /\
  (forall i x, getAllCandidates s !! i = Some x ->
     Candidate.id x = N.of_nat (S i) /\ Candidate.exists_ x = true /\
     getCandidate s (N.of_nat (S i)) = Ok x) /\
  (forall i x, getAllElections s !! i = Some x ->
     Election.id x = N.of_nat (S i) /\ Election.exists_ x = true /\
     getElection s (N.of_nat (S i)) = Ok x) /\
  (forall c, c = 0 \/ candidatesCount s < c ->
     getCandidate s c = Err (Revert "Candidate does not exist")).
Proof.
  intros Hinv%reachable_system_inv.
  unfold getAllCandidates, getAllElections.
  split; [by rewrite length_map, length_seq |].
  split; [by rewrite length_map, length_seq |].
  split; [| split].
  - intros i x Hi. rewrite list_lookup_fmap in Hi.
    destruct (seq 1 (N.to_nat (candidatesCount s)) !! i) as [k|] eqn:Hk; [| done].
    apply lookup_seq in Hk as [-> Hlt]. simpl in Hi. injection Hi as <-.
    destruct (sys_cand_dense _ Hinv (N.of_nat (S i))) as [x Hx]; [lia | lia |].
    destruct (sys_cand_written _ Hinv _ _ Hx) as [Hid Hex].
    unfold getCandidate, validCandidate, candidate. rewrite Hx. simpl.
    by rewrite Hex.
  - intros i x Hi. rewrite list_lookup_fmap in Hi.
    destruct (seq 1 (N.to_nat (electionsCount s)) !! i) as [k|] eqn:Hk; [| done].
    apply lookup_seq in Hk as [-> Hlt]. simpl in Hi. injection Hi as <-.
    destruct (sys_el_dense _ Hinv (N.of_nat (S i))) as [x Hx]; [lia | lia |].
    destruct (sys_el_written _ Hinv _ _ Hx) as (Hid & Hex & _).
    unfold getElection, election. rewrite Hx. simpl. by rewrite Hex.
  - intros c Hc. unfold getCandidate, validCandidate, candidate.
    by rewrite (sys_cand_fresh _ Hinv c Hc).
Qed.

Lemma getAll_in_id_order_witness :
  length (getAllElections Scenario.with_second) = 2%nat /\
  (exists x, getAllElections Scenario.with_second !! 1%nat = Some x /\ Election.id x = 2) /\
  getCandidate Scenario.with_second 2 = Err (Revert "Candidate does not exist").
Proof.
  assert (Hr : reachable Scenario.with_second).
  { exists (mkMsg 1 100),
      [ (mkMsg 1 110, call_authorizeVoter 7);
        (mkMsg 1 120, call_addCandidate "Alice" "Party A");
        (mkMsg 1 130, call_createElection "E1" "First election" 200 300);
        (mkMsg 1 140, call_createElection "E2" "Second election" 400 500) ].
    reflexivity. }
  destruct (getAll_in_id_order _ Hr) as (_ & Hlen & _ & Hel & Hout).
  split; [rewrite Hlen; vm_compute; reflexivity |]. split.
  - destruct (getAllElections Scenario.with_second !! 1%nat) as [x|] eqn:Hx;
      [| vm_compute in Hx; discriminate Hx].
    exists x. split; [done |]. by destruct (Hel _ _ Hx) as [-> _].
  - apply Hout. right. vm_compute. reflexivity.
Defined.

(** X17. A vote in VotingSystem is counted for every election. After a
    successful vote for a candidate (in a reachable state), the voter's
    record holds the choice, totalVotes is one higher, and
    getVotingResults of every existing election, not only of the one
    voted in, lists that candidate at index id - 1 with a voteCount one
    higher. *)
Theorem vote_counts_for_every_election (s s1 : State) (m : Msg)
    (candidateId electionId : uint256) :
  reachable s ->
  vote m candidateId electionId s = Ok s1 ->
  getVoter s1 (sender m) = Ok (Voter.mk true true candidateId true) /\
  totalVotes s1 = totalVotes s + 1 /\
  forall electionId', Election.exists_ (election s1 electionId') = true ->
    exists results x,
      getVotingResults s1 electionId' = Ok results /\
      results !! (N.to_nat candidateId - 1)%nat = Some x /\
      Candidate.id x = candidateId /\
      Candidate.voteCount x = Candidate.voteCount (candidate s candidateId) + 1.
Proof.
  intros Hinv%reachable_system_inv Hvote.
  apply vote_Ok_state in Hvote as (Hauth & _ & Hcand & _ & _ & _ & ->).
  pose proof (voter_authorized_written _ _ Hauth) as Hv.
  pose proof (system_candidate_written _ _ Hcand) as Hc.
  destruct (sys_voters _ Hinv _ _ Hv) as [_ Hvex].
  destruct (sys_cand_written _ Hinv _ _ Hc) as [Hcid _].
  assert (Hrange : candidateId <> 0 /\ candidateId <= candidatesCount s).
  { split.
    - intros ->. rewrite (sys_cand_fresh _ Hinv 0) in Hc by auto. discriminate.
    - apply N.le_ngt. intros Hlt.
      rewrite (sys_cand_fresh _ Hinv candidateId) in Hc by auto. discriminate. }
  destruct Hrange as [H0 Hle].
  split; [| split; [done |]].
  - match goal with |- getVoter ?st _ = _ =>
      assert (Hrec : voter st (sender m) = Voter.mk true true candidateId true)
    end.
    { unfold voter at 1. cbn [voters]. rewrite lookup_insert_eq. cbn [default].
      by rewrite Hvex, Hauth. }
    unfold getVoter. rewrite Hrec. reflexivity.
  - intros e' He'. unfold getVotingResults. rewrite He'. simpl.
    eexists _, _. split; [reflexivity |].
    rewrite list_lookup_fmap, lookup_seq_lt by lia. simpl.
    replace (N.of_nat (S (N.to_nat candidateId - 1))) with candidateId by lia.
    unfold candidate. simpl. rewrite lookup_insert_eq. simpl. done.
Qed.

Lemma vote_counts_for_every_election_witness :
  exists results x,
    getVotingResults (transact (mkMsg 7 200) (call_vote 1 1) Scenario.with_second) 2
      = Ok results /\
    results !! 0%nat = Some x /\ Candidate.voteCount x = 1.
Proof.
  assert (Hr : reachable Scenario.with_second).
  { exists (mkMsg 1 100),
      [ (mkMsg 1 110, call_authorizeVoter 7);
        (mkMsg 1 120, call_addCandidate "Alice" "Party A");
        (mkMsg 1 130, call_createElection "E1" "First election" 200 300);
        (mkMsg 1 140, call_createElection "E2" "Second election" 400 500) ].
    reflexivity. }
  assert (Hvote : vote (mkMsg 7 200) 1 1 Scenario.with_second
                  = Ok (transact (mkMsg 7 200) (call_vote 1 1) Scenario.with_second))
    by (vm_compute; reflexivity).
  destruct (vote_counts_for_every_election _ _ _ _ _ Hr Hvote) as (_ & _ & Hres).
  destruct (Hres 2) as (results & x & Hrun & Hx & _ & Hcount); [vm_compute; reflexivity |].
  exists results, x. split; [exact Hrun |]. split; [exact Hx |].
  rewrite Hcount. vm_compute. reflexivity.
Defined.

(** Voter records are never removed. *)
Lemma execute_voter_kept m c s s' a :
  is_Some (voters s !! a) -> execute m c s = Ok s' -> is_Some (voters s' !! a).
Proof.
  intros Ha H.
  assert (Hframe : voters s' = voters s -> is_Some (voters s' !! a)) by (by intros ->).
  destruct c; simpl in H.
  - unfold authorizeVoter in H. bind_inv H. bind_inv H. injection H as <-. simpl.
    destruct (decide (a = _voter)) as [->|Hne].
    + rewrite lookup_insert_eq. eauto.
    + by rewrite lookup_insert_ne.
  - unfold addCandidate in H. bind_inv H. bind_inv H. injection H as <-. by apply Hframe.
  - unfold createElection in H. bind_inv H. bind_inv H. bind_inv H. bind_inv H.
    injection H as <-. by apply Hframe.
  - apply vote_Ok_state in H as (_ & _ & _ & _ & _ & _ & ->). simpl.
    destruct (decide (a = sender m)) as [->|Hne].
    + rewrite lookup_insert_eq. eauto.
    + by rewrite lookup_insert_ne.
  - unfold toggleElectionStatus in H. bind_inv H. bind_inv H. injection H as <-.
    by apply Hframe.
  - unfold pause in H. bind_inv H. bind_inv H. injection H as <-. by apply Hframe.
  - unfold unpause in H. bind_inv H. bind_inv H. injection H as <-. by apply Hframe.
  - unfold transferOwnership in H. bind_inv H. bind_inv H. injection H as <-.
    by apply Hframe.
  - unfold renounceOwnership in H. bind_inv H. injection H as <-. by apply Hframe.
Qed.

(** X18. Authorization in VotingSystem is permanent. After a successful
    authorizeVoter (in a reachable state), in the state after any
    further transactions getVoter still returns an authorized record of
    that address, so the onlyAuthorized check never fails for it, and
    every further authorizeVoter of it fails, for the owner with "Voter
    already exists". *)
Theorem authorization_is_permanent (s s1 : State) (m : Msg) (v : address) :
  reachable s ->
  authorizeVoter m v s = Ok s1 ->
  getVoter s1 v = Ok (Voter.mk true false 0 true) /\
  forall (txs : list (Msg * Call)) (m' : Msg),
    (exists r, getVoter (run txs s1) v = Ok r /\ Voter.authorized r = true) /\
    (sender m' = v -> onlyAuthorized m' (run txs s1) = Ok tt) /\
    is_Err (authorizeVoter m' v (run txs s1)) /\
    (_owner (run txs s1) = sender m' ->
     authorizeVoter m' v (run txs s1) = Err (Revert "Voter already exists")).
Proof.
  intros Hinv%reachable_system_inv Hauth.
  assert (Hinv1 : system_inv s1)
    by (by eapply (execute_system_inv m (call_authorizeVoter v))).
  unfold authorizeVoter in Hauth. bind_inv Hauth. bind_inv Hauth. injection Hauth as <-.
  split; [unfold getVoter, voter; simpl; by rewrite lookup_insert_eq |].
  intros txs m'.
  match goal with |- context [run txs ?st] => set (s1 := st) in * end.
  assert (Hrun : system_inv (run txs s1) /\ is_Some (voters (run txs s1) !! v)).
  { assert (H1 : is_Some (voters s1 !! v)) by (simpl; rewrite lookup_insert_eq; eauto).
    clearbody s1. revert s1 Hinv1 H1.
    induction txs as [|[m0 c] txs IH]; intros s1 Hinv1 H1; simpl; [done |].
    unfold transact. destruct (execute m0 c s1) eqn:H; [| by apply IH].
    apply IH; [by eapply execute_system_inv | by eapply execute_voter_kept]. }
  destruct Hrun as [Hinv2 [r Hr]].
  destruct (sys_voters _ Hinv2 _ _ Hr) as [Hra Hre].
  assert (Hrec : voter (run txs s1) v = r) by (unfold voter; by rewrite Hr).
  split; [| split; [| split]].
  - exists r. unfold getVoter. rewrite Hrec, Hre. done.
  - intros Hs. unfold onlyAuthorized. by rewrite Hs, Hrec, Hra.
  - unfold authorizeVoter. destruct (onlyOwner m' (run txs s1)); simpl; [| by eexists].
    rewrite Hrec, Hre. by eexists.
  - intros Hown. unfold authorizeVoter, onlyOwner. rewrite Hown, N.eqb_refl. simpl.
    by rewrite Hrec, Hre.
Qed.

Lemma authorization_is_permanent_witness :
  getVoter Scenario.with_voter 7 = Ok (Voter.mk true false 0 true) /\
  authorizeVoter (mkMsg 1 150) 7
    (run [(mkMsg 1 120, call_addCandidate "Alice" "Party A")] Scenario.with_voter)
  = Err (Revert "Voter already exists").
Proof.
  assert (Hr : reachable Scenario.deployed) by (exists (mkMsg 1 100), []; reflexivity).
  assert (Hauth : authorizeVoter (mkMsg 1 110) 7 Scenario.deployed = Ok Scenario.with_voter)
    by (vm_compute; reflexivity).
  destruct (authorization_is_permanent _ _ _ _ Hr Hauth) as [Hget Hlater].
  split; [exact Hget |].
  destruct (Hlater [(mkMsg 1 120, call_addCandidate "Alice" "Party A")] (mkMsg 1 150))
    as (_ & _ & _ & Hagain).
  apply Hagain. vm_compute. reflexivity.
Defined.

(** X19. createElection of VotingSystem, called by the owner: it fails
    with "Start time must be before end time" unless startTime <
    endTime, then with "Start time must be in the future" unless the
    block time is before startTime; otherwise, the counter not being at
    its maximum, it advances electionsCount by one and getElection of
    the new count returns the election as given, active; the other
    elections, the candidates and the voters are untouched. *)
Theorem createElection_getElection_system (m : Msg) (title description : string)
    (startTime endTime : uint256) (s : State) :
  _owner s = sender m ->
  (endTime <= startTime ->
     createElection m title description startTime endTime s
     = Err (Revert "Start time must be before end time")) /\
  (startTime < endTime -> startTime <= timestamp m ->
     createElection m title description startTime endTime s
     = Err (Revert "Start time must be in the future")) /\
  (startTime < endTime -> timestamp m < startTime -> electionsCount s < MAX_UINT256 ->
     exists s',
       createElection m title description startTime endTime s = Ok s' /\
       electionsCount s' = electionsCount s + 1 /\
       getElection s' (electionsCount s')
         = Ok (Election.mk (electionsCount s') title description startTime endTime true true) /\
       (forall e, e <> electionsCount s' -> election s' e = election s e) /\
       candidates s' = candidates s /\ voters s' = voters s /\ totalVotes s' = totalVotes s).
Proof.
  intros Hown. unfold createElection, onlyOwner. rewrite Hown, N.eqb_refl. simpl.
  split; [| split].
  - intros Hw. by apply N.ltb_ge in Hw as ->.
  - intros Hw Hpast. apply N.ltb_lt in Hw as ->. simpl. by apply N.ltb_ge in Hpast as ->.
  - intros Hw Hfut Hmax. apply N.ltb_lt in Hw as ->. apply N.ltb_lt in Hfut as ->. simpl.
    rewrite checked_inc_lt by done. simpl.
    eexists. split; [reflexivity |]. simpl. split; [done |].
    split; [| split; [| done]].
    + unfold getElection, election. simpl. by rewrite lookup_insert_eq.
    + intros e He. unfold election. simpl. by rewrite lookup_insert_ne.
Qed.

Lemma createElection_getElection_system_witness :
  createElection (mkMsg 1 130) "E1" "First election" 300 200 Scenario.with_candidate
    = Err (Revert "Start time must be before end time") /\
  exists s',
    createElection (mkMsg 1 130) "E1" "First election" 200 300 Scenario.with_candidate
      = Ok s' /\
    getElection s' 1 = Ok (Election.mk 1 "E1" "First election" 200 300 true true).
Proof.
  assert (Hown : _owner Scenario.with_candidate = sender (mkMsg 1 130))
    by (vm_compute; reflexivity).
  destruct (createElection_getElection_system (mkMsg 1 130) "E1" "First election" 300 200
              Scenario.with_candidate Hown) as (Hbad & _).
  destruct (createElection_getElection_system (mkMsg 1 130) "E1" "First election" 200 300
              Scenario.with_candidate Hown) as (_ & _ & Hgood).
  split; [apply Hbad; lia |].
  destruct Hgood as (s' & Hrun & Hcount & Hget & _);
    [lia | simpl; lia | vm_compute; reflexivity |].
  exists s'. split; [exact Hrun |].
  assert (H1 : electionsCount s' = 1) by (rewrite Hcount; vm_compute; reflexivity).
  rewrite H1 in Hget. exact Hget.
Defined.

End SystemProps.

(** ** VotingContract: the ElectionCreator role *)

Module CreatorRoleProps.
Import VotingContract AccessControlFacts RoleCountFacts.

(** X20. grantElectionCreatorRole and revokeElectionCreatorRole change
    the membership of one (role, account) pair and nothing else. After a
    grant the account holds the ElectionCreator role; after a revoke by
    any Administrator it does not, so its addCandidate, createElection,
    endElection and toggleElectionStatus all fail with "Must have
    election creator role"; and when the account did not hold the role
    before the grant, the revoke gives back exactly the storage before
    the grant. *)
Theorem electionCreator_grant_revoke (m : Msg) (a : address) (s s1 : State) :
  grantElectionCreatorRole m a s = Ok s1 ->
  hasRole s ADMIN_ROLE (sender m) = true /\
  hasRole s1 ELECTION_CREATOR_ROLE a = true /\
  (forall r b, (r, b) <> (ELECTION_CREATOR_ROLE, a) -> hasRole s1 r b = hasRole s r b) /\
  forall m' s2, revokeElectionCreatorRole m' a s1 = Ok s2 ->
    hasRole s2 ELECTION_CREATOR_ROLE a = false /\
    (forall r b, (r, b) <> (ELECTION_CREATOR_ROLE, a) -> hasRole s2 r b = hasRole s r b) /\
    (hasRole s ELECTION_CREATOR_ROLE a = false -> s2 = s) /\
    (forall m2 name description title startTime endTime ids electionId,
       sender m2 = a ->
       addCandidate m2 name description s2
         = Err (Revert "AccessControl: Must have election creator role") /\
       createElection m2 title description startTime endTime ids s2
         = Err (Revert "AccessControl: Must have election creator role") /\
       endElection m2 electionId s2
         = Err (Revert "AccessControl: Must have election creator role") /\
       toggleElectionStatus m2 electionId s2
         = Err (Revert "AccessControl: Must have election creator role")).
Proof.
  intros H. unfold grantElectionCreatorRole in H. bind_inv H. injection H as <-.
  apply require_Ok in Hchk.
  split; [exact Hchk |]. split; [| split].
  - unfold hasRole. simpl. rewrite hasRole_grant. by rewrite bool_decide_eq_true_2.
  - intros r b Hne. unfold hasRole. simpl. rewrite hasRole_grant.
    by rewrite bool_decide_eq_false_2.
  - intros m' s2 H. unfold revokeElectionCreatorRole in H. bind_inv H. injection H as <-.
    assert (Hgone : hasRole
              (set_roles (AccessControl._revokeRole ELECTION_CREATOR_ROLE a)
                 (set_roles (AccessControl._grantRole ELECTION_CREATOR_ROLE a) s))
              ELECTION_CREATOR_ROLE a = false).
    { unfold hasRole. simpl. rewrite hasRole_revoke. by rewrite bool_decide_eq_true_2. }
    split; [exact Hgone |]. split; [| split].
    + intros r b Hne. unfold hasRole. simpl. rewrite hasRole_revoke, hasRole_grant.
      by rewrite bool_decide_eq_false_2.
    + intros Hnot. unfold hasRole in Hnot. destruct s. unfold set_roles. simpl in *.
      f_equal. by apply grant_revoke.
    + intros m2 name description title startTime endTime ids electionId <-.
      unfold addCandidate, createElection, endElection, toggleElectionStatus,
        onlyElectionCreator.
      rewrite Hgone. done.
Qed.

Lemma electionCreator_grant_revoke_witness :
  hasRole (transact (mkMsg 1 150) (call_grantElectionCreatorRole 9) Scenario.with_voter)
    ELECTION_CREATOR_ROLE 9 = true /\
  transact (mkMsg 1 160) (call_revokeElectionCreatorRole 9)
    (transact (mkMsg 1 150) (call_grantElectionCreatorRole 9) Scenario.with_voter)
  = Scenario.with_voter.
Proof.
  assert (Hgrant : grantElectionCreatorRole (mkMsg 1 150) 9 Scenario.with_voter
                   = Ok (transact (mkMsg 1 150) (call_grantElectionCreatorRole 9)
                           Scenario.with_voter))
    by (vm_compute; reflexivity).
  destruct (electionCreator_grant_revoke _ _ _ _ Hgrant) as (_ & Hhas & _ & Hrevoke).
  split; [exact Hhas |].
  assert (Hrev : revokeElectionCreatorRole (mkMsg 1 160) 9
                   (transact (mkMsg 1 150) (call_grantElectionCreatorRole 9)
                      Scenario.with_voter)
                 = Ok (transact (mkMsg 1 160) (call_revokeElectionCreatorRole 9)
                         (transact (mkMsg 1 150) (call_grantElectionCreatorRole 9)
                            Scenario.with_voter)))
    by (vm_compute; reflexivity).
  destruct (Hrevoke _ _ Hrev) as (_ & _ & Hback & _).
  apply Hback. vm_compute. reflexivity.
Defined.

End CreatorRoleProps.

(** ** VotingSystem: status, pause and ownership *)

Module SystemStatusProps.
Import VotingSystem VotingSystemFacts SystemFacts.

(** X21. toggleElectionStatus of VotingSystem flips the active flag of
    one existing election and touches nothing else. Toggling an active
    election closes it to votes: every vote in it fails, for an
    authorized voter with "Election is not active". A second toggle (by
    any owner at that time) gives back exactly the storage before the
    first. *)
Theorem toggleElectionStatus_flips (m : Msg) (electionId : uint256) (s s1 : State) :
  toggleElectionStatus m electionId s = Ok s1 ->
  Election.exists_ (election s electionId) = true /\
  Election.active (election s1 electionId) = negb (Election.active (election s electionId)) /\
  (forall e, e <> electionId -> election s1 e = election s e) /\
  voters s1 = voters s /\ candidates s1 = candidates s /\ totalVotes s1 = totalVotes s /\
  (Election.active (election s electionId) = true ->
   forall m' candidateId,
     is_Err (vote m' candidateId electionId s1) /\
     (Voter.authorized (voter s1 (sender m')) = true ->
      vote m' candidateId electionId s1 = Err (Revert "Election is not active"))) /\
  (forall m' s2, toggleElectionStatus m' electionId s1 = Ok s2 -> s2 = s).
Proof.
  intros H. unfold toggleElectionStatus in H. bind_inv H. bind_inv H. injection H as <-.
  apply require_Ok in Hchk0.
  pose proof (system_election_written _ _ Hchk0) as Hw.
  set (e2 := Election.mk _ _ _ _ _ _ _).
  assert (Hnew : forall st, elections st = <[electionId := e2]> (elections s) ->
                            election st electionId = e2).
  { intros st Hst. unfold election at 1. by rewrite Hst, lookup_insert_eq. }
  split; [exact Hchk0 |]. split; [| split; [| split; [| split; [| split; [| split]]]]];
    try done.
  - by rewrite Hnew.
  - intros e Hne. unfold election. simpl. by rewrite lookup_insert_ne.
  - intros Hact m' candidateId.
    match goal with |- is_Err (vote _ _ _ ?st) /\ _ => set (s1 := st) end.
    assert (Hex1 : Election.exists_ (election s1 electionId) = true)
      by (rewrite (Hnew s1 eq_refl); exact Hchk0).
    assert (Hoff : Election.active (election s1 electionId) = false)
      by (rewrite (Hnew s1 eq_refl); simpl; by rewrite Hact).
    unfold vote, onlyAuthorized, onlyDuringElection. rewrite Hex1, Hoff.
    split.
    + destruct (Voter.authorized (voter s1 (sender m'))); by eexists.
    + by intros ->.
  - intros m' s2 H. unfold toggleElectionStatus in H. bind_inv H. bind_inv H.
    injection H as <-.
    match goal with |- context [election ?st electionId] => rewrite (Hnew st eq_refl) end.
    simpl. rewrite insert_insert_eq.
    destruct s as [o en p vs cs es cc ec tv]. simpl in *. f_equal.
    apply insert_id. rewrite Hw. f_equal. subst e2.
    destruct (election _ electionId); simpl. by rewrite negb_involutive.
Qed.

Lemma toggleElectionStatus_flips_witness :
  vote (mkMsg 7 250) 1 1
    (transact (mkMsg 1 210) (call_toggleElectionStatus 1) Scenario.with_second)
    = Err (Revert "Election is not active") /\
  transact (mkMsg 1 220) (call_toggleElectionStatus 1)
    (transact (mkMsg 1 210) (call_toggleElectionStatus 1) Scenario.with_second)
  = Scenario.with_second.
Proof.
  assert (Htog : toggleElectionStatus (mkMsg 1 210) 1 Scenario.with_second
                 = Ok (transact (mkMsg 1 210) (call_toggleElectionStatus 1)
                         Scenario.with_second))
    by (vm_compute; reflexivity).
  destruct (toggleElectionStatus_flips _ _ _ _ Htog) as (_ & _ & _ & _ & _ & _ & Hoff & Hback).
  split.
  - apply Hoff; vm_compute; reflexivity.
  - apply (Hback (mkMsg 1 220)). vm_compute. reflexivity.
Defined.

(** X22. pause of VotingSystem stops voting and nothing else. After a
    successful pause every vote fails, with "Pausable: paused" when the
    checks before it pass; authorizeVoter, addCandidate, createElection
    and toggleElectionStatus behave as on the unpaused contract, their
    result differing by the flag only; a second pause fails; and unpause
    gives back exactly the storage before the pause. *)
Theorem pause_stops_votes_only (m : Msg) (s s1 : State) :
  pause m s = Ok s1 ->
  s1 = set_paused true s /\ _paused s = false /\
  (forall m' candidateId electionId, is_Err (vote m' candidateId electionId s1)) /\
  (forall m' candidateId electionId,
     onlyAuthorized m' s = Ok tt -> onlyDuringElection m' electionId s = Ok tt ->
     validCandidate candidateId s = Ok tt -> _entered s = false ->
     vote m' candidateId electionId s1 = Err (Revert "Pausable: paused")) /\
  (forall m' v, authorizeVoter m' v s1 = set_paused true <$> authorizeVoter m' v s) /\
  (forall m' name party, addCandidate m' name party s1
                         = set_paused true <$> addCandidate m' name party s) /\
  (forall m' title description startTime endTime,
     createElection m' title description startTime endTime s1
     = set_paused true <$> createElection m' title description startTime endTime s) /\
  (forall m' electionId, toggleElectionStatus m' electionId s1
                         = set_paused true <$> toggleElectionStatus m' electionId s) /\
  (forall m', is_Err (pause m' s1)) /\
  (forall m' s2, unpause m' s1 = Ok s2 -> s2 = s).
Proof.
  intros H. unfold pause in H. bind_inv H. bind_inv H. injection H as <-.
  apply require_Ok, negb_true_iff in Hchk0.
  split; [done |]. split; [done |].
  split; [| split; [| split; [| split; [| split; [| split; [| split]]]]]].
  - intros m' c e. unfold vote.
    destruct (onlyAuthorized m' (set_paused true s)); simpl; [| by eexists].
    destruct (onlyDuringElection m' e (set_paused true s)); simpl; [| by eexists].
    destruct (validCandidate c (set_paused true s)); simpl; [| by eexists].
    unfold nonReentrant. simpl.
    destruct (negb (_entered s)); simpl; by eexists.
  - intros m' c e Ha Hd Hv Hent. unfold vote.
    change (onlyAuthorized m' (set_paused true s)) with (onlyAuthorized m' s).
    change (onlyDuringElection m' e (set_paused true s)) with (onlyDuringElection m' e s).
    change (validCandidate c (set_paused true s)) with (validCandidate c s).
    rewrite Ha, Hd, Hv. simpl. unfold nonReentrant. simpl. by rewrite Hent.
  - intros m' v. unfold authorizeVoter, onlyOwner. simpl.
    destruct (_owner s =? sender m'); simpl; [| done].
    change (voter (set_paused true s) v) with (voter s v).
    by destruct (Voter.exists_ (voter s v)).
  - intros m' name party. unfold addCandidate, onlyOwner. simpl.
    destruct (_owner s =? sender m'); simpl; [| done].
    by destruct (checked_inc (candidatesCount s)).
  - intros m' t d st en. unfold createElection, onlyOwner. simpl.
    destruct (_owner s =? sender m'); simpl; [| done].
    destruct (st <? en); simpl; [| done].
    destruct (timestamp m' <? st); simpl; [| done].
    by destruct (checked_inc (electionsCount s)).
  - intros m' e. unfold toggleElectionStatus, onlyOwner. simpl.
    destruct (_owner s =? sender m'); simpl; [| done].
    change (election (set_paused true s) e) with (election s e).
    by destruct (Election.exists_ (election s e)).
  - intros m'. unfold pause, onlyOwner. simpl.
    destruct (_owner s =? sender m'); simpl; by eexists.
  - intros m' s2 H. unfold unpause in H. bind_inv H. bind_inv H. injection H as <-.
    destruct s. unfold set_paused. simpl in *. by subst.
Qed.

Lemma pause_stops_votes_only_witness :
  vote (mkMsg 7 250) 1 1 (transact (mkMsg 1 210) call_pause Scenario.with_second)
    = Err (Revert "Pausable: paused") /\
  transact (mkMsg 1 220) call_unpause (transact (mkMsg 1 210) call_pause Scenario.with_second)
  = Scenario.with_second.
Proof.
  assert (Hp : pause (mkMsg 1 210) Scenario.with_second
               = Ok (transact (mkMsg 1 210) call_pause Scenario.with_second))
    by (vm_compute; reflexivity).
  destruct (pause_stops_votes_only _ _ _ Hp) as (_ & _ & _ & Hvote & _ & _ & _ & _ & _ & Hback).
  split.
  - apply Hvote; vm_compute; reflexivity.
  - apply (Hback (mkMsg 1 220)). vm_compute. reflexivity.
Defined.

(** Once the owner is the zero address, a transaction of any other
    sender leaves everything but the votes as it is. *)
Lemma execute_ownerless m c s s' :
  _owner s = 0 -> sender m <> 0 -> execute m c s = Ok s' ->
  _owner s' = 0 /\ _paused s' = _paused s /\ elections s' = elections s /\
  candidatesCount s' = candidatesCount s /\ electionsCount s' = electionsCount s /\
  (forall a, Voter.authorized (voter s' a) = Voter.authorized (voter s a)) /\
  (_paused s = true -> s' = s).
Proof.
  intros Hown Hne H.
  assert (Hno : onlyOwner m s = Err (Revert "Ownable: caller is not the owner")).
  { unfold onlyOwner. rewrite Hown.
    destruct (0 =? sender m) eqn:Heq; [| done]. apply N.eqb_eq in Heq. congruence. }
  destruct c; simpl in H;
    try (unfold authorizeVoter, addCandidate, createElection, toggleElectionStatus, pause,
           unpause, transferOwnership, renounceOwnership in H;
         rewrite Hno in H; discriminate H).
  pose proof H as Hvote.
  apply vote_Ok_state in H as (Hauth & _ & _ & _ & Hp & _ & ->). simpl.
  repeat split; try done.
  - intros a. unfold voter. simpl. destruct (decide (a = sender m)) as [->|Hna].
    + rewrite lookup_insert_eq. done.
    + by rewrite lookup_insert_ne.
  - intros Hpaused. congruence.
Qed.

(** X23. renounceOwnership leaves VotingSystem without administration
    for good. After it, whatever transactions follow (none sent from the
    zero address), the owner stays the zero address, the pause flag, the
    elections, both counters and every voter's authorization stay as
    they were, and each of authorizeVoter, addCandidate, createElection,
    toggleElectionStatus, pause and unpause fails with "Ownable: caller
    is not the owner". If the contract was paused at that moment nothing
    changes at all any more: no vote is ever accepted again. *)
Theorem renounceOwnership_is_final (m : Msg) (s s1 : State) (txs : list (Msg * Call)) :
  renounceOwnership m s = Ok s1 ->
  Forall (fun tx => sender (fst tx) <> 0) txs ->
  _owner (run txs s1) = 0 /\
  _paused (run txs s1) = _paused s /\
  elections (run txs s1) = elections s /\
  candidatesCount (run txs s1) = candidatesCount s /\
  electionsCount (run txs s1) = electionsCount s /\
  (forall a, Voter.authorized (voter (run txs s1) a) = Voter.authorized (voter s a)) /\
  (_paused s = true -> run txs s1 = s1) /\
  (forall m' c, sender m' <> 0 ->
     match c with
     | call_vote _ _ | call_transferOwnership _ | call_renounceOwnership => True
     | _ => execute m' c (run txs s1) = Err (Revert "Ownable: caller is not the owner")
     end).
Proof.
  intros H Hs. unfold renounceOwnership in H. bind_inv H. injection H as <-.
  assert (Hinv : _owner (run txs (set_owner 0 s)) = 0 /\
                 _paused (run txs (set_owner 0 s)) = _paused s /\
                 elections (run txs (set_owner 0 s)) = elections s /\
                 candidatesCount (run txs (set_owner 0 s)) = candidatesCount s /\
                 electionsCount (run txs (set_owner 0 s)) = electionsCount s /\
                 (forall a, Voter.authorized (voter (run txs (set_owner 0 s)) a)
                            = Voter.authorized (voter s a)) /\
                 (_paused s = true -> run txs (set_owner 0 s) = set_owner 0 s)).
  { assert (H0 : _owner (set_owner 0 s) = 0 /\
                 _paused (set_owner 0 s) = _paused s /\
                 elections (set_owner 0 s) = elections s /\
                 candidatesCount (set_owner 0 s) = candidatesCount s /\
                 electionsCount (set_owner 0 s) = electionsCount s /\
                 (forall a, Voter.authorized (voter (set_owner 0 s) a)
                            = Voter.authorized (voter s a))) by done.
    generalize dependent (set_owner 0 s). clear Hchk.
    induction Hs as [|[m0 c] txs Hm0 Hs IH]; intros s1 H1; simpl.
    - destruct H1 as (? & ? & ? & ? & ? & ?). done.
    - destruct H1 as (Ho & Hp & He & Hcc & Hec & Hv).
      unfold transact. destruct (execute m0 c s1) as [s2|err] eqn:Hex.
      + destruct (execute_ownerless _ _ _ _ Ho Hm0 Hex)
          as (Ho2 & Hp2 & He2 & Hcc2 & Hec2 & Hv2 & Hsame).
        destruct (IH s2) as (A & B & C & D & E & F & G).
        { repeat split; first [congruence | intros a; by rewrite Hv2]. }
        repeat split; try done.
        intros Hpaused. rewrite (G Hpaused). apply Hsame. congruence.
      + destruct (IH s1) as (A & B & C & D & E & F & G); [done |].
        repeat split; done. }
  destruct Hinv as (Ho & Hp & He & Hcc & Hec & Hv & Hfix).
  repeat split; try done.
  intros m' c Hne.
  assert (Hno : onlyOwner m' (run txs (set_owner 0 s))
                = Err (Revert "Ownable: caller is not the owner")).
  { unfold onlyOwner. rewrite Ho.
    destruct (0 =? sender m') eqn:Heq; [| done]. apply N.eqb_eq in Heq. congruence. }
  destruct c; try done; simpl;
    unfold authorizeVoter, addCandidate, createElection, toggleElectionStatus, pause, unpause;
    by rewrite Hno.
Qed.

Lemma renounceOwnership_is_final_witness :
  _owner (run [(mkMsg 1 230, call_unpause); (mkMsg 7 250, call_vote 1 1)]
            (transact (mkMsg 1 220) call_renounceOwnership
               (transact (mkMsg 1 210) call_pause Scenario.with_second))) = 0 /\
  run [(mkMsg 1 230, call_unpause); (mkMsg 7 250, call_vote 1 1)]
    (transact (mkMsg 1 220) call_renounceOwnership
       (transact (mkMsg 1 210) call_pause Scenario.with_second))
  = transact (mkMsg 1 220) call_renounceOwnership
      (transact (mkMsg 1 210) call_pause Scenario.with_second).
Proof.
  assert (Hr : renounceOwnership (mkMsg 1 220)
                 (transact (mkMsg 1 210) call_pause Scenario.with_second)
               = Ok (transact (mkMsg 1 220) call_renounceOwnership
                       (transact (mkMsg 1 210) call_pause Scenario.with_second)))
    by (vm_compute; reflexivity).
  assert (Hs : Forall (fun tx : Msg * Call => sender (fst tx) <> 0)
                 [(mkMsg 1 230, call_unpause); (mkMsg 7 250, call_vote 1 1)])
    by (repeat constructor; simpl; lia).
  destruct (renounceOwnership_is_final _ _ _ _ Hr Hs) as (Ho & _ & _ & _ & _ & _ & Hfix & _).
  split; [exact Ho |].
  apply Hfix. vm_compute. reflexivity.
Defined.

End SystemStatusProps.
